(** * ClamAV mirror to S3: the reconciliation scripts, embedded and verified

    Shallow embedding of [s3_sync.py], of the S3 part of
    [config_manager.py] and of the hand-over to [s3_sync.py] in
    [update_databases.py] (directory [clamav/cvd-mirror-to-s3-bucket]).

    The Python code talks to three pieces of mutable world: the S3 bucket
    (through a boto3 client), the local file system (through [pathlib]) and
    a logger.  They are gathered in a [World] record that every function
    threads through a state-and-exception monad [M]; what the world does on
    its own account (injected client errors, clocks, environment variables)
    is a read-only [Env].

    Modelling choices, stated once:
    - timestamps ([st_mtime], [LastModified.timestamp()]) are totally
      ordered numbers; they are integers here (any fixed sub-second unit);
    - a [Path] is the tuple [pathlib] calls [parts];
    - the world holds the objects of the one bucket the run addresses;
      bucket-level trouble is an injected client error;
    - calls of the S3 client and [mkdir] are recorded in [calls], log
      records in [log]; [exists()] and [stat()] only read. *)

From Stdlib Require Import ZArith Lia Ascii String List Bool.
From stdpp Require Import base gmap strings list sorting fin_maps.

Local Open Scope string_scope.
Local Open Scope list_scope.
Local Open Scope Z_scope.

(** ** Python strings *)

Module PyString.

Definition is_slash (c : ascii) : bool := Ascii.eqb c "/"%char.

(** [s.lstrip('/')] *)
Fixpoint lstrip_slash (s : string) : string :=
  match s with
  | String c r => if is_slash c then lstrip_slash r else s
  | EmptyString => EmptyString
  end.

(** [s.rstrip('/')] *)
Fixpoint rstrip_slash (s : string) : string :=
  match s with
  | EmptyString => EmptyString
  | String c r =>
      match rstrip_slash r with
      | EmptyString => if is_slash c then EmptyString else String c EmptyString
      | r' => String c r'
      end
  end.

(** [s.replace('//', '/')]: one left-to-right pass over non-overlapping
    occurrences. *)
Fixpoint replace_dslash (s : string) : string :=
  match s with
  | EmptyString => EmptyString
  | String c r =>
      match r with
      | String c' r' =>
          if is_slash c && is_slash c' then String "/"%char (replace_dslash r')
          else String c (replace_dslash r)
      | EmptyString => s
      end
  end.

(** [s[n:]] *)
Fixpoint drop (n : nat) (s : string) : string :=
  match n, s with
  | O, _ => s
  | S n', String _ r => drop n' r
  | S _, EmptyString => EmptyString
  end.

(** [s.startswith(p)] *)
Definition startswith (p s : string) : bool := String.prefix p s.

(** [s.endswith(p)] *)
Definition endswith (p s : string) : bool :=
  (String.length p <=? String.length s)%nat
  && String.eqb p (drop (String.length s - String.length p) s).

(** [s.split('/')] *)
Fixpoint split_slash (s : string) : list string :=
  match s with
  | EmptyString => [EmptyString]
  | String c r =>
      if is_slash c then EmptyString :: split_slash r
      else match split_slash r with
           | h :: t => String c h :: t
           | [] => [String c EmptyString]
           end
  end.


(** Truthiness of a string: [if s:] *)
Definition truthy (s : string) : bool := negb (String.eqb s EmptyString).

(** [s.lower()] on the letters A-Z.  Strings are byte strings here; the
    only other characters Python lowers to an ASCII letter give a [k] or
    an [i] followed by a combining dot, which no word [lower] is compared
    with below contains. *)
Definition lower_char (c : ascii) : ascii :=
  let n := Ascii.N_of_ascii c in
  if ((65 <=? n) && (n <=? 90))%N then Ascii.ascii_of_N (n + 32) else c.

Fixpoint lower (s : string) : string :=
  match s with
  | EmptyString => EmptyString
  | String c r => String (lower_char c) (lower r)
  end.

(** No ['/'] in [s]; no ['//'] in [s]. *)
Fixpoint no_slash (s : string) : bool :=
  match s with
  | EmptyString => true
  | String c r => negb (is_slash c) && no_slash r
  end.

Fixpoint no_dslash (s : string) : bool :=
  match s with
  | String c r =>
      match r with
      | String c' _ => negb (is_slash c && is_slash c') && no_dslash r
      | EmptyString => true
      end
  | EmptyString => true
  end.

End PyString.

(** ** [pathlib] paths *)

Abbreviation Path := (list string).

Module PyPath.

(** The components a string contributes to a path: empty components and
    ["."] vanish, [".."] stays. *)
Definition components (s : string) : list string :=
  List.filter (fun c => negb (String.eqb c EmptyString) && negb (String.eqb c "."))
              (PyString.split_slash s).

(** POSIX keeps a root of exactly two slashes apart from ["/"]. *)
Definition root_of (s : string) : string :=
  if PyString.startswith "//" s && negb (PyString.startswith "///" s) then "//" else "/".

Definition is_root (c : string) : bool := String.eqb c "/" || String.eqb c "//".

(** [p / s]: an absolute right operand replaces the left one. *)
Definition join (p : Path) (s : string) : Path :=
  if PyString.startswith "/" s then root_of s :: components s
  else (p ++ components s)%list.

(** [Path(s)] *)
Definition of_string (s : string) : Path := join [] s.

(** [p.name]: the last component, empty for a bare root and for ['.']. *)
Definition name (p : Path) : string :=
  match p with
  | [c] => if is_root c then EmptyString else c
  | _ => List.last p EmptyString
  end.

(** [p.parent] *)
Definition parent (p : Path) : Path :=
  match p with
  | [c] => if is_root c then p else []
  | _ => List.removelast p
  end.

(** The non-empty prefixes of a path, shortest first: the directories
    [mkdir(parents=True)] walks through, the path itself last. *)
Fixpoint prefixes (p : Path) : list Path :=
  match p with
  | [] => []
  | c :: r => [c] :: List.map (cons c) (prefixes r)
  end.

End PyPath.

(** ** The world *)

Inductive exn :=
| ClientError (code : string)     (* botocore.exceptions.ClientError *)
| TypeError
| OSError                         (* FileNotFoundError, IsADirectoryError, ... *)
| KeyError (key : string).

Inductive result (A : Type) :=
| Ok (a : A)
| Raise (e : exn).
Arguments Ok {A} a.
Arguments Raise {A} e.

(** Values found in the JSON configuration files. *)
Inductive pyval :=
| PyNone
| PyBool (b : bool)
| PyStr (s : string).

(** What a regular file holds, as far as the scripts look: a JSON object or
    anything else. *)
Inductive content :=
| Blob
| Json (d : gmap string pyval).

Inductive entry :=
| File (mtime : Z) (c : content)
| Dir (mtime : Z).

Definition st_mtime (e : entry) : Z :=
  match e with File t _ => t | Dir t => t end.

Inductive call :=
| HeadObject (bucket key : string)
| UploadFile (file : Path) (bucket key : string)
| ListObjectsV2 (bucket : string) (prefix : option string)
| DownloadFile (bucket key : string) (file : Path)
| HeadBucket (bucket : string)
| Mkdir (dir : Path)
| WriteFile (file : Path).

Inductive level := DEBUG | INFO | WARNING | ERROR.

Inductive message :=
| MsgDirMissing (dir : Path)
| MsgFound (n : nat)
| MsgNoLocalFiles
| MsgSkipUpload (name : string)
| MsgWouldUpload (name bucket key : string)
| MsgUploading (name bucket key : string)
| MsgUploadFailed (name : string) (e : exn)
| MsgUploaded (success_count total_files : nat)
| MsgWouldUploadTotal (success_count total_files : nat)
| MsgNoRemoteFiles (bucket prefix : string)
| MsgSkipDownload (relative_path : string)
| MsgWouldDownload (bucket key : string) (file : Path)
| MsgDownloading (bucket key : string) (file : Path)
| MsgDownloaded (success_count total_files : nat)
| MsgWouldDownloadTotal (success_count total_files : nat)
| MsgDownloadFailed (e : exn)
| MsgTesting (bucket : string)
| MsgBucketAccessible (bucket : string)
| MsgBucketRegion
| MsgListConfirmed
| MsgLimitedList
| MsgTestSuccessful
| MsgTestFailed (e : exn)
| MsgBucketNotConfigured
| MsgSyncDisabled
| MsgClientFailed
| MsgStartUpload
| MsgStartDownload
| MsgSettingPrefix (prefix : string)
| MsgPrefixSet
| MsgSettingBucket (bucket : string)
| MsgBucketSet
| MsgSettingRegion (region : string)
| MsgRegionSet
| MsgSettingSync (enabled : bool)
| MsgSyncSet (enabled : bool)
| MsgUsingBucket (bucket : string)
| MsgS3ConfigNotFound
| MsgS3ConfigUnreadable
| MsgSyncDisabledWarning
| MsgBucketMissing
| MsgStartingSync (bucket region : pyval)
| MsgScriptNotFound (script : Path)
| MsgRunningSync (verbose dry_run : bool)
| MsgSyncCompleted
| MsgSyncFailed (returncode : Z)
| MsgSyncStderr
| MsgRunFailed (e : exn).

Record World := mkWorld {
  objects : gmap string Z;        (* key -> LastModified of the bucket *)
  fs : gmap Path entry;           (* the local file system *)
  calls : list call;              (* client and mkdir calls, oldest first *)
  log : list (level * message)    (* log records, oldest first *)
}.

(** What the surroundings decide. *)
Record Env := mkEnv {
  environ : gmap string string;                   (* os.environ *)
  home : Path;                                    (* Path.home() *)
  head_object_error : string -> option string;    (* error code per key *)
  upload_file_error : string -> option string;
  list_objects_error : option string -> option string;  (* per Prefix *)
  download_file_error : string -> option string;
  head_bucket_error : string -> option string;
  client_creation_fails : bool;
  mkdir_denied : Path -> bool;
  s3_clock : nat -> Z;      (* LastModified given by the store at the n-th call *)
  local_clock : nat -> Z    (* mtime given by the file system at the n-th call *)
}.

Definition set_objects (o : gmap string Z) (w : World) : World :=
  mkWorld o (fs w) (calls w) (log w).
Definition set_fs (f : gmap Path entry) (w : World) : World :=
  mkWorld (objects w) f (calls w) (log w).
Definition set_calls (c : list call) (w : World) : World :=
  mkWorld (objects w) (fs w) c (log w).
Definition set_log (l : list (level * message)) (w : World) : World :=
  mkWorld (objects w) (fs w) (calls w) l.

(** ** The monad: state plus Python exceptions *)

Definition M (A : Type) : Type := World -> result A * World.

Definition ret {A} (a : A) : M A := fun w => (Ok a, w).

Definition bind {A B} (m : M A) (k : A -> M B) : M B :=
  fun w => match m w with
           | (Ok a, w') => k a w'
           | (Raise e, w') => (Raise e, w')
           end.

Definition raise {A} (e : exn) : M A := fun w => (Raise e, w).

(** [try: m except ...: h]: the handler says which exceptions it takes;
    the others go on. *)
Definition try_except {A} (m : M A) (h : exn -> option (M A)) : M A :=
  fun w => match m w with
           | (Ok a, w') => (Ok a, w')
           | (Raise e, w') =>
               match h e with
               | Some k => k w'
               | None => (Raise e, w')
               end
           end.

Definition get {A} (f : World -> A) : M A := fun w => (Ok (f w), w).
Definition modify (f : World -> World) : M unit := fun w => (Ok tt, f w).

Declare Scope M_scope.
Delimit Scope M_scope with M.
Notation "x ← y ; z" := (bind y (fun x => z))
  (at level 20, y at level 100, z at level 200, only parsing) : M_scope.
Notation "x ;; z" := (bind x (fun _ => z))
  (at level 100, z at level 200, only parsing, right associativity) : M_scope.
Local Open Scope M_scope.

(** [except ClientError as e] *)
Definition except_ClientError {A} (k : exn -> M A) (e : exn) : option (M A) :=
  match e with
  | ClientError _ => Some (k e)
  | _ => None
  end.

Definition logger (lv : level) (msg : message) : M unit :=
  modify (fun w => set_log (log w ++ [(lv, msg)])%list w).

(** Record a call; the answer is its rank, which the clocks read. *)
Definition record (c : call) : M nat :=
  fun w => (Ok (length (calls w)), set_calls (calls w ++ [c])%list w).

(** ** The boto3 client and the file system, as the scripts use them *)

Section Client.

Variable env : Env.

(** [s3_client.head_object(Bucket=bucket, Key=key)['LastModified'].timestamp()];
    a missing key is the client error ['404']. *)
Definition head_object (bucket key : string) : M Z :=
  record (HeadObject bucket key);;
  match head_object_error env key with
  | Some code => raise (ClientError code)
  | None =>
      o ← get objects;
      match o !! key with
      | Some t => ret t
      | None => raise (ClientError "404")
      end
  end.

(** [s3_client.upload_file(str(file), bucket, key)]: reads the local file,
    then stores the object under the store's clock. *)
Definition upload_file (file : Path) (bucket key : string) : M unit :=
  n ← record (UploadFile file bucket key);
  f ← get fs;
  match f !! file with
  | Some (File _ _) =>
      match upload_file_error env key with
      | Some code => raise (ClientError code)
      | None => modify (fun w => set_objects (<[key := s3_clock env n]> (objects w)) w)
      end
  | _ => raise OSError
  end.

Definition key_le (a b : string * Z) : Prop := String.leb a.1 b.1 = true.

#[local] Instance key_le_dec a b : Decision (key_le a b).
Proof. unfold key_le. apply _. Defined.

(** The ['Contents'] of [list_objects_v2]: the keys under the prefix in
    the store's (byte) order, at most [max_keys] of them; the entry is
    absent when there is none. *)
Definition contents_of (o : gmap string Z) (prefix : option string) (max_keys : nat)
  : option (list (string * Z)) :=
  let under := List.filter
                 (fun kv => match prefix with
                            | Some p => PyString.startswith p kv.1
                            | None => true
                            end)
                 (map_to_list o) in
  match take max_keys (merge_sort key_le under) with
  | [] => None
  | l => Some l
  end.

(** [s3_client.list_objects_v2(Bucket=bucket, Prefix=prefix, MaxKeys=max_keys)] *)
Definition list_objects_v2 (bucket : string) (prefix : option string) (max_keys : nat)
  : M (option (list (string * Z))) :=
  record (ListObjectsV2 bucket prefix);;
  match list_objects_error env prefix with
  | Some code => raise (ClientError code)
  | None => o ← get objects; ret (contents_of o prefix max_keys)
  end.

(** [s3_client.download_file(bucket, key, str(file))]: the caller has made
    the parent directory; writing over a directory fails. *)
Definition download_file (bucket key : string) (file : Path) : M unit :=
  n ← record (DownloadFile bucket key file);
  match download_file_error env key with
  | Some code => raise (ClientError code)
  | None =>
      o ← get objects;
      match o !! key with
      | None => raise (ClientError "404")
      | Some _ =>
          f ← get fs;
          match f !! file with
          | Some (Dir _) => raise OSError
          | _ => modify (fun w => set_fs (<[file := File (local_clock env n) Blob]> (fs w)) w)
          end
      end
  end.

(** [s3_client.head_bucket(Bucket=bucket)] *)
Definition head_bucket (bucket : string) : M unit :=
  record (HeadBucket bucket);;
  match head_bucket_error env bucket with
  | Some code => raise (ClientError code)
  | None => ret tt
  end.

(** Creating the directories of [dirs] (shortest first) at time [t]:
    existing directories are kept, a regular file in the way is an error. *)
Fixpoint make_dirs (t : Z) (dirs : list Path) (f : gmap Path entry)
  : option (gmap Path entry) :=
  match dirs with
  | [] => Some f
  | d :: r =>
      match f !! d with
      | Some (Dir _) => make_dirs t r f
      | Some (File _ _) => None
      | None => make_dirs t r (<[d := Dir t]> f)
      end
  end.

(** [dir.mkdir(parents=True, exist_ok=True)] *)
Definition mkdir (dir : Path) : M unit :=
  n ← record (Mkdir dir);
  if mkdir_denied env dir then raise OSError
  else
    f ← get fs;
    match make_dirs (local_clock env n) (PyPath.prefixes dir) f with
    | Some f' => modify (set_fs f')
    | None => raise OSError
    end.

(** [p.exists()] *)
Definition exists_ (p : Path) : M bool :=
  f ← get fs; ret (bool_decide (is_Some (f !! p))).

(** [p.stat().st_mtime] *)
Definition stat_mtime (p : Path) : M Z :=
  f ← get fs;
  match f !! p with
  | Some e => ret (st_mtime e)
  | None => raise OSError
  end.

End Client.

(** ** [s3_sync.py] *)

Module S3Sync.

Section WithEnv.

Variable env : Env.

(** The S3 key of a local file (lines 146-151). *)
Definition s3_key_of (prefix : string) (local_file : Path) : string :=
  let relative_path :=
    if String.eqb (PyPath.name (PyPath.parent local_file)) ".cvdupdate"
    then ("metadata/" ++ PyPath.name local_file)%string
    else PyPath.name local_file in
  PyString.replace_dslash (prefix ++ relative_path)%string.

(** The body of the [for] loop of [upload_to_s3] (lines 146-186); the
    answer is the new [success_count].  The inner block answers [None]
    when it leaves through [continue]. *)
Definition upload_one (bucket prefix : string) (force dry_run : bool)
    (success_count : nat) (local_file : Path) : M nat :=
  let s3_key := s3_key_of prefix local_file in
  try_except
    (decision ←
       ((if negb force then
          try_except
            (s3_modified ← head_object env bucket s3_key;
             local_modified ← stat_mtime local_file;
             let should_upload := bool_decide (s3_modified < local_modified) in
             if negb should_upload then
               logger DEBUG (MsgSkipUpload (PyPath.name local_file));;
               ret None                                      (* continue *)
             else ret (Some should_upload))
            (fun e => match e with
                      | ClientError code =>
                          if String.eqb code "404" then Some (ret (Some true))
                          else None                          (* raise *)
                      | _ => None
                      end)
        else ret (Some force)) : M (option bool));
     match decision with
     | None => ret success_count
     | Some should_upload =>
         if should_upload then
           (if dry_run then
              logger INFO (MsgWouldUpload (PyPath.name local_file) bucket s3_key)
            else
              logger INFO (MsgUploading (PyPath.name local_file) bucket s3_key);;
              upload_file env local_file bucket s3_key);;
           ret (S success_count)
         else ret success_count
     end)
    (except_ClientError
       (fun e =>
          logger ERROR (MsgUploadFailed (PyPath.name local_file) e);;
          ret success_count)).

Fixpoint upload_loop (bucket prefix : string) (force dry_run : bool)
    (local_files : list Path) (success_count : nat) : M nat :=
  match local_files with
  | [] => ret success_count
  | local_file :: rest =>
      c ← upload_one bucket prefix force dry_run success_count local_file;
      upload_loop bucket prefix force dry_run rest c
  end.

(** [upload_to_s3(s3_client, bucket, prefix, local_files, force, dry_run, logger)] *)
Definition upload_to_s3 (bucket prefix : string) (local_files : list Path)
    (force dry_run : bool) : M bool :=
  match local_files with
  | [] => logger WARNING MsgNoLocalFiles;; ret true
  | _ =>
      let total_files := length local_files in
      success_count ← upload_loop bucket prefix force dry_run local_files 0%nat;
      (if negb dry_run then logger INFO (MsgUploaded success_count total_files)
       else logger INFO (MsgWouldUploadTotal success_count total_files));;
      ret (Nat.eqb success_count total_files)
  end.

(** The local file of a listed key (lines 211-218), with the relative
    path the log shows. *)
Definition local_file_of (prefix : string) (db_dir : Path) (s3_key : string)
  : string * Path :=
  let relative_path :=
    PyString.lstrip_slash (PyString.drop (String.length prefix) s3_key) in
  (relative_path,
   if PyString.startswith "metadata/" relative_path
   then PyPath.join (PyPath.parent db_dir) (PyString.drop 9 relative_path)
   else PyPath.join db_dir relative_path).

(** The body of the [for] loop of [download_from_s3] (lines 211-240). *)
Definition download_one (bucket prefix : string) (db_dir : Path)
    (force dry_run : bool) (success_count : nat) (obj : string * Z) : M nat :=
  let s3_key := obj.1 in
  let relative_path := (local_file_of prefix db_dir s3_key).1 in
  let local_file := (local_file_of prefix db_dir s3_key).2 in
  present ← (if negb force then exists_ local_file else ret false);
  decision ←
    ((if negb force && present then
        let s3_modified := obj.2 in
        local_modified ← stat_mtime local_file;
        let should_download := bool_decide (local_modified < s3_modified) in
        if negb should_download then
          logger DEBUG (MsgSkipDownload relative_path);;
          ret None                                           (* continue *)
        else ret (Some should_download)
      else ret (Some force)) : M (option bool));
  match decision with
  | None => ret success_count
  | Some should_download =>
      if should_download then
        (if dry_run then
           logger INFO (MsgWouldDownload bucket s3_key local_file)
         else
           logger INFO (MsgDownloading bucket s3_key local_file);;
           mkdir env (PyPath.parent local_file);;
           download_file env bucket s3_key local_file);;
        ret (S success_count)
      else ret success_count
  end.

Fixpoint download_loop (bucket prefix : string) (db_dir : Path)
    (force dry_run : bool) (contents : list (string * Z)) (success_count : nat)
  : M nat :=
  match contents with
  | [] => ret success_count
  | obj :: rest =>
      c ← download_one bucket prefix db_dir force dry_run success_count obj;
      download_loop bucket prefix db_dir force dry_run rest c
  end.

(** [download_from_s3(s3_client, bucket, prefix, db_dir, force, dry_run, logger)];
    [list_objects_v2] answers at most 1000 keys when [MaxKeys] is left out. *)
Definition download_from_s3 (bucket prefix : string) (db_dir : Path)
    (force dry_run : bool) : M bool :=
  try_except
    (response ← list_objects_v2 env bucket (Some prefix) 1000;
     match response with
     | None => logger WARNING (MsgNoRemoteFiles bucket prefix);; ret true
     | Some contents =>
         mkdir env db_dir;;
         let total_files := length contents in
         success_count ←
           download_loop bucket prefix db_dir force dry_run contents 0%nat;
         (if negb dry_run then logger INFO (MsgDownloaded success_count total_files)
          else logger INFO (MsgWouldDownloadTotal success_count total_files));;
         ret true
     end)
    (except_ClientError
       (fun e => logger ERROR (MsgDownloadFailed e);; ret false)).

(** [test_s3_connection(s3_client, bucket, logger)] *)
Definition test_s3_connection (bucket : string) : M bool :=
  try_except
    (logger INFO (MsgTesting bucket);;
     head_bucket env bucket;;
     logger INFO (MsgBucketAccessible bucket);;
     logger INFO MsgBucketRegion;;
     try_except
       (list_objects_v2 env bucket None 1;;
        logger INFO MsgListConfirmed)
       (fun e => match e with
                 | ClientError code =>
                     if String.eqb code "AccessDenied"
                     then Some (logger WARNING MsgLimitedList)
                     else None                               (* raise *)
                 | _ => None
                 end);;
     logger INFO MsgTestSuccessful;;
     ret true)
    (except_ClientError
       (fun e => logger ERROR (MsgTestFailed e);; ret false)).

(** A Python dict as read from JSON: [d[k]] raises [KeyError] on a missing
    key; [if v:] is the truth value. *)
Definition getitem (d : gmap string pyval) (k : string) : M pyval :=
  match d !! k with
  | Some v => ret v
  | None => raise (KeyError k)
  end.

Definition py_truthy (v : pyval) : bool :=
  match v with
  | PyNone => false
  | PyBool b => b
  | PyStr s => PyString.truthy s
  end.

(** Bucket and prefix reach the client and the string operations as
    strings; another JSON value there ends the run with a type error. *)
Definition as_str (v : pyval) : M string :=
  match v with
  | PyStr s => ret s
  | _ => raise TypeError
  end.

Definition unset_config : gmap string pyval :=
  list_to_map [("bucket", PyNone); ("region", PyStr "us-east-1");
               ("prefix", PyStr "clamav/databases/"); ("sync_enabled", PyBool false)].

(** [x or d] on an optional string: [None] and [''] give way to [d]. *)
Definition or_default (x : option string) (d : string) : string :=
  match x with
  | Some v => if PyString.truthy v then v else d
  | None => d
  end.

Definition opt_truthy (x : option string) : bool :=
  match x with
  | Some v => PyString.truthy v
  | None => false
  end.

Definition s3_config_file : Path := (home env ++ [".cvdupdate"; "s3_config.json"])%list.

(** [load_s3_config()] of [s3_sync.py] (lines 32-67).  Opening a directory
    is an [OSError] that the handler (JSON and missing-file errors) lets
    through. *)
Definition load_s3_config : M (gmap string pyval) :=
  let env_bucket := environ env !! "S3_BUCKET_NAME" in
  let env_region := environ env !! "S3_REGION" in
  if opt_truthy env_bucket then
    ret (list_to_map
           [("bucket", PyStr (default EmptyString env_bucket));
            ("region", PyStr (or_default env_region "us-east-1"));
            ("prefix", PyStr "clamav/databases/");
            ("sync_enabled", PyBool true)])
  else
    f ← get fs;
    match f !! s3_config_file with
    | None => ret unset_config
    | Some (File _ (Json d)) => ret d
    | Some (File _ Blob) => ret unset_config
    | Some (Dir _) => raise OSError
    end.

(** [get_database_directory()] (lines 70-87); [setup_environment()] only
    touches [PATH] and [VIRTUAL_ENV]. *)
Definition get_database_directory : M Path :=
  let config_dir := (home env ++ [".cvdupdate"])%list in
  let config_file := (config_dir ++ ["config.json"])%list in
  f ← get fs;
  match f !! config_file with
  | None => ret (config_dir ++ ["database"])%list
  | Some (File _ (Json d)) =>
      match d !! "database_directory" with
      | None => ret (config_dir ++ ["database"])%list
      | Some (PyStr s) => ret (PyPath.of_string s)
      | Some _ => raise TypeError
      end
  | Some (File _ Blob) => ret (config_dir ++ ["database"])%list
  | Some (Dir _) => raise OSError
  end.

Definition patterns : list string :=
  [".cvd"; ".cld"; ".cdiff"; ".sign"; ".dat"; ".inc"; ".txt"; ".info"; ".cfg"].

Definition is_child (dir p : Path) : bool :=
  Nat.eqb (length p) (S (length dir)) && bool_decide (take (length dir) p = dir).

(** [dir.glob('*' + suffix)]: the entries of the directory whose name ends
    with the suffix, in the order the map lists them. *)
Definition glob (f : gmap Path entry) (dir : Path) (suffix : string) : list Path :=
  List.filter (fun p => is_child dir p && PyString.endswith suffix (PyPath.name p))
              (List.map fst (map_to_list f)).

(** [get_local_files(db_dir, logger)] (lines 98-133). *)
Definition get_local_files (db_dir : Path) : M (list Path) :=
  f ← get fs;
  match f !! db_dir with
  | None => logger WARNING (MsgDirMissing db_dir);; ret []
  | Some _ =>
      let files := List.concat (List.map (glob f db_dir) patterns) in
      let state_files := [PyPath.join (PyPath.parent db_dir) "state.json";
                          PyPath.join (PyPath.parent db_dir) "config.json"] in
      let files := (files ++ List.filter (fun p => bool_decide (is_Some (f !! p))) state_files)%list in
      logger INFO (MsgFound (length files));;
      ret files
  end.

Record Args := mkArgs {
  verbose : bool;
  upload : bool;
  download : bool;
  test_connection : bool;
  force : bool;
  dry_run : bool
}.

(** [main()] (lines 282-361), from the parsed arguments to the exit code;
    [sys.exit(n)] is the answer [n], an uncaught exception stays one. *)
Definition main (args : Args) : M Z :=
  s3_config ← load_s3_config;
  bucket ← getitem s3_config "bucket";
  if negb (py_truthy bucket) then
    logger ERROR MsgBucketNotConfigured;; ret 1
  else
    sync_enabled ← getitem s3_config "sync_enabled";
    if negb (py_truthy sync_enabled) then
      logger ERROR MsgSyncDisabled;; ret 1
    else
      if bool_decide (s3_config !! "region" = None) || client_creation_fails env then
        logger ERROR MsgClientFailed;; ret 1
      else
        if test_connection args then
          b ← as_str bucket;
          success ← test_s3_connection b;
          ret (if success then 0 else 1)
        else
          db_dir ← get_database_directory;
          if negb (download args) || upload args then
            logger INFO MsgStartUpload;;
            local_files ← get_local_files db_dir;
            b ← as_str bucket;
            prefix ← getitem s3_config "prefix";
            p ← as_str prefix;
            success ← upload_to_s3 b p local_files (force args) (dry_run args);
            ret (if success then 0 else 1)
          else
            logger INFO MsgStartDownload;;
            b ← as_str bucket;
            prefix ← getitem s3_config "prefix";
            p ← as_str prefix;
            success ← download_from_s3 b p db_dir (force args) (dry_run args);
            ret (if success then 0 else 1).

End WithEnv.

End S3Sync.

(** The exit status of the process: an uncaught exception ends it with 1. *)
Definition exit_status (r : result Z) : Z :=
  match r with
  | Ok n => n
  | Raise _ => 1
  end.

(** ** [config_manager.py], the S3 settings *)

Module ConfigManager.

Section WithEnv.

Variable env : Env.

(** [get_s3_config_file_path()] *)
Definition get_s3_config_file_path : Path :=
  (home env ++ [".cvdupdate"; "s3_config.json"])%list.

(** [load_s3_config()] (lines 203-212): whatever goes wrong gives [{}]. *)
Definition load_s3_config : M (gmap string pyval) :=
  f ← get fs;
  match f !! get_s3_config_file_path with
  | Some (File _ (Json d)) => ret d
  | _ => ret ∅
  end.

(** [save_s3_config(config)] (lines 215-220) *)
Definition save_s3_config (config : gmap string pyval) : M unit :=
  let config_file := get_s3_config_file_path in
  mkdir env (PyPath.parent config_file);;
  n ← record (WriteFile config_file);
  f ← get fs;
  match f !! config_file with
  | Some (Dir _) => raise OSError
  | _ => modify (fun w => set_fs (<[config_file := File (local_clock env n) (Json config)]> (fs w)) w)
  end.

(** [set_s3_prefix(prefix, verbose)] (lines 251-262) *)
Definition set_s3_prefix (prefix : string) : M bool :=
  logger INFO (MsgSettingPrefix prefix);;
  config ← load_s3_config;
  let config :=
    <["prefix" := PyStr (if PyString.truthy prefix
                         then (PyString.rstrip_slash prefix ++ "/")%string
                         else EmptyString)]> config in
  save_s3_config config;;
  logger INFO MsgPrefixSet;;
  ret true.

(** [set_s3_bucket(bucket_name, verbose)] (lines 223-234) *)
Definition set_s3_bucket (bucket_name : string) : M bool :=
  logger INFO (MsgSettingBucket bucket_name);;
  config ← load_s3_config;
  let config := <["bucket" := PyStr bucket_name]> config in
  save_s3_config config;;
  logger INFO MsgBucketSet;;
  ret true.

(** [set_s3_region(region, verbose)] (lines 237-248) *)
Definition set_s3_region (region : string) : M bool :=
  logger INFO (MsgSettingRegion region);;
  config ← load_s3_config;
  let config := <["region" := PyStr region]> config in
  save_s3_config config;;
  logger INFO MsgRegionSet;;
  ret true.

(** The spellings [set_s3_sync] takes for "on" (line 269). *)
Definition sync_words : list string := ["true"; "enabled"; "yes"; "1"; "on"].

(** [set_s3_sync(enabled, verbose)] (lines 265-277) *)
Definition set_s3_sync (enabled : string) : M bool :=
  let enabled_bool := bool_decide (PyString.lower enabled ∈ sync_words) in
  logger INFO (MsgSettingSync enabled_bool);;
  config ← load_s3_config;
  let config := <["sync_enabled" := PyBool enabled_bool]> config in
  save_s3_config config;;
  logger INFO (MsgSyncSet enabled_bool);;
  ret true.

End WithEnv.

End ConfigManager.

(** ** [update_databases.py], the hand-over to [s3_sync.py] *)

Module UpdateDatabases.

(** The environment of a child process: [os.environ.copy()] with the two
    variables set (lines 107-109); the rest of the surroundings is shared. *)
Definition child_env (env : Env) (bucket_name region : string) : Env :=
  mkEnv (<["S3_REGION" := region]> (<["S3_BUCKET_NAME" := bucket_name]> (environ env)))
        (home env) (head_object_error env) (upload_file_error env)
        (list_objects_error env) (download_file_error env) (head_bucket_error env)
        (client_creation_fails env) (mkdir_denied env) (s3_clock env) (local_clock env).

(** The records a logger set up with [verbose] lets through. *)
Definition printed (verbose : bool) (l : list (level * message)) : list (level * message) :=
  List.filter (fun r => match r.1 with DEBUG => verbose | _ => true end) l.

Section WithEnv.

Variable env : Env.

(** [subprocess.run([sys.executable, s3_sync.py, ...], capture_output=True,
    env=env)]: [s3_sync.py] runs on the same bucket and file system with a
    logger of its own, whose records are captured.  The answer is the exit
    code and whether anything came out on [stderr] (log records or the
    trace of an uncaught exception); the script prints nothing on
    [stdout]. *)
Definition run_s3_sync (env' : Env) (args : S3Sync.Args) : M (Z * bool) :=
  fun w =>
    let r := S3Sync.main env' args (set_log [] w) in
    let stderr := match r.1 with
                  | Raise _ => true
                  | Ok _ => negb (Nat.eqb (length (printed (S3Sync.verbose args) (log r.2))) 0)
                  end in
    (Ok (exit_status r.1, stderr), set_log (log w) r.2).

(** [s3_sync_databases(verbose, s3_bucket, s3_region, dry_run)] (lines
    53-129); [script_dir] is [Path(__file__).parent].  A bucket or region
    that is no string cannot be put in the child's environment:
    [subprocess.run] raises a [TypeError], which the last handler takes.
    The log file [setup_logging] opens beside the console is part of the
    log here, not of the file system. *)
Definition s3_sync_databases (script_dir : Path) (verbose : bool)
    (s3_bucket s3_region : option string) (dry_run : bool) : M bool :=
  settings ←
    ((if S3Sync.opt_truthy s3_bucket then
        logger INFO (MsgUsingBucket (default EmptyString s3_bucket));;
        ret (Some (PyStr (default EmptyString s3_bucket),
                   PyStr (S3Sync.or_default s3_region "us-east-1")))
      else
        f ← get fs;
        match f !! S3Sync.s3_config_file env with
        | None => logger WARNING MsgS3ConfigNotFound;; ret None
        | Some (Dir _) => raise OSError
        | Some (File _ Blob) => logger ERROR MsgS3ConfigUnreadable;; ret None
        | Some (File _ (Json s3_config)) =>
            if negb (S3Sync.py_truthy (default (PyBool false) (s3_config !! "sync_enabled")))
            then logger WARNING MsgSyncDisabledWarning;; ret None
            else if negb (S3Sync.py_truthy (default PyNone (s3_config !! "bucket")))
            then logger ERROR MsgBucketMissing;; ret None
            else ret (Some (default PyNone (s3_config !! "bucket"),
                            default (PyStr "us-east-1") (s3_config !! "region")))
        end) : M (option (pyval * pyval)));
  match settings with
  | None => ret false
  | Some (bucket_name, region) =>
      logger INFO (MsgStartingSync bucket_name region);;
      let s3_sync_script := PyPath.join script_dir "s3_sync.py" in
      present ← exists_ s3_sync_script;
      if negb present then
        logger ERROR (MsgScriptNotFound s3_sync_script);; ret false
      else
        logger INFO (MsgRunningSync verbose dry_run);;
        match bucket_name, region with
        | PyStr b, PyStr r =>
            out ← run_s3_sync (child_env env b r)
                    (S3Sync.mkArgs verbose true false false false dry_run);
            if bool_decide (out.1 = 0) then
              logger INFO MsgSyncCompleted;; ret true
            else
              logger ERROR (MsgSyncFailed out.1);;
              (if out.2 then logger ERROR MsgSyncStderr else ret tt);;
              ret false
        | _, _ => logger ERROR (MsgRunFailed TypeError);; ret false
        end
  end.

End WithEnv.

End UpdateDatabases.

(** ** Plans

    The scripts keep no plan of their own; what they decide shows in the
    log: one record per file they select, in dry-run mode
    ([[DRY RUN] Would upload: ...]) as in real mode ([Uploading: ...]). *)

Inductive direction := Upload | Download.

#[global] Instance direction_eq_dec : EqDecision direction.
Proof. solve_decision. Defined.

Definition decision_of (m : message) : option (string * direction) :=
  match m with
  | MsgWouldUpload _ _ key => Some (key, Upload)
  | MsgUploading _ _ key => Some (key, Upload)
  | MsgWouldDownload _ key _ => Some (key, Download)
  | MsgDownloading _ key _ => Some (key, Download)
  | _ => None
  end.

Definition plan (l : list (level * message)) : list (string * direction) :=
  omap (fun r => decision_of r.2) l.

(** The plan of one run: the decisions among the records the run adds. *)
Definition run_plan {A} (m : M A) (w : World) : list (string * direction) :=
  plan (drop (length (log w)) (log (m w).2)).

(** The calls one run makes. *)
Definition run_calls {A} (m : M A) (w : World) : list call :=
  drop (length (calls w)) (calls (m w).2).

Definition add_log (l : list (level * message)) (w : World) : World :=
  set_log (log w ++ l)%list w.

Definition add_calls (c : list call) (w : World) : World :=
  set_calls (calls w ++ c)%list w.

(** What the upload loop makes of one file in a given world. *)
Inductive verdict :=
| Selected
| Skipped
| Unselected                 (* no transfer and no log record *)
| QueryFailed (code : string)
| Crashed.

Definition upload_verdict (env : Env) (prefix : string) (force : bool)
    (local_file : Path) (w : World) : verdict :=
  if force then Selected
  else
    match head_object_error env (S3Sync.s3_key_of prefix local_file) with
    | Some code => if String.eqb code "404" then Selected else QueryFailed code
    | None =>
        match objects w !! S3Sync.s3_key_of prefix local_file with
        | None => Selected
        | Some s3_modified =>
            match fs w !! local_file with
            | None => Crashed
            | Some e => if bool_decide (s3_modified < st_mtime e) then Selected else Skipped
            end
        end
    end.

Definition download_verdict (prefix : string) (db_dir : Path) (force : bool)
    (obj : string * Z) (w : World) : verdict :=
  if force then Selected
  else
    match fs w !! (S3Sync.local_file_of prefix db_dir obj.1).2 with
    | None => Unselected
    | Some e => if bool_decide (st_mtime e < obj.2) then Selected else Skipped
    end.

Definition is_selected (v : verdict) : bool :=
  match v with Selected => true | _ => false end.

#[global] Instance verdict_eq_dec : EqDecision verdict.
Proof. solve_decision. Defined.

(** The candidates the verdicts select in a world, and the plan they make. *)
Definition upload_selection (env : Env) (prefix : string) (force : bool)
    (local_files : list Path) (w : World) : list Path :=
  filter (fun f => upload_verdict env prefix force f w = Selected) local_files.

Definition upload_plan (env : Env) (prefix : string) (force : bool)
    (local_files : list Path) (w : World) : list (string * direction) :=
  (fun f => (S3Sync.s3_key_of prefix f, Upload)) <$> upload_selection env prefix force local_files w.

Definition local_path (prefix : string) (db_dir : Path) (obj : string * Z) : Path :=
  (S3Sync.local_file_of prefix db_dir obj.1).2.

Definition download_selection (prefix : string) (db_dir : Path) (force : bool)
    (contents : list (string * Z)) (w : World) : list (string * Z) :=
  filter (fun obj => download_verdict prefix db_dir force obj w = Selected) contents.

Definition download_plan (prefix : string) (db_dir : Path) (force : bool)
    (contents : list (string * Z)) (w : World) : list (string * direction) :=
  (fun obj => (obj.1, Download)) <$> download_selection prefix db_dir force contents w.

(** The two calls a selected object costs in a real run (lines 237-238). *)
Definition fetch (env : Env) (bucket key : string) (local_file : Path) : M unit :=
  mkdir env (PyPath.parent local_file);;
  download_file env bucket key local_file.

(** The listing [download_from_s3] works on. *)
Definition listing (prefix : string) (w : World) : list (string * Z) :=
  default [] (contents_of (objects w) (Some prefix) 1000).


Definition download_summary (dry_run : bool) (c n : nat) : level * message :=
  (INFO, if negb dry_run then MsgDownloaded c n else MsgWouldDownloadTotal c n).

(** [main] gets past its configuration checks with bucket [bucket]: the
    loaded configuration has a non-empty bucket, a true [sync_enabled] and
    a region, and the client can be created. *)
Definition configured (env : Env) (w : World) (cfg : gmap string pyval)
    (bucket : string) : Prop :=
  S3Sync.load_s3_config env w = (Ok cfg, w)
  /\ cfg !! "bucket" = Some (PyStr bucket)
  /\ PyString.truthy bucket = true
  /\ (exists v, cfg !! "sync_enabled" = Some v /\ S3Sync.py_truthy v = true)
  /\ is_Some (cfg !! "region")
  /\ client_creation_fails env = false.

Definition upload_summary (dry_run : bool) (c n : nat) : level * message :=
  (INFO, if negb dry_run then MsgUploaded c n else MsgWouldUploadTotal c n).

(** C8 as the spec words it: each of the two variables, when set, decides
    its setting whatever the file holds. *)
Definition variables_override_file (env : Env) (w : World) : Prop :=
  forall cfg w', S3Sync.load_s3_config env w = (Ok cfg, w') ->
    (forall b, environ env !! "S3_BUCKET_NAME" = Some b -> cfg !! "bucket" = Some (PyStr b))
    /\ (forall r, environ env !! "S3_REGION" = Some r -> cfg !! "region" = Some (PyStr r)).

(** C7 as the spec words it: a dry run of either direction makes no call
    and ends well. *)
Definition dry_run_cannot_fail (env : Env) (bucket prefix : string)
    (local_files : list Path) (db_dir : Path) (force : bool) (w : World) : Prop :=
  (S3Sync.upload_to_s3 env bucket prefix local_files force true w).1 = Ok true
  /\ run_calls (S3Sync.upload_to_s3 env bucket prefix local_files force true) w = []
  /\ (S3Sync.download_from_s3 env bucket prefix db_dir force true w).1 = Ok true
  /\ run_calls (S3Sync.download_from_s3 env bucket prefix db_dir force true) w = [].

(** The settings [s3_config.json] holds, [{}] when there is no such
    file or it is no JSON object. *)
Definition stored_config (env : Env) (w : World) : gmap string pyval :=
  match fs w !! ConfigManager.get_s3_config_file_path env with
  | Some (File _ (Json d)) => d
  | _ => ∅
  end.

(** [s] does not begin with a slash. *)
Definition starts_clear (s : string) : Prop :=
  match s with
  | String c _ => PyString.is_slash c = false
  | EmptyString => True
  end.

(** A call that copies a file. *)
Definition is_copy (c : call) : bool :=
  match c with
  | UploadFile _ _ _ => true
  | DownloadFile _ _ _ => true
  | _ => false
  end.

(** [q] is a directory. *)
Definition is_dir (f : gmap Path entry) (q : Path) : bool :=
  match f !! q with
  | Some (Dir _) => true
  | _ => false
  end.

(** The file system is a tree: whatever exists lies in directories that
    exist. *)
Definition tree_like (f : gmap Path entry) : Prop :=
  map_Forall (fun p _ => Forall (fun q => q = p \/ is_dir f q = true) (PyPath.prefixes p)) f.

#[global] Instance tree_like_dec f : Decision (tree_like f).
Proof. unfold tree_like. apply _. Defined.

(** Every candidate is a regular file. *)
Definition regular_files (local_files : list Path) (w : World) : Prop :=
  forall f, f ∈ local_files -> exists t d, fs w !! f = Some (File t d).

(** ** Scenarios

    Concrete worlds for the examples below: a mirror in
    [/home/clam/.cvdupdate/database] and a bucket under the default prefix. *)

Module Scenario.

Definition home_dir : Path := ["/"; "home"; "clam"].
Definition db_dir : Path := ["/"; "home"; "clam"; ".cvdupdate"; "database"].
Definition db_file (name : string) : Path := db_dir ++ [name].
Definition prefix : string := "clamav/databases/".
Definition bucket : string := "mirror".

(** An environment with the given variables and injected client errors;
    the store's clock runs from 1000, the local one from 2000. *)
Definition env_with (vars : list (string * string))
    (head_err upload_err download_err : string -> option string)
    (list_err : option string -> option string) : Env :=
  mkEnv (list_to_map vars) home_dir head_err upload_err list_err download_err
        (fun _ => None) false (fun _ => false)
        (fun n => 1000 + Z.of_nat n) (fun n => 2000 + Z.of_nat n).

Definition no_error {A} : A -> option string := fun _ => None.

Definition quiet : Env := env_with [] no_error no_error no_error no_error.

Definition dirs : list (Path * entry) :=
  [(["/"], Dir 1); (["/"; "home"], Dir 1); (home_dir, Dir 1);
   (home_dir ++ [".cvdupdate"], Dir 1); (db_dir, Dir 1)].

Definition world_of (objs : list (string * Z)) (files : list (Path * entry)) : World :=
  mkWorld (list_to_map objs) (list_to_map (dirs ++ files)) [] [].

(** [daily.cvd] is only local; [main.cvd] is newer in the bucket;
    [bytecode.cvd] is newer locally. *)
Definition mirror : World :=
  world_of [("clamav/databases/main.cvd", 500); ("clamav/databases/bytecode.cvd", 300)]
           [(db_file "daily.cvd", File 100 Blob); (db_file "main.cvd", File 200 Blob);
            (db_file "bytecode.cvd", File 400 Blob)].

Definition candidates : list Path :=
  [db_file "daily.cvd"; db_file "main.cvd"; db_file "bytecode.cvd"].


(** A bucket ahead of an empty mirror. *)
Definition fresh : World :=
  world_of [("clamav/databases/daily.cvd", 400); ("clamav/databases/main.cvd", 500)] [].

(** The bucket named on the command line of [update_databases.py], which
    hands it over in [S3_BUCKET_NAME]. *)
Definition with_bucket : Env :=
  env_with [("S3_BUCKET_NAME", "mirror")] no_error no_error no_error no_error.

(** The same, with a client whose [list_objects_v2] is denied. *)
Definition list_denied : Env :=
  env_with [("S3_BUCKET_NAME", "mirror")] no_error no_error no_error
           (fun _ => Some "AccessDenied").

(** The configuration [load_s3_config] makes of [S3_BUCKET_NAME=mirror]. *)
Definition bucket_config : gmap string pyval :=
  list_to_map [("bucket", PyStr "mirror"); ("region", PyStr "us-east-1");
               ("prefix", PyStr "clamav/databases/"); ("sync_enabled", PyBool true)].

(** Only the region is in the environment; [s3_config.json] names
    another bucket and region. *)
Definition region_only : Env :=
  env_with [("S3_REGION", "eu-west-1")] no_error no_error no_error no_error.

Definition archive_config : gmap string pyval :=
  list_to_map [("bucket", PyStr "archive"); ("region", PyStr "us-west-2");
               ("prefix", PyStr "clamav/databases/"); ("sync_enabled", PyBool true)].

Definition with_config_file : World :=
  world_of [] [(home_dir ++ [".cvdupdate"; "s3_config.json"], File 50 (Json archive_config))].

(** Transfers of [daily.cvd] fail with a server error, in one direction
    or the other. *)
Definition daily_fails (k : string) : option string :=
  if String.eqb k "clamav/databases/daily.cvd" then Some "500" else None.

Definition upload_of_daily_fails : Env :=
  env_with [] no_error daily_fails no_error no_error.

Definition download_of_daily_fails : Env :=
  env_with [] no_error no_error daily_fails no_error.

(** A client whose queries are refused. *)
Definition refused : Env :=
  env_with [] (fun _ => Some "403") no_error no_error (fun _ => Some "AccessDenied").

(** A machine on which nothing has been configured yet: no
    [s3_config.json], an empty database directory, an empty bucket. *)
Definition bare : World := world_of [] [].

(** No database directory either. *)
Definition no_database : World :=
  mkWorld ∅ (list_to_map [(["/"], Dir 1); (["/"; "home"], Dir 1); (home_dir, Dir 1)]) [] [].

(** A bucket with two databases and no local directory to put them in. *)
Definition remote_only : World :=
  mkWorld (list_to_map [("clamav/databases/daily.cvd", 400); ("clamav/databases/main.cvd", 500)])
          (list_to_map [(["/"], Dir 1); (["/"; "home"], Dir 1); (home_dir, Dir 1)]) [] [].

(** The scripts lie in [/opt/mirror]. *)
Definition script_dir : Path := ["/"; "opt"; "mirror"].

Definition scripts : list (Path * entry) :=
  [(["/"; "opt"], Dir 1); (script_dir, Dir 1); (script_dir ++ ["s3_sync.py"], File 10 Blob)].

(** Settings stored with a prefix of their own. *)
Definition backup_config : gmap string pyval :=
  list_to_map [("bucket", PyStr "archive"); ("region", PyStr "us-west-2");
               ("prefix", PyStr "backup/"); ("sync_enabled", PyBool true)].

(** The scripts installed, the settings stored, two databases in the
    mirror, one of them older than its copy in the bucket. *)
Definition installed : World :=
  world_of [("clamav/databases/main.cvd", 500)]
           (scripts ++ [(home_dir ++ [".cvdupdate"; "s3_config.json"], File 50 (Json backup_config));
                        (db_file "daily.cvd", File 100 Blob);
                        (db_file "main.cvd", File 200 Blob)]).

(** [s3_sync.py] without options, and [s3_sync.py --test-connection]. *)
Definition plain_args : S3Sync.Args := S3Sync.mkArgs false false false false false false.
Definition test_args : S3Sync.Args := S3Sync.mkArgs false false false true false false.

End Scenario.

(** * Proofs *)

(** ** Basic facts *)

Lemma plan_app l1 l2 : plan (l1 ++ l2) = plan l1 ++ plan l2.
Proof. unfold plan. apply omap_app. Qed.

Lemma drop_own_length {A} (l k : list A) : drop (length l) (l ++ k) = k.
Proof. by rewrite drop_app_length. Qed.


Ltac run :=
  unfold bind, ret, raise, try_except, except_ClientError, get, modify,
    logger, record, add_log, add_calls, set_log, set_calls, set_fs, set_objects;
  simpl.

Ltac log_ext :=
  first [ by (exists []; rewrite app_nil_r)
        | by (rewrite <- ?app_assoc; eexists; split; [reflexivity|reflexivity]) ].

Section UploadFacts.

Variable env : Env.
Variables bucket prefix : string.

Lemma upload_one_eq force dry_run c f w :
  S3Sync.upload_one env bucket prefix force dry_run c f w =
  let key := S3Sync.s3_key_of prefix f in
  let w1 := if force then w else add_calls [HeadObject bucket key] w in
  match upload_verdict env prefix force f w with
  | Selected =>
      if dry_run then
        (Ok (S c), add_log [(INFO, MsgWouldUpload (PyPath.name f) bucket key)] w1)
      else
        let w2 := add_calls [UploadFile f bucket key]
                    (add_log [(INFO, MsgUploading (PyPath.name f) bucket key)] w1) in
        match fs w !! f with
        | Some (File _ _) =>
            match upload_file_error env key with
            | Some code =>
                (Ok c, add_log [(ERROR, MsgUploadFailed (PyPath.name f) (ClientError code))] w2)
            | None =>
                (Ok (S c), set_objects (<[key := s3_clock env (length (calls w1))]> (objects w)) w2)
            end
        | _ => (Raise OSError, w2)
        end
  | Skipped => (Ok c, add_log [(DEBUG, MsgSkipUpload (PyPath.name f))] w1)
  | QueryFailed code =>
      (Ok c, add_log [(ERROR, MsgUploadFailed (PyPath.name f) (ClientError code))] w1)
  | Crashed => (Raise OSError, w1)
  | Unselected => (Ok c, w1)
  end.
Proof.
  destruct w as [o f0 cs lg].
  unfold S3Sync.upload_one, upload_verdict, head_object, upload_file, stat_mtime.
  set (key := S3Sync.s3_key_of prefix f).
  destruct force; run.
  - destruct dry_run; run; [reflexivity|].
    destruct (f0 !! f) as [[]|]; run; try reflexivity.
    destruct (upload_file_error env key); reflexivity.
  - destruct (head_object_error env key) as [code|]; run.
    + destruct (String.eqb code "404"); run; [|reflexivity].
      destruct dry_run; run; [reflexivity|].
      destruct (f0 !! f) as [[]|]; run; try reflexivity.
      destruct (upload_file_error env key); reflexivity.
    + destruct (o !! key); run.
      * destruct (f0 !! f) as [e|] eqn:Hf; run; [|reflexivity].
        destruct (bool_decide _); run; [|reflexivity].
        destruct dry_run; run; [reflexivity|].
        rewrite Hf. destruct e; run; try reflexivity.
        destruct (upload_file_error env key); reflexivity.
      * destruct dry_run; run; [reflexivity|].
        destruct (f0 !! f) as [[]|]; run; try reflexivity.
        destruct (upload_file_error env key); reflexivity.
Qed.

Ltac upload_cases :=
  rewrite upload_one_eq;
  match goal with w : World |- _ => destruct w as [o f0 cs lg] end;
  unfold add_log, add_calls, set_log, set_calls, set_objects; simpl;
  repeat match goal with
    | |- context [upload_verdict ?e ?p ?fo ?f ?w] =>
        let Hv := fresh "Hv" in destruct (upload_verdict e p fo f w) eqn:Hv; simpl
    | |- context [if ?b then _ else _] => is_var b; destruct b; simpl
    | |- context [match ?m !! ?f with _ => _ end] =>
        let Hf := fresh "Hf" in destruct (m !! f) as [[]|] eqn:Hf; simpl
    | |- context [upload_file_error ?e ?k] =>
        let Hu := fresh "Hu" in destruct (upload_file_error e k) eqn:Hu; simpl
    end.

(** What one turn of the loop does to the world, whatever the verdict. *)
Lemma upload_one_fs force dry_run c f w :
  fs (S3Sync.upload_one env bucket prefix force dry_run c f w).2 = fs w.
Proof. upload_cases; reflexivity. Qed.

Lemma upload_one_log force dry_run c f w :
  exists l,
    log (S3Sync.upload_one env bucket prefix force dry_run c f w).2 = log w ++ l
    /\ plan l = if is_selected (upload_verdict env prefix force f w)
                then [(S3Sync.s3_key_of prefix f, Upload)] else [].
Proof. upload_cases; log_ext. Qed.

Lemma upload_one_objects_dry force c f w :
  objects (S3Sync.upload_one env bucket prefix force true c f w).2 = objects w.
Proof. upload_cases; reflexivity. Qed.

Lemma upload_one_objects_unselected force dry_run c f w :
  upload_verdict env prefix force f w <> Selected ->
  objects (S3Sync.upload_one env bucket prefix force dry_run c f w).2 = objects w.
Proof. upload_cases; intros; congruence. Qed.

Lemma upload_one_objects_other force dry_run c f w k :
  k <> S3Sync.s3_key_of prefix f ->
  objects (S3Sync.upload_one env bucket prefix force dry_run c f w).2 !! k
  = objects w !! k.
Proof. upload_cases; intros; rewrite ?lookup_insert_ne; congruence. Qed.

Lemma upload_one_calls_dry force c f w :
  exists cs,
    calls (S3Sync.upload_one env bucket prefix force true c f w).2 = calls w ++ cs
    /\ Forall (fun x => x = HeadObject bucket (S3Sync.s3_key_of prefix f)) cs
    /\ (force = true -> cs = []).
Proof.
  upload_cases;
    first [ by (exists []; rewrite app_nil_r)
          | by (eexists; split; [reflexivity|split; [by repeat constructor|done]]) ].
Qed.

(** A turn ends with an exception only when the local file cannot be
    read: [stat()] on a missing file, [upload_file] on anything but a
    regular file. *)
Lemma upload_one_ok force dry_run c f w t d :
  fs w !! f = Some (File t d) ->
  exists c', (S3Sync.upload_one env bucket prefix force dry_run c f w).1 = Ok c'
             /\ (c <= c' <= S c)%nat
             /\ (upload_verdict env prefix force f w <> Selected -> c' = c)
             /\ (upload_verdict env prefix force f w = Selected ->
                 (dry_run = true \/ upload_file_error env (S3Sync.s3_key_of prefix f) = None) ->
                 c' = S c).
Proof.
  intros Hreg. rewrite upload_one_eq. unfold upload_verdict.
  destruct w as [o f0 cs lg]; simpl in *. rewrite Hreg.
  destruct force, dry_run; simpl;
    repeat match goal with
      | |- context [head_object_error ?e ?k] => destruct (head_object_error e k); simpl
      | |- context [String.eqb ?a ?b] => destruct (String.eqb a b); simpl
      | |- context [o !! ?k] => destruct (o !! k); simpl
      | |- context [bool_decide ?P] => destruct (bool_decide P); simpl
      | |- context [upload_file_error ?e ?k] =>
          let Hu := fresh "Hu" in destruct (upload_file_error e k) eqn:Hu; simpl
      end;
    eexists; (split; [reflexivity|]); (split; [lia|]);
    split; intros; try congruence; try lia;
    repeat match goal with H : _ \/ _ |- _ => destruct H end; congruence.
Qed.

Lemma upload_loop_cons force dry_run f rest c w :
  S3Sync.upload_loop env bucket prefix force dry_run (f :: rest) c w =
  match S3Sync.upload_one env bucket prefix force dry_run c f w with
  | (Ok c1, w1) => S3Sync.upload_loop env bucket prefix force dry_run rest c1 w1
  | (Raise e, w1) => (Raise e, w1)
  end.
Proof. reflexivity. Qed.

(** The verdict on a file reads the file system and the store at the
    file's key, nothing else. *)
Lemma upload_verdict_view force f w w0 :
  fs w = fs w0 ->
  objects w !! S3Sync.s3_key_of prefix f = objects w0 !! S3Sync.s3_key_of prefix f ->
  upload_verdict env prefix force f w = upload_verdict env prefix force f w0.
Proof. intros Hfs Ho. unfold upload_verdict. by rewrite Hfs, Ho. Qed.

Lemma upload_loop_fs force dry_run files : forall c w,
  fs (S3Sync.upload_loop env bucket prefix force dry_run files c w).2 = fs w.
Proof.
  induction files as [|f rest IH]; intros c w; [reflexivity|].
  rewrite upload_loop_cons.
  pose proof (upload_one_fs force dry_run c f w) as Hfs.
  destruct (S3Sync.upload_one _ _ _ _ _ _ _ _) as [[c1|e] w1]; simpl in *; [|done].
  by rewrite IH.
Qed.

(** With distinct keys and regular files the loop runs to its end and its
    plan is the selection made in the world it started from: uploads only
    change the store at keys whose turn is over. *)
Lemma upload_loop_exact force dry_run w0 files : forall c w,
  NoDup (S3Sync.s3_key_of prefix <$> files) ->
  regular_files files w0 ->
  fs w = fs w0 ->
  (forall f, f ∈ files ->
     objects w !! S3Sync.s3_key_of prefix f = objects w0 !! S3Sync.s3_key_of prefix f) ->
  exists c' w' l,
    S3Sync.upload_loop env bucket prefix force dry_run files c w = (Ok c', w')
    /\ log w' = log w ++ l
    /\ plan l = upload_plan env prefix force files w0
    /\ (c' <= c + length (upload_selection env prefix force files w0))%nat
    /\ ((forall f, f ∈ files -> dry_run = true \/
                                upload_file_error env (S3Sync.s3_key_of prefix f) = None) ->
        c' = (c + length (upload_selection env prefix force files w0))%nat).
Proof.
  induction files as [|f rest IH]; intros c w Hnd Hreg Hfs Hobj.
  - exists c, w, []. simpl. rewrite app_nil_r. repeat split; try done; lia.
  - rewrite fmap_cons in Hnd. apply NoDup_cons in Hnd as [Hnotin Hnd].
    rewrite upload_loop_cons.
    assert (Hv : upload_verdict env prefix force f w = upload_verdict env prefix force f w0).
    { apply upload_verdict_view; [done|]. apply Hobj. by left. }
    destruct (Hreg f) as (t & d & Hf); [by left|].
    assert (Hf' : fs w !! f = Some (File t d)) by by rewrite Hfs.
    destruct (upload_one_ok force dry_run c f w t d Hf') as (c1 & Hr & Hc & Hc0 & Hc1).
    destruct (upload_one_log force dry_run c f w) as (l1 & Hl1 & Hp1).
    pose proof (upload_one_fs force dry_run c f w) as Hfs1.
    pose proof (fun k => upload_one_objects_other force dry_run c f w k) as Ho1.
    destruct (S3Sync.upload_one _ _ _ _ _ _ _ _) as [r w1]; simpl in *. subst r.
    destruct (IH c1 w1) as (c' & w' & l & Hrun & Hl & Hp & Hle & Heq).
    + done.
    + intros g Hg. apply Hreg. by right.
    + by rewrite Hfs1.
    + intros g Hg. rewrite Ho1.
      * apply Hobj. by right.
      * intros Heqk. apply Hnotin. rewrite <- Heqk. by apply list_elem_of_fmap_2.
    + exists c', w', (l1 ++ l). rewrite Hrun, Hl, Hl1, app_assoc, plan_app, Hp, Hp1, Hv.
      unfold upload_plan, upload_selection. rewrite filter_cons.
      split; [done|]. split; [done|].
      destruct (decide (upload_verdict env prefix force f w0 = Selected)) as [Hs|Hs].
      * rewrite Hs. simpl. split; [done|]. split; [unfold upload_selection in *; lia|].
        intros Hnf. rewrite Heq by (intros g Hg; apply Hnf; by right).
        rewrite Hc1; [unfold upload_selection; lia|congruence|apply Hnf; by left].
      * destruct (upload_verdict env prefix force f w0); try done; simpl;
          (split; [done|]); rewrite Hc0 in * by congruence;
          (split; [done|]); intros Hnf; apply Heq; intros g Hg; apply Hnf; by right.
Qed.

Lemma run_plan_ext {A} (m : M A) w l :
  log (m w).2 = log w ++ l -> run_plan m w = plan l.
Proof. intros H. unfold run_plan. by rewrite H, drop_own_length. Qed.

(** The whole of [upload_to_s3] on distinct keys and regular files. *)
Lemma upload_to_s3_exact force dry_run files w :
  NoDup (S3Sync.s3_key_of prefix <$> files) ->
  regular_files files w ->
  exists b w',
    S3Sync.upload_to_s3 env bucket prefix files force dry_run w = (Ok b, w')
    /\ run_plan (S3Sync.upload_to_s3 env bucket prefix files force dry_run) w
       = upload_plan env prefix force files w
    /\ (length (upload_selection env prefix force files w) < length files -> b = false)%nat.
Proof.
  intros Hnd Hreg.
  destruct files as [|f rest].
  - exists true, (add_log [(WARNING, MsgNoLocalFiles)] w).
    split; [reflexivity|]. split; [|simpl; lia].
    by erewrite run_plan_ext by reflexivity.
  - destruct (upload_loop_exact force dry_run w (f :: rest) 0%nat w Hnd Hreg eq_refl)
      as (c' & w' & l & Hrun & Hl & Hp & Hle & _); [done|].
    set (n := length (f :: rest)) in *.
    set (summary := if negb dry_run then MsgUploaded c' n else MsgWouldUploadTotal c' n).
    assert (Heq : S3Sync.upload_to_s3 env bucket prefix (f :: rest) force dry_run w
                  = (Ok (Nat.eqb c' n), add_log [(INFO, summary)] w')).
    { unfold S3Sync.upload_to_s3. unfold bind at 1. rewrite Hrun.
      subst summary. by destruct dry_run. }
    exists (Nat.eqb c' n), (add_log [(INFO, summary)] w').
    split; [done|]. split.
    + erewrite run_plan_ext.
      2:{ rewrite Heq. simpl. rewrite Hl, <- app_assoc. reflexivity. }
      rewrite plan_app, Hp. subst summary. destruct dry_run; simpl; by rewrite app_nil_r.
    + intros Hlt. apply Nat.eqb_neq. lia.
Qed.

End UploadFacts.

(** ** C1: the upload plan *)


Section DownloadFacts.

Variable env : Env.
Variables bucket prefix : string.
Variable db_dir : Path.

Lemma make_dirs_keeps t dirs : forall f f' q e,
  make_dirs t dirs f = Some f' -> f !! q = Some e -> f' !! q = Some e.
Proof.
  induction dirs as [|d r IH]; intros f f' q e Hm Hq; simpl in Hm; [by simplify_eq|].
  destruct (f !! d) as [[]|] eqn:Hd; [done|by eapply IH|].
  eapply IH; [done|]. rewrite lookup_insert_ne; [done|]. congruence.
Qed.

Lemma make_dirs_made t dirs : forall f f' d,
  make_dirs t dirs f = Some f' -> d ∈ dirs -> exists t', f' !! d = Some (Dir t').
Proof.
  induction dirs as [|d0 r IH]; intros f f' d Hm Hd; [by apply elem_of_nil in Hd|].
  simpl in Hm. apply elem_of_cons in Hd as [->|Hd].
  - destruct (f !! d0) as [[|t0]|] eqn:Hd0; [done| |].
    + exists t0. by eapply make_dirs_keeps.
    + exists t. eapply make_dirs_keeps; [done|]. by rewrite lookup_insert_eq.
  - destruct (f !! d0) as [[]|]; [done|by eapply IH..].
Qed.


Lemma prefixes_cons c (r : Path) :
  PyPath.prefixes (c :: r) = [c] :: List.map (cons c) (PyPath.prefixes r).
Proof. reflexivity. Qed.



Lemma mkdir_eq dir w :
  mkdir env dir w =
  let w1 := add_calls [Mkdir dir] w in
  if mkdir_denied env dir then (Raise OSError, w1)
  else match make_dirs (local_clock env (length (calls w))) (PyPath.prefixes dir) (fs w) with
       | Some f' => (Ok tt, set_fs f' w1)
       | None => (Raise OSError, w1)
       end.
Proof.
  destruct w as [o f cs lg]. unfold mkdir. run.
  destruct (mkdir_denied env dir); [reflexivity|]. run.
  destruct (make_dirs _ _ _); reflexivity.
Qed.

Lemma download_file_eq key file w :
  download_file env bucket key file w =
  let w1 := add_calls [DownloadFile bucket key file] w in
  match download_file_error env key with
  | Some code => (Raise (ClientError code), w1)
  | None =>
      match objects w !! key with
      | None => (Raise (ClientError "404"), w1)
      | Some _ =>
          match fs w !! file with
          | Some (Dir _) => (Raise OSError, w1)
          | _ => (Ok tt, set_fs (<[file := File (local_clock env (length (calls w))) Blob]> (fs w)) w1)
          end
      end
  end.
Proof.
  destruct w as [o f cs lg]. unfold download_file. run.
  destruct (download_file_error env key); [reflexivity|]. run.
  destruct (o !! key); [|reflexivity]. run.
  destruct (f !! file) as [[]|]; reflexivity.
Qed.

(** What fetching one object does to the world: store and log are left
    alone, directories stay directories. *)
Lemma fetch_effect key file w :
  let r := fetch env bucket key file w in
  objects r.2 = objects w
  /\ log r.2 = log w
  /\ (forall q t, fs w !! q = Some (Dir t) -> fs r.2 !! q = Some (Dir t)).
Proof.
  unfold fetch, bind. rewrite mkdir_eq. simpl.
  destruct (mkdir_denied env _); simpl; [by repeat split|].
  destruct (make_dirs _ _ _) as [f'|] eqn:Hm; simpl; [|by repeat split].
  rewrite download_file_eq. simpl.
  assert (Hkeep : forall q t, fs w !! q = Some (Dir t) -> f' !! q = Some (Dir t)).
  { intros q t Hq. by eapply make_dirs_keeps. }
  destruct (download_file_error env key); simpl; [by repeat split|].
  destruct (objects w !! key); simpl; [|by repeat split].
  destruct (f' !! file) as [[]|] eqn:Hfile; simpl; try by repeat split.
  - repeat split; try done.
    intros q t Hq. rewrite lookup_insert_ne; [by apply Hkeep|].
    intros ->. apply Hkeep in Hq. congruence.
  - repeat split; try done.
    intros q t Hq. rewrite lookup_insert_ne; [by apply Hkeep|].
    intros ->. apply Hkeep in Hq. congruence.
Qed.

Lemma download_one_eq force dry_run c obj w :
  S3Sync.download_one env bucket prefix db_dir force dry_run c obj w =
  let relative_path := (S3Sync.local_file_of prefix db_dir obj.1).1 in
  let local_file := local_path prefix db_dir obj in
  match download_verdict prefix db_dir force obj w with
  | Selected =>
      if dry_run then
        (Ok (S c), add_log [(INFO, MsgWouldDownload bucket obj.1 local_file)] w)
      else
        match fetch env bucket obj.1 local_file
                (add_log [(INFO, MsgDownloading bucket obj.1 local_file)] w) with
        | (Ok _, w') => (Ok (S c), w')
        | (Raise e, w') => (Raise e, w')
        end
  | Skipped => (Ok c, add_log [(DEBUG, MsgSkipDownload relative_path)] w)
  | _ => (Ok c, w)
  end.
Proof.
  destruct w as [o f cs lg].
  unfold S3Sync.download_one, download_verdict, local_path, exists_, stat_mtime.
  destruct force; run.
  - destruct dry_run; run; [reflexivity|].
    unfold fetch, bind, add_log, set_log; simpl.
    destruct (mkdir env _ _) as [[[]|e] w1]; [|reflexivity].
    destruct (download_file env _ _ _ _) as [[[]|e] w2]; reflexivity.
  - destruct (f !! _) as [e|] eqn:Hf; run.
    + rewrite ?Hf. run.
      destruct (bool_decide _); run; [|reflexivity].
      destruct dry_run; run; [reflexivity|].
      unfold fetch, bind, add_log, set_log; simpl.
      destruct (mkdir env _ _) as [[[]|e'] w1]; [|reflexivity].
      destruct (download_file env _ _ _ _) as [[[]|e'] w2]; reflexivity.
    + reflexivity.
Qed.

Ltac download_cases :=
  rewrite download_one_eq; simpl;
  repeat match goal with
    | |- context [download_verdict ?p ?d ?fo ?ob ?w] =>
        let Hv := fresh "Hv" in destruct (download_verdict p d fo ob w) eqn:Hv; simpl
    | |- context [if ?b then _ else _] => is_var b; destruct b; simpl
    end.

Ltac with_fetch :=
  match goal with
  | |- context [fetch ?e ?b ?k ?f ?w] =>
      let H := fresh "Hfetch" in
      pose proof (fetch_effect k f w) as H; simpl in H;
      destruct (fetch e b k f w) as [[[]|?] ?]; simpl in *
  end.

Lemma download_one_objects force dry_run c obj w :
  objects (S3Sync.download_one env bucket prefix db_dir force dry_run c obj w).2 = objects w.
Proof. download_cases; try reflexivity; with_fetch; by destruct Hfetch as (-> & _). Qed.

Lemma download_one_log force dry_run c obj w :
  exists l,
    log (S3Sync.download_one env bucket prefix db_dir force dry_run c obj w).2 = log w ++ l
    /\ plan l = if is_selected (download_verdict prefix db_dir force obj w)
                then [(obj.1, Download)] else [].
Proof.
  download_cases; try log_ext;
    with_fetch; destruct Hfetch as (_ & -> & _); unfold add_log; simpl; log_ext.
Qed.

Lemma download_one_fs_same force dry_run c obj w :
  dry_run = true \/ download_verdict prefix db_dir force obj w <> Selected ->
  fs (S3Sync.download_one env bucket prefix db_dir force dry_run c obj w).2 = fs w.
Proof. download_cases; intros [?|?]; try done. Qed.


Lemma download_one_calls_dry force c obj w :
  calls (S3Sync.download_one env bucket prefix db_dir force true c obj w).2 = calls w.
Proof. download_cases; reflexivity. Qed.

Lemma download_one_result force dry_run c obj w :
  dry_run = true \/ download_verdict prefix db_dir force obj w <> Selected ->
  (S3Sync.download_one env bucket prefix db_dir force dry_run c obj w).1
  = Ok (if is_selected (download_verdict prefix db_dir force obj w) then S c else c).
Proof. download_cases; intros [?|?]; try done. Qed.

Lemma download_loop_cons force dry_run obj rest c w :
  S3Sync.download_loop env bucket prefix db_dir force dry_run (obj :: rest) c w =
  match S3Sync.download_one env bucket prefix db_dir force dry_run c obj w with
  | (Ok c1, w1) => S3Sync.download_loop env bucket prefix db_dir force dry_run rest c1 w1
  | (Raise e, w1) => (Raise e, w1)
  end.
Proof. reflexivity. Qed.

Lemma download_verdict_view force obj w w0 :
  fs w !! local_path prefix db_dir obj = fs w0 !! local_path prefix db_dir obj ->
  download_verdict prefix db_dir force obj w = download_verdict prefix db_dir force obj w0.
Proof. unfold download_verdict, local_path. by intros ->. Qed.

Lemma download_loop_objects force dry_run contents : forall c w,
  objects (S3Sync.download_loop env bucket prefix db_dir force dry_run contents c w).2
  = objects w.
Proof.
  induction contents as [|obj rest IH]; intros c w; [reflexivity|].
  rewrite download_loop_cons.
  pose proof (download_one_objects force dry_run c obj w) as Ho.
  destruct (S3Sync.download_one _ _ _ _ _ _ _ _ _) as [[c1|e] w1]; simpl in *; [|done].
  by rewrite IH.
Qed.


(** A dry run of the loop: nothing but log records, every object judged
    in the world the loop started from. *)
Lemma download_loop_dry force contents : forall c w,
  exists w' l,
    S3Sync.download_loop env bucket prefix db_dir force true contents c w
    = (Ok (c + length (download_selection prefix db_dir force contents w))%nat, w')
    /\ log w' = log w ++ l
    /\ plan l = download_plan prefix db_dir force contents w
    /\ fs w' = fs w /\ calls w' = calls w /\ objects w' = objects w.
Proof.
  induction contents as [|obj rest IH]; intros c w.
  - exists w, []. simpl. rewrite app_nil_r, Nat.add_0_r. by repeat split.
  - rewrite download_loop_cons.
    pose proof (download_one_result force true c obj w (or_introl eq_refl)) as Hr.
    pose proof (download_one_fs_same force true c obj w (or_introl eq_refl)) as Hfs.
    pose proof (download_one_calls_dry force c obj w) as Hcs.
    pose proof (download_one_objects force true c obj w) as Ho.
    destruct (download_one_log force true c obj w) as (l1 & Hl1 & Hp1).
    destruct (S3Sync.download_one _ _ _ _ _ _ _ _ _) as [r w1]; simpl in *. subst r.
    destruct (IH (if is_selected (download_verdict prefix db_dir force obj w)
                  then S c else c) w1) as (w' & l & Hrun & Hl & Hp & Hfs' & Hcs' & Ho').
    assert (Hsel : download_selection prefix db_dir force rest w1
                   = download_selection prefix db_dir force rest w).
    { unfold download_selection. apply list_filter_iff. intros obj'.
      by rewrite (download_verdict_view force obj' w1 w) by by rewrite Hfs. }
    exists w', (l1 ++ l). rewrite Hrun, Hl, Hl1, app_assoc, plan_app, Hp, Hp1.
    rewrite Hfs', Hfs, Hcs', Hcs, Ho', Ho.
    unfold download_plan. rewrite Hsel.
    replace (download_selection prefix db_dir force (obj :: rest) w)
      with (if decide (download_verdict prefix db_dir force obj w = Selected)
            then obj :: download_selection prefix db_dir force rest w
            else download_selection prefix db_dir force rest w)
      by (unfold download_selection; by rewrite filter_cons).
    destruct (decide (download_verdict prefix db_dir force obj w = Selected)) as [Hs|Hs].
    + rewrite Hs. simpl. repeat split; try done. do 2 f_equal. lia.
    + destruct (download_verdict prefix db_dir force obj w); try done; by repeat split.
Qed.

Lemma download_from_s3_eq force dry_run w :
  S3Sync.download_from_s3 env bucket prefix db_dir force dry_run w =
  let w1 := add_calls [ListObjectsV2 bucket (Some prefix)] w in
  match list_objects_error env (Some prefix) with
  | Some code => (Ok false, add_log [(ERROR, MsgDownloadFailed (ClientError code))] w1)
  | None =>
      match contents_of (objects w) (Some prefix) 1000 with
      | None => (Ok true, add_log [(WARNING, MsgNoRemoteFiles bucket prefix)] w1)
      | Some contents =>
          match mkdir env db_dir w1 with
          | (Raise e, w2) => (Raise e, w2)
          | (Ok _, w2) =>
              match S3Sync.download_loop env bucket prefix db_dir force dry_run
                      contents 0%nat w2 with
              | (Ok c, w3) => (Ok true, add_log [download_summary dry_run c (length contents)] w3)
              | (Raise (ClientError code), w3) =>
                  (Ok false, add_log [(ERROR, MsgDownloadFailed (ClientError code))] w3)
              | (Raise e, w3) => (Raise e, w3)
              end
          end
      end
  end.
Proof.
  unfold S3Sync.download_from_s3, list_objects_v2, try_except, bind at 1 2 3. simpl.
  destruct w as [o f cs lg]. run.
  destruct (list_objects_error env (Some prefix)); run; [reflexivity|].
  destruct (contents_of o (Some prefix) 1000) as [contents|]; run; [|reflexivity].
  rewrite mkdir_eq. simpl.
  destruct (mkdir_denied env db_dir); simpl; [reflexivity|].
  destruct (make_dirs _ _ _); simpl; [|reflexivity].
  destruct (S3Sync.download_loop _ _ _ _ _ _ _ _ _) as [[c|[]] w3]; simpl; try reflexivity.
  destruct dry_run; reflexivity.
Qed.

End DownloadFacts.

(** ** The file system as a tree *)

Section TreeFacts.








End TreeFacts.

Section DownloadTree.

Variable env : Env.
Variables bucket prefix : string.
Variable db_dir : Path.





End DownloadTree.

Section DownloadTree2.

Variable env : Env.
Variables bucket prefix : string.
Variable db_dir : Path.






End DownloadTree2.

Section DownloadAgain.

Variable env : Env.
Variables bucket prefix : string.
Variable db_dir : Path.


End DownloadAgain.

Section DownloadRuns.

Variable env : Env.
Variables bucket prefix : string.
Variable db_dir : Path.



End DownloadRuns.

(** ** C3: dry run and real run decide alike *)




Ltac regular_by_computation :=
  let f := fresh "f" in
  let Hf := fresh "Hf" in
  intros f Hf;
  repeat (apply elem_of_cons in Hf as [->|Hf]; [eexists _, _; vm_compute; reflexivity|]);
  exfalso; apply elem_of_nil in Hf; exact Hf.





(** ** C2: objects without a local file *)

(** C2 (the code at the failing input).  With [force] unset and the local
    files absent, [download_from_s3] selects nothing: [should_download]
    starts as [force] and is only recomputed when the local file exists.
    Against a bucket with two objects and an empty mirror the run makes no
    [download_file] call and reports 0 of 2. *)
Theorem download_leaves_out_absent_files :
  let r := S3Sync.download_from_s3 Scenario.quiet Scenario.bucket Scenario.prefix
             Scenario.db_dir false false Scenario.fresh in
  r.1 = Ok true
  /\ run_plan (S3Sync.download_from_s3 Scenario.quiet Scenario.bucket Scenario.prefix
                 Scenario.db_dir false false) Scenario.fresh = []
  /\ calls r.2 = [ListObjectsV2 "mirror" (Some "clamav/databases/"); Mkdir Scenario.db_dir]
  /\ log r.2 = [(INFO, MsgDownloaded 0 2)]
  /\ fs r.2 !! Scenario.db_file "main.cvd" = None.
Proof. vm_compute. by repeat split. Qed.

(** ** C4: a failing transfer *)

(** The upload loop catches the client error of one file and goes on: the
    failed upload of [daily.cvd] is logged, [bytecode.cvd] is uploaded
    after it, and the run reports 1 of 3. *)
Example upload_goes_on_after_failure :
  let r := S3Sync.upload_to_s3 Scenario.upload_of_daily_fails Scenario.bucket
             Scenario.prefix Scenario.candidates false false Scenario.mirror in
  r.1 = Ok false
  /\ filter (fun c => is_copy c = true) (calls r.2)
     = [UploadFile (Scenario.db_file "daily.cvd") "mirror" "clamav/databases/daily.cvd";
        UploadFile (Scenario.db_file "bytecode.cvd") "mirror" "clamav/databases/bytecode.cvd"]
  /\ log r.2
     = [(INFO, MsgUploading "daily.cvd" "mirror" "clamav/databases/daily.cvd");
        (ERROR, MsgUploadFailed "daily.cvd" (ClientError "500"));
        (DEBUG, MsgSkipUpload "main.cvd");
        (INFO, MsgUploading "bytecode.cvd" "mirror" "clamav/databases/bytecode.cvd");
        (INFO, MsgUploaded 1 3)].
Proof. vm_compute. by repeat split. Qed.

(** C4 (the code at the failing input).  A forced download of two objects
    whose first [download_file] raises a client error, while the second
    would succeed: the handler sits outside the loop, so the run ends
    there with [False]; the second object is never attempted and no count
    is reported. *)
Theorem download_stops_at_first_failure :
  let r := S3Sync.download_from_s3 Scenario.download_of_daily_fails Scenario.bucket
             Scenario.prefix Scenario.db_dir true false Scenario.fresh in
  listing Scenario.prefix Scenario.fresh
  = [("clamav/databases/daily.cvd", 400); ("clamav/databases/main.cvd", 500)]
  /\ download_file_error Scenario.download_of_daily_fails "clamav/databases/main.cvd" = None
  /\ r.1 = Ok false
  /\ calls r.2 = [ListObjectsV2 "mirror" (Some "clamav/databases/");
                  Mkdir Scenario.db_dir; Mkdir Scenario.db_dir;
                  DownloadFile "mirror" "clamav/databases/daily.cvd"
                    (Scenario.db_file "daily.cvd")]
  /\ log r.2 = [(INFO, MsgDownloading "mirror" "clamav/databases/daily.cvd"
                         (Scenario.db_file "daily.cvd"));
                (ERROR, MsgDownloadFailed (ClientError "500"))]
  /\ fs r.2 !! Scenario.db_file "main.cvd" = None.
Proof. vm_compute. by repeat split. Qed.

(** ** [main] *)

Section MainFacts.

Variable env : Env.

Lemma main_test_connection args w cfg bucket :
  configured env w cfg bucket ->
  S3Sync.test_connection args = true ->
  S3Sync.main env args w =
  match S3Sync.test_s3_connection env bucket w with
  | (Ok success, w') => (Ok (if success then 0 else 1), w')
  | (Raise e, w') => (Raise e, w')
  end.
Proof.
  intros (Hload & Hb & Ht & (v & Hs & Hv) & [r Hr] & Hc) Htest.
  unfold S3Sync.main, bind at 1. rewrite Hload.
  unfold S3Sync.getitem. rewrite Hb. unfold bind at 1, ret at 1. simpl. rewrite Ht. simpl.
  rewrite Hs. unfold bind at 1, ret at 1. rewrite Hv. simpl.
  rewrite Hr, Hc, Htest. simpl. rewrite ?bool_decide_eq_false_2 by done. simpl.
  unfold bind, ret.
  by destruct (S3Sync.test_s3_connection env bucket w) as [[[]|e] w'].
Qed.

Lemma get_database_directory_world w :
  (S3Sync.get_database_directory env w).2 = w.
Proof.
  unfold S3Sync.get_database_directory, bind, get, ret, raise. simpl.
  destruct (fs w !! _) as [[t [|d]|t]|]; try reflexivity.
  by destruct (d !! "database_directory") as [[]|].
Qed.

Lemma get_local_files_eq db_dir w :
  exists files l,
    S3Sync.get_local_files db_dir w = (Ok files, add_log l w)
    /\ forall w', fs w' = fs w -> (S3Sync.get_local_files db_dir w').1 = Ok files.
Proof.
  unfold S3Sync.get_local_files, bind, get, ret, logger, modify. simpl.
  destruct (fs w !! db_dir) eqn:Hd.
  - eexists _, _. split; [reflexivity|]. intros w' ->. by rewrite Hd.
  - eexists _, _. split; [reflexivity|]. intros w' ->. by rewrite Hd.
Qed.

Lemma main_upload args w cfg bucket prefix :
  configured env w cfg bucket ->
  cfg !! "prefix" = Some (PyStr prefix) ->
  S3Sync.test_connection args = false ->
  negb (S3Sync.download args) || S3Sync.upload args = true ->
  S3Sync.main env args w =
  match S3Sync.get_database_directory env w with
  | (Ok db_dir, w1) =>
      match S3Sync.get_local_files db_dir (add_log [(INFO, MsgStartUpload)] w1) with
      | (Ok files, w2) =>
          match S3Sync.upload_to_s3 env bucket prefix files
                  (S3Sync.force args) (S3Sync.dry_run args) w2 with
          | (Ok success, w3) => (Ok (if success then 0 else 1), w3)
          | (Raise e, w3) => (Raise e, w3)
          end
      | (Raise e, w2) => (Raise e, w2)
      end
  | (Raise e, w1) => (Raise e, w1)
  end.
Proof.
  intros (Hload & Hb & Ht & (v & Hs & Hv) & [r Hr] & Hc) Hp Htest Hup.
  unfold S3Sync.main, bind at 1. rewrite Hload.
  unfold S3Sync.getitem. rewrite Hb. unfold bind at 1, ret at 1. simpl. rewrite Ht. simpl.
  rewrite Hs. unfold bind at 1, ret at 1. rewrite Hv. simpl.
  rewrite Hr, Hc, Htest, Hp, Hup. simpl. rewrite ?bool_decide_eq_false_2 by done. simpl.
  unfold bind at 1.
  destruct (S3Sync.get_database_directory env w) as [[db|e] w1]; [|reflexivity].
  unfold bind at 1. unfold logger at 1, modify. unfold bind at 1.
  destruct (S3Sync.get_local_files db _) as [[files|e] w2]; [|reflexivity].
  unfold bind, ret. simpl.
  by destruct (S3Sync.upload_to_s3 _ _ _ _ _ _ _) as [[[]|e] w3].
Qed.

End MainFacts.

(** ** C5: what [upload_to_s3] returns *)

Section UploadResult.

Variable env : Env.
Variables bucket prefix : string.


(** An unforced run over candidates one of which is up to date answers
    [False]. *)
Lemma upload_stale_false files dry_run w f t d ts :
  NoDup (S3Sync.s3_key_of prefix <$> files) ->
  regular_files files w ->
  f ∈ files ->
  fs w !! f = Some (File t d) ->
  head_object_error env (S3Sync.s3_key_of prefix f) = None ->
  objects w !! S3Sync.s3_key_of prefix f = Some ts ->
  t <= ts ->
  (S3Sync.upload_to_s3 env bucket prefix files false dry_run w).1 = Ok false.
Proof.
  intros Hnd Hreg Hin Hf Hhead Ho Hle.
  destruct (upload_to_s3_exact env bucket prefix false dry_run files w Hnd Hreg)
    as (b & w' & -> & _ & Hfalse).
  simpl. f_equal. apply Hfalse. unfold upload_selection.
  apply (length_filter_lt _ _ f); [done|].
  unfold upload_verdict. rewrite Hhead, Ho, Hf. simpl.
  rewrite bool_decide_eq_false_2 by lia. done.
Qed.

End UploadResult.


Ltac configured_by_computation :=
  unfold configured;
  repeat match goal with
    | |- _ /\ _ => split
    | |- exists _, _ => eexists
    | |- is_Some _ => eexists
    end; vm_compute; reflexivity.


(** ** C9: the connection test *)

Section ConnectionTest.

Variable env : Env.

Lemma test_s3_connection_list_denied bucket w :
  head_bucket_error env bucket = None ->
  list_objects_error env None = Some "AccessDenied" ->
  S3Sync.test_s3_connection env bucket w =
  (Ok true,
   add_log [(INFO, MsgTesting bucket); (INFO, MsgBucketAccessible bucket);
            (INFO, MsgBucketRegion); (WARNING, MsgLimitedList); (INFO, MsgTestSuccessful)]
     (add_calls [HeadBucket bucket; ListObjectsV2 bucket None] w)).
Proof.
  intros Hb Hl. destruct w as [o f cs lg].
  unfold S3Sync.test_s3_connection, head_bucket, list_objects_v2. run.
  rewrite Hb. run. rewrite Hl. run.
  by rewrite <- !app_assoc.
Qed.

End ConnectionTest.

(** C9.  When [head_bucket] succeeds and [list_objects_v2] raises the
    client error [AccessDenied], [test_s3_connection] logs the
    limited-permission warning, logs no error, and answers [True];
    [main --test-connection] then exits with status 0. *)
Theorem connection_test_survives_list_denial env args w cfg bucket :
  configured env w cfg bucket ->
  S3Sync.test_connection args = true ->
  head_bucket_error env bucket = None ->
  list_objects_error env None = Some "AccessDenied" ->
  let r := S3Sync.test_s3_connection env bucket w in
  r.1 = Ok true
  /\ log r.2 = log w ++ [(INFO, MsgTesting bucket); (INFO, MsgBucketAccessible bucket);
                         (INFO, MsgBucketRegion); (WARNING, MsgLimitedList);
                         (INFO, MsgTestSuccessful)]
  /\ (S3Sync.main env args w).1 = Ok 0
  /\ exit_status (S3Sync.main env args w).1 = 0.
Proof.
  intros Hconf Htest Hb Hl r. subst r.
  rewrite (main_test_connection env args w cfg bucket Hconf Htest).
  rewrite (test_s3_connection_list_denied env bucket w Hb Hl). by repeat split.
Qed.

(** The theorem of C9 for the bucket [mirror] with list permission denied. *)
Lemma connection_test_survives_list_denial_witness :
  let r := S3Sync.test_s3_connection Scenario.list_denied Scenario.bucket Scenario.mirror in
  r.1 = Ok true
  /\ log r.2 = log Scenario.mirror
               ++ [(INFO, MsgTesting Scenario.bucket); (INFO, MsgBucketAccessible Scenario.bucket);
                   (INFO, MsgBucketRegion); (WARNING, MsgLimitedList);
                   (INFO, MsgTestSuccessful)]
  /\ (S3Sync.main Scenario.list_denied Scenario.test_args Scenario.mirror).1 = Ok 0
  /\ exit_status (S3Sync.main Scenario.list_denied Scenario.test_args Scenario.mirror).1 = 0.
Proof.
  apply (connection_test_survives_list_denial Scenario.list_denied Scenario.test_args
           Scenario.mirror Scenario.bucket_config Scenario.bucket).
  - configured_by_computation.
  - reflexivity.
  - reflexivity.
  - reflexivity.
Defined.

(** ** C8: environment variables and the configuration file *)

(** C8, as stated, fails when only the region variable is set: the file
    is read and its region wins. *)
Lemma region_variable_alone_is_ignored :
  ~ variables_override_file Scenario.region_only Scenario.with_config_file.
Proof.
  intros H.
  destruct (H Scenario.archive_config Scenario.with_config_file) as [_ Hregion];
    [vm_compute; reflexivity|].
  specialize (Hregion "eu-west-1" ltac:(vm_compute; reflexivity)).
  vm_compute in Hregion. discriminate.
Qed.

(** C8 (amended).  When [S3_BUCKET_NAME] is set to a non-empty value,
    [load_s3_config] reads no file: the bucket is the variable's value and
    the region is the value of [S3_REGION] if that is set and non-empty,
    ['us-east-1'] otherwise, whatever the file system holds. *)
Theorem bucket_variable_overrides_file env w b :
  environ env !! "S3_BUCKET_NAME" = Some b ->
  b <> EmptyString ->
  exists cfg,
    S3Sync.load_s3_config env w = (Ok cfg, w)
    /\ cfg !! "bucket" = Some (PyStr b)
    /\ (forall r, environ env !! "S3_REGION" = Some r -> r <> EmptyString ->
        cfg !! "region" = Some (PyStr r))
    /\ (environ env !! "S3_REGION" = None \/ environ env !! "S3_REGION" = Some EmptyString ->
        cfg !! "region" = Some (PyStr "us-east-1")).
Proof.
  intros Hb Hne.
  assert (Ht : PyString.truthy b = true).
  { unfold PyString.truthy. apply negb_true_iff, String.eqb_neq, Hne. }
  unfold S3Sync.load_s3_config. rewrite Hb. simpl. rewrite Ht.
  eexists. split; [reflexivity|]. split; [by simplify_map_eq|]. split.
  - intros r Hr Hrne. rewrite Hr. simpl.
    assert (PyString.truthy r = true) as ->
      by (unfold PyString.truthy; apply negb_true_iff, String.eqb_neq, Hrne).
    by simplify_map_eq.
  - intros [Hr|Hr]; rewrite Hr; by simplify_map_eq.
Qed.

(** The theorem of C8 with [S3_BUCKET_NAME=mirror] against a configuration
    file that names another bucket. *)
Lemma bucket_variable_overrides_file_witness :
  exists cfg,
    S3Sync.load_s3_config Scenario.with_bucket Scenario.with_config_file
    = (Ok cfg, Scenario.with_config_file)
    /\ cfg !! "bucket" = Some (PyStr "mirror")
    /\ (forall r, environ Scenario.with_bucket !! "S3_REGION" = Some r -> r <> EmptyString ->
        cfg !! "region" = Some (PyStr r))
    /\ (environ Scenario.with_bucket !! "S3_REGION" = None
        \/ environ Scenario.with_bucket !! "S3_REGION" = Some EmptyString ->
        cfg !! "region" = Some (PyStr "us-east-1")).
Proof.
  apply (bucket_variable_overrides_file Scenario.with_bucket Scenario.with_config_file "mirror").
  - vm_compute; reflexivity.
  - discriminate.
Defined.

(** ** C10: the stored prefix *)

Section StringFacts.

Lemma append_cons c (r b : string) : (String c r ++ b)%string = String c (r ++ b)%string.
Proof. reflexivity. Qed.

Lemma append_nil_l (b : string) : (EmptyString ++ b)%string = b.
Proof. reflexivity. Qed.

Ltac str := rewrite ?append_cons, ?append_nil_l in *; simpl in *.

Lemma is_slash_eq c : PyString.is_slash c = true -> c = "/"%char.
Proof. apply Ascii.eqb_eq. Qed.


Lemma length_append (a b : string) :
  String.length (a ++ b)%string = (String.length a + String.length b)%nat.
Proof. induction a as [|x r IH]; str; congruence. Qed.

Lemma drop_append (a b : string) : PyString.drop (String.length a) (a ++ b)%string = b.
Proof. induction a as [|x r IH]; str; [by destruct b|done]. Qed.

Lemma take_drop (n : nat) : forall s,
  exists pre, s = (pre ++ PyString.drop n s)%string.
Proof.
  induction n as [|n IH]; intros s; [by exists EmptyString|].
  destruct s as [|c r]; [by exists EmptyString|].
  destruct (IH r) as [pre Hpre]. exists (String c pre). str. congruence.
Qed.


(** [endswith] is being a suffix. *)
Lemma endswith_spec p s :
  PyString.endswith p s = true <-> exists pre, s = (pre ++ p)%string.
Proof.
  unfold PyString.endswith. rewrite andb_true_iff, Nat.leb_le, String.eqb_eq. split.
  - intros [_ Hp]. destruct (take_drop (String.length s - String.length p) s) as [pre Hpre].
    exists pre. by rewrite <- Hp in Hpre.
  - intros [pre ->]. rewrite length_append. split; [lia|].
    replace (String.length pre + String.length p - String.length p)%nat
      with (String.length pre) by lia.
    by rewrite drop_append.
Qed.




Lemma rstrip_slash_stripped s :
  PyString.endswith "/" (PyString.rstrip_slash s) = false.
Proof.
  apply not_true_is_false. intros [pre Hpre]%endswith_spec. revert pre Hpre.
  induction s as [|c r IH]; intros pre Hpre; simpl in Hpre.
  - destruct pre; str; done.
  - destruct (PyString.rstrip_slash r) as [|a r'] eqn:Hr.
    + destruct (PyString.is_slash c) eqn:Hc; [destruct pre; str; done|].
      destruct pre as [|x pre']; str.
      * injection Hpre as ->. done.
      * injection Hpre as _ H. destruct pre'; str; done.
    + destruct pre as [|x pre']; str; [done|].
      injection Hpre as _ H. by apply (IH pre').
Qed.

End StringFacts.



(** [set_s3_prefix('mirror//')] in the scenario with a configuration file:
    the file now holds ['mirror/'] and keeps the bucket. *)
Example set_s3_prefix_example :
  let r := ConfigManager.set_s3_prefix Scenario.quiet "mirror//" Scenario.with_config_file in
  r.1 = Ok true
  /\ exists t d,
       fs r.2 !! ConfigManager.get_s3_config_file_path Scenario.quiet = Some (File t (Json d))
       /\ d !! "prefix" = Some (PyStr "mirror/")
       /\ d !! "bucket" = Some (PyStr "archive").
Proof. split; [vm_compute; reflexivity|]. eexists _, _. vm_compute. by repeat split. Qed.

(** ** C6: running again *)

Section UploadAgain.

Variable env : Env.
Variables bucket prefix : string.

Lemma regular_files_fs files w w' :
  fs w' = fs w -> regular_files files w -> regular_files files w'.
Proof. intros Hfs Hreg f Hf. rewrite Hfs. by apply Hreg. Qed.





End UploadAgain.






(** ** C7: dry runs *)

Section DryRun.

Variable env : Env.
Variables bucket prefix : string.

Lemma upload_loop_dry force files : forall c w,
  exists cs,
    objects (S3Sync.upload_loop env bucket prefix force true files c w).2 = objects w
    /\ calls (S3Sync.upload_loop env bucket prefix force true files c w).2 = calls w ++ cs
    /\ Forall (fun x => is_copy x = false) cs
    /\ (force = true ->
        cs = [] /\ (S3Sync.upload_loop env bucket prefix force true files c w).1
                  = Ok (c + length files)%nat).
Proof.
  induction files as [|f rest IH]; intros c w.
  - exists []. rewrite app_nil_r, Nat.add_0_r. by repeat split.
  - rewrite upload_loop_cons.
    pose proof (upload_one_objects_dry env bucket prefix force c f w) as Ho.
    destruct (upload_one_calls_dry env bucket prefix force c f w) as (cs1 & Hcs1 & Hh1 & Hf1).
    assert (Hr : force = true ->
                 (S3Sync.upload_one env bucket prefix force true c f w).1 = Ok (S c)).
    { intros ->. by rewrite upload_one_eq. }
    destruct (S3Sync.upload_one _ _ _ _ _ _ _ _) as [[c1|e] w1]; simpl in *.
    + destruct (IH c1 w1) as (cs & Ho' & Hcs & Hh & Hf).
      exists (cs1 ++ cs). rewrite Ho', Ho, Hcs, Hcs1, app_assoc.
      split; [done|]. split; [done|]. split.
      * apply Forall_app. split; [|done].
        eapply Forall_impl; [exact Hh1|]. by intros x ->.
      * intros Hforce. destruct (Hf Hforce) as [-> ->]. rewrite (Hf1 Hforce).
        split; [done|]. specialize (Hr Hforce). injection Hr as ->. f_equal. lia.
    + exists cs1. split; [done|]. split; [done|]. split.
      * eapply Forall_impl; [exact Hh1|]. by intros x ->.
      * intros Hforce. by specialize (Hr Hforce).
Qed.

Lemma upload_to_s3_dry force files w :
  exists cs,
    objects (S3Sync.upload_to_s3 env bucket prefix files force true w).2 = objects w
    /\ fs (S3Sync.upload_to_s3 env bucket prefix files force true w).2 = fs w
    /\ run_calls (S3Sync.upload_to_s3 env bucket prefix files force true) w = cs
    /\ Forall (fun x => is_copy x = false) cs
    /\ (force = true ->
        cs = [] /\ (S3Sync.upload_to_s3 env bucket prefix files force true w).1 = Ok true).
Proof.
  unfold run_calls. destruct files as [|f rest].
  - exists []. simpl. rewrite drop_all. by repeat split.
  - destruct (upload_loop_dry force (f :: rest) 0%nat w) as (cs & Ho & Hcs & Hh & Hf).
    pose proof (upload_loop_fs env bucket prefix force true (f :: rest) 0%nat w) as Hfs.
    destruct (S3Sync.upload_loop _ _ _ _ _ _ _ _) as [[c|e] w1] eqn:Hloop;
      cbn [fst snd] in Ho, Hcs, Hfs, Hf.
    + assert (Heq : S3Sync.upload_to_s3 env bucket prefix (f :: rest) force true w
                    = (Ok (Nat.eqb c (length (f :: rest))),
                       add_log [upload_summary true c (length (f :: rest))] w1)).
      { unfold S3Sync.upload_to_s3. unfold bind at 1. by rewrite Hloop. }
      rewrite Heq. simpl. exists cs. rewrite Hcs, drop_own_length.
      repeat split; try done.
      * by destruct (Hf H).
      * destruct (Hf H) as [_ Hc]. injection Hc as ->. by rewrite Nat.eqb_refl.
    + assert (Heq : S3Sync.upload_to_s3 env bucket prefix (f :: rest) force true w
                    = (Raise e, w1)).
      { unfold S3Sync.upload_to_s3. unfold bind at 1. by rewrite Hloop. }
      rewrite Heq. simpl. exists cs. rewrite Hcs, drop_own_length.
      repeat split; try done.
      * by destruct (Hf H).
      * by destruct (Hf H).
Qed.

Lemma download_from_s3_dry db_dir force w :
  objects (S3Sync.download_from_s3 env bucket prefix db_dir force true w).2 = objects w
  /\ Forall (fun x => is_copy x = false)
            (run_calls (S3Sync.download_from_s3 env bucket prefix db_dir force true) w).
Proof.
  unfold run_calls. rewrite download_from_s3_eq. simpl.
  destruct (list_objects_error env (Some prefix)); simpl.
  { rewrite drop_own_length. split; [done|]. by repeat constructor. }
  destruct (contents_of (objects w) (Some prefix) 1000) as [contents|]; simpl.
  2:{ rewrite drop_own_length. split; [done|]. by repeat constructor. }
  rewrite mkdir_eq. simpl.
  destruct (mkdir_denied env db_dir); simpl.
  { rewrite <- app_assoc, drop_own_length. split; [done|]. by repeat constructor. }
  destruct (make_dirs _ _ _) as [f2|]; simpl.
  2:{ rewrite <- app_assoc, drop_own_length. split; [done|]. by repeat constructor. }
  set (w2 := set_fs f2 _).
  destruct (download_loop_dry env bucket prefix db_dir force contents 0%nat w2)
    as (w3 & l & -> & _ & _ & _ & Hcs & Ho).
  simpl. rewrite Ho, Hcs. subst w2. simpl.
  rewrite <- app_assoc, drop_own_length. split; [done|]. by repeat constructor.
Qed.

End DryRun.

(** C7, as stated, fails: planning queries the store, and a refused query
    makes the dry run end badly.  With [head_object] and [list_objects_v2]
    refused, the dry-run upload of [daily.cvd] has called [head_object] and
    answers [False]. *)
Lemma dry_run_fails_when_queries_fail :
  ~ dry_run_cannot_fail Scenario.refused Scenario.bucket Scenario.prefix
      [Scenario.db_file "daily.cvd"] Scenario.db_dir false Scenario.mirror.
Proof.
  intros [Hup _].
  assert (Hfalse : (S3Sync.upload_to_s3 Scenario.refused Scenario.bucket Scenario.prefix
                      [Scenario.db_file "daily.cvd"] false true Scenario.mirror).1 = Ok false)
    by (vm_compute; reflexivity).
  rewrite Hfalse in Hup. discriminate.
Qed.

(** C7 (amended).  A dry run copies nothing: [upload_to_s3] and
    [download_from_s3] with [dry_run] set make no [upload_file] and no
    [download_file] call and leave the objects of the bucket as they are,
    and the upload leaves the local files as they are.  A forced dry-run
    upload makes no call at all and answers [True]. *)
Theorem dry_run_copies_nothing env bucket prefix files db_dir force w :
  let up := S3Sync.upload_to_s3 env bucket prefix files force true in
  let down := S3Sync.download_from_s3 env bucket prefix db_dir force true in
  (objects (up w).2 = objects w
   /\ fs (up w).2 = fs w
   /\ Forall (fun c => is_copy c = false) (run_calls up w))
  /\ (objects (down w).2 = objects w
      /\ Forall (fun c => is_copy c = false) (run_calls down w))
  /\ (force = true -> run_calls up w = [] /\ (up w).1 = Ok true).
Proof.
  intros up down. subst up down.
  destruct (upload_to_s3_dry env bucket prefix force files w) as (cs & Ho & Hfs & Hcs & Hh & Hf).
  destruct (download_from_s3_dry env bucket prefix db_dir force w) as [Ho' Hh'].
  rewrite Hcs. repeat split; try done.
  - by destruct (Hf H).
  - by destruct (Hf H).
Qed.

(** * Further properties

    The other setters of [config_manager.py], how their settings reach
    [s3_sync.py], the parts of [s3_sync.py] around the two batches, and
    the hand-over from [update_databases.py]. *)

(** ** [config_manager.py]: saving and loading the settings *)

Section ConfigFacts.

Variable env : Env.

Lemma load_stored w :
  ConfigManager.load_s3_config env w = (Ok (stored_config env w), w).
Proof.
  unfold ConfigManager.load_s3_config, stored_config, bind, get, ret. simpl.
  by destruct (fs w !! _) as [[? []|]|].
Qed.

Lemma save_s3_config_eq cfg w :
  ConfigManager.save_s3_config env cfg w =
  let path := ConfigManager.get_s3_config_file_path env in
  let w1 := add_calls [Mkdir (PyPath.parent path)] w in
  if mkdir_denied env (PyPath.parent path) then (Raise OSError, w1)
  else
    match make_dirs (local_clock env (length (calls w)))
            (PyPath.prefixes (PyPath.parent path)) (fs w) with
    | None => (Raise OSError, w1)
    | Some f' =>
        let w2 := add_calls [WriteFile path] (set_fs f' w1) in
        match f' !! path with
        | Some (Dir _) => (Raise OSError, w2)
        | _ => (Ok tt,
                set_fs (<[path := File (local_clock env (S (length (calls w)))) (Json cfg)]> f') w2)
        end
    end.
Proof.
  unfold ConfigManager.save_s3_config. unfold bind at 1. rewrite mkdir_eq.
  destruct w as [o f cs lg]. simpl.
  destruct (mkdir_denied env _); [reflexivity|].
  destruct (make_dirs _ _ _) as [f'|]; [|reflexivity].
  run. rewrite length_app. simpl. rewrite Nat.add_1_r.
  destruct (f' !! _) as [[]|]; try reflexivity.
  all: by rewrite <- !app_assoc.
Qed.

End ConfigFacts.

Section ConfigFacts2.

Variable env : Env.

Lemma stored_config_fs w w' : fs w' = fs w -> stored_config env w' = stored_config env w.
Proof. unfold stored_config. by intros ->. Qed.

Lemma prefixes_length (p q : Path) : q ∈ PyPath.prefixes p -> (length q <= length p)%nat.
Proof.
  revert q. induction p as [|c r IH]; intros q Hq; [by apply elem_of_nil in Hq|].
  rewrite prefixes_cons in Hq. apply elem_of_cons in Hq as [->|Hq]; [simpl; lia|].
  apply list_elem_of_In, in_map_iff in Hq as (q' & <- & Hq').
  apply list_elem_of_In, IH in Hq'. simpl. lia.
Qed.

Lemma make_dirs_other t dirs : forall f f' q,
  make_dirs t dirs f = Some f' -> q ∉ dirs -> f' !! q = f !! q.
Proof.
  induction dirs as [|d r IH]; intros f f' q Hm Hq; simpl in Hm; [by simplify_eq|].
  apply not_elem_of_cons in Hq as [Hne Hq].
  destruct (f !! d) as [[]|] eqn:Hd; [done|by eapply IH|].
  erewrite IH by done. by rewrite lookup_insert_ne.
Qed.

Lemma parent_snoc2 (l : Path) a b : PyPath.parent (l ++ [a; b]) = (l ++ [a])%list.
Proof.
  unfold PyPath.parent. destruct l as [|c [|c' r]]; try reflexivity.
  transitivity (removelast ((c :: c' :: r) ++ [a; b])); [reflexivity|].
  by rewrite removelast_app.
Qed.

Lemma config_parent :
  PyPath.parent (ConfigManager.get_s3_config_file_path env) = (home env ++ [".cvdupdate"])%list.
Proof. apply parent_snoc2. Qed.

Lemma config_not_a_prefix : (ConfigManager.get_s3_config_file_path env) ∉ PyPath.prefixes (PyPath.parent (ConfigManager.get_s3_config_file_path env)).
Proof.
  intros Hin%prefixes_length. rewrite config_parent in Hin.
  unfold ConfigManager.get_s3_config_file_path in Hin.
  rewrite !length_app in Hin. simpl in Hin. lia.
Qed.

(** What a successful [save_s3_config] leaves: the settings saved, the
    bucket and the log as they were, whatever existed beside the file kept. *)
Lemma save_effect cfg w w' :
  ConfigManager.save_s3_config env cfg w = (Ok tt, w') ->
  stored_config env w' = cfg
  /\ objects w' = objects w
  /\ log w' = log w
  /\ calls w' = calls w ++ [Mkdir (PyPath.parent (ConfigManager.get_s3_config_file_path env)); WriteFile (ConfigManager.get_s3_config_file_path env)]
  /\ (forall q e, q <> (ConfigManager.get_s3_config_file_path env) -> fs w !! q = Some e -> fs w' !! q = Some e).
Proof.
  rewrite save_s3_config_eq. cbv zeta.
  destruct (mkdir_denied env _); [done|].
  destruct (make_dirs _ _ _) as [f'|] eqn:Hm; [|done].
  assert (Hkeep : forall q e, q <> (ConfigManager.get_s3_config_file_path env) -> fs w !! q = Some e ->
            <[ConfigManager.get_s3_config_file_path env := File (local_clock env (S (length (calls w)))) (Json cfg)]> f' !! q = Some e).
  { intros q e Hq He. rewrite lookup_insert_ne by done. by eapply make_dirs_keeps. }
  destruct (f' !! (ConfigManager.get_s3_config_file_path env)) as [[]|] eqn:Hp; intros Heq; simplify_eq; simpl;
    unfold stored_config; simpl; rewrite lookup_insert_eq, <- app_assoc; by repeat split.
Qed.

(** A failing [save_s3_config] fails on the file system and leaves the
    settings as they were. *)
Lemma save_failure cfg w e w' :
  ConfigManager.save_s3_config env cfg w = (Raise e, w') ->
  e = OSError /\ stored_config env w' = stored_config env w /\ objects w' = objects w.
Proof.
  rewrite save_s3_config_eq. cbv zeta.
  destruct (mkdir_denied env _); [by intros ?; simplify_eq|].
  destruct (make_dirs _ _ _) as [f'|] eqn:Hm; [|by intros ?; simplify_eq].
  pose proof (make_dirs_other _ _ _ _ (ConfigManager.get_s3_config_file_path env) Hm config_not_a_prefix) as Hsame.
  destruct (f' !! (ConfigManager.get_s3_config_file_path env)) as [[]|] eqn:Hp; intros Heq; simplify_eq; simpl.
  repeat split. unfold stored_config. simpl. by rewrite <- Hsame, Hp.
Qed.

(** The common shape of the four setters. *)
Lemma setter_run (m1 m2 : message) k v w :
  (logger INFO m1;;
   config ← ConfigManager.load_s3_config env;
   ConfigManager.save_s3_config env (<[k := v]> config);;
   logger INFO m2;;
   ret true) w
  = match ConfigManager.save_s3_config env (<[k := v]> (stored_config env w))
            (add_log [(INFO, m1)] w) with
    | (Ok _, w') => (Ok true, add_log [(INFO, m2)] w')
    | (Raise e, w') => (Raise e, w')
    end.
Proof.
  unfold bind at 1. unfold logger at 1, modify. unfold bind at 1.
  rewrite load_stored. unfold bind at 1.
  change (set_log (log w ++ [(INFO, m1)]) w) with (add_log [(INFO, m1)] w).
  rewrite (stored_config_fs w) by done.
  by destruct (ConfigManager.save_s3_config env _ _) as [[[]|e] w'].
Qed.

Lemma setter_spec (m1 m2 : message) k v w :
  let r := (logger INFO m1;;
            config ← ConfigManager.load_s3_config env;
            ConfigManager.save_s3_config env (<[k := v]> config);;
            logger INFO m2;;
            ret true) w in
  (r.1 = Ok true
   /\ stored_config env r.2 = <[k := v]> (stored_config env w)
   /\ objects r.2 = objects w
   /\ log r.2 = log w ++ [(INFO, m1); (INFO, m2)]
   /\ calls r.2 = calls w ++ [Mkdir (PyPath.parent (ConfigManager.get_s3_config_file_path env)); WriteFile (ConfigManager.get_s3_config_file_path env)])
  \/ (r.1 = Raise OSError
      /\ stored_config env r.2 = stored_config env w
      /\ objects r.2 = objects w).
Proof.
  cbv zeta. rewrite setter_run.
  destruct (ConfigManager.save_s3_config env _ _) as [[[]|e] w'] eqn:Hsave.
  - left. apply save_effect in Hsave as (Hs & Ho & Hl & Hc & _). simpl.
    rewrite (stored_config_fs w') by done. rewrite Hs, Ho, Hl, Hc. simpl.
    by rewrite <- app_assoc.
  - right. apply save_failure in Hsave as (-> & Hs & Ho). simpl. by rewrite Hs, Ho.
Qed.

End ConfigFacts2.

Section Loaders.

Variable env : Env.

(** Without [S3_BUCKET_NAME], [s3_sync.py] reads what [config_manager.py]
    has stored. *)
Lemma s3_sync_loads_stored w t d :
  S3Sync.opt_truthy (environ env !! "S3_BUCKET_NAME") = false ->
  fs w !! ConfigManager.get_s3_config_file_path env = Some (File t (Json d)) ->
  S3Sync.load_s3_config env w = (Ok d, w).
Proof.
  intros Hb Hf. unfold S3Sync.load_s3_config. rewrite Hb.
  unfold bind, get, ret. simpl.
  change (S3Sync.s3_config_file env) with (ConfigManager.get_s3_config_file_path env).
  by rewrite Hf.
Qed.

End Loaders.



Lemma set_s3_bucket_spec env bucket_name w :
  let r := ConfigManager.set_s3_bucket env bucket_name w in
  (r.1 = Ok true
   /\ stored_config env r.2 = <["bucket" := PyStr bucket_name]> (stored_config env w)
   /\ objects r.2 = objects w
   /\ log r.2 = log w ++ [(INFO, MsgSettingBucket bucket_name); (INFO, MsgBucketSet)]
   /\ calls r.2 = calls w ++ [Mkdir (PyPath.parent (ConfigManager.get_s3_config_file_path env));
                              WriteFile (ConfigManager.get_s3_config_file_path env)])
  \/ (r.1 = Raise OSError
      /\ stored_config env r.2 = stored_config env w
      /\ objects r.2 = objects w).
Proof. apply setter_spec. Qed.


Lemma set_s3_region_spec env region w :
  let r := ConfigManager.set_s3_region env region w in
  (r.1 = Ok true
   /\ stored_config env r.2 = <["region" := PyStr region]> (stored_config env w)
   /\ objects r.2 = objects w
   /\ log r.2 = log w ++ [(INFO, MsgSettingRegion region); (INFO, MsgRegionSet)]
   /\ calls r.2 = calls w ++ [Mkdir (PyPath.parent (ConfigManager.get_s3_config_file_path env));
                              WriteFile (ConfigManager.get_s3_config_file_path env)])
  \/ (r.1 = Raise OSError
      /\ stored_config env r.2 = stored_config env w
      /\ objects r.2 = objects w).
Proof. apply setter_spec. Qed.


Lemma lower_char_idem c : PyString.lower_char (PyString.lower_char c) = PyString.lower_char c.
Proof. destruct c as [[] [] [] [] [] [] [] []]; reflexivity. Qed.

Lemma lower_idem s : PyString.lower (PyString.lower s) = PyString.lower s.
Proof. induction s as [|c r IH]; [done|]. simpl. by rewrite lower_char_idem, IH. Qed.

Lemma set_s3_sync_spec env enabled w :
  let on := bool_decide (PyString.lower enabled ∈ ConfigManager.sync_words) in
  let r := ConfigManager.set_s3_sync env enabled w in
  ConfigManager.set_s3_sync env (PyString.lower enabled) w = r
  /\ ((r.1 = Ok true
       /\ stored_config env r.2 = <["sync_enabled" := PyBool on]> (stored_config env w))
      \/ (r.1 = Raise OSError /\ stored_config env r.2 = stored_config env w)).
Proof.
  cbv zeta. split.
  - unfold ConfigManager.set_s3_sync. by rewrite lower_idem.
  - destruct (setter_spec env
                (MsgSettingSync (bool_decide (PyString.lower enabled ∈ ConfigManager.sync_words)))
                (MsgSyncSet (bool_decide (PyString.lower enabled ∈ ConfigManager.sync_words)))
                "sync_enabled"
                (PyBool (bool_decide (PyString.lower enabled ∈ ConfigManager.sync_words))) w)
      as [(Hr & Hs & _)|(Hr & Hs & _)]; [left|right]; by split.
Qed.


Section PrefixFacts.

Ltac str := rewrite ?append_cons, ?append_nil_l in *; simpl in *.

Lemma rstrip_slash_cons c r :
  PyString.rstrip_slash (String c r) =
  match PyString.rstrip_slash r with
  | EmptyString => if PyString.is_slash c then EmptyString else String c EmptyString
  | r' => String c r'
  end.
Proof. reflexivity. Qed.

Lemma rstrip_slash_snoc s : PyString.rstrip_slash (s ++ "/")%string = PyString.rstrip_slash s.
Proof.
  induction s as [|c r IH]; [reflexivity|].
  rewrite append_cons, !rstrip_slash_cons. by rewrite IH.
Qed.

Lemma rstrip_slash_fixed s :
  PyString.endswith "/" s = false -> PyString.rstrip_slash s = s.
Proof.
  induction s as [|c r IH]; intros Hs; [reflexivity|].
  rewrite rstrip_slash_cons. destruct r as [|c' r'].
  - simpl. destruct (PyString.is_slash c) eqn:Hc; [|reflexivity].
    apply is_slash_eq in Hc as ->. exfalso. vm_compute in Hs. discriminate.
  - rewrite IH; [reflexivity|].
    apply not_true_is_false. intros [pre Hpre]%endswith_spec.
    assert (PyString.endswith "/" (String c (String c' r')) = true) as Ht; [|congruence].
    apply endswith_spec. exists (String c pre). by rewrite append_cons, <- Hpre.
Qed.

(** What [set_s3_prefix] stores is a fixed point of its normalisation. *)
Lemma stored_prefix_fixed prefix :
  let saved := if PyString.truthy prefix
               then (PyString.rstrip_slash prefix ++ "/")%string else EmptyString in
  (if PyString.truthy saved
   then (PyString.rstrip_slash saved ++ "/")%string else EmptyString) = saved.
Proof.
  cbv zeta. destruct (PyString.truthy prefix); [|reflexivity].
  assert (PyString.truthy (PyString.rstrip_slash prefix ++ "/")%string = true) as ->.
  { by destruct (PyString.rstrip_slash prefix). }
  rewrite rstrip_slash_snoc, rstrip_slash_fixed; [done|]. apply rstrip_slash_stripped.
Qed.

End PrefixFacts.

Lemma set_s3_prefix_spec env prefix w :
  let saved := if PyString.truthy prefix
               then (PyString.rstrip_slash prefix ++ "/")%string else EmptyString in
  let r := ConfigManager.set_s3_prefix env prefix w in
  (r.1 = Ok true
   /\ stored_config env r.2 = <["prefix" := PyStr saved]> (stored_config env w)
   /\ objects r.2 = objects w
   /\ log r.2 = log w ++ [(INFO, MsgSettingPrefix prefix); (INFO, MsgPrefixSet)]
   /\ calls r.2 = calls w ++ [Mkdir (PyPath.parent (ConfigManager.get_s3_config_file_path env));
                              WriteFile (ConfigManager.get_s3_config_file_path env)])
  \/ (r.1 = Raise OSError
      /\ stored_config env r.2 = stored_config env w
      /\ objects r.2 = objects w).
Proof. apply setter_spec. Qed.

(** X5.  When [set_s3_prefix] succeeds, the stored settings are the ones it
    found with ['prefix'] replaced, and the value it stored is a fixed
    point: [set_s3_prefix] run again on that value leaves the stored
    settings as they are (whether the second run succeeds or fails). *)
Theorem set_s3_prefix_is_idempotent env prefix w :
  let r := ConfigManager.set_s3_prefix env prefix w in
  r.1 = Ok true ->
  exists saved,
    stored_config env r.2 = <["prefix" := PyStr saved]> (stored_config env w)
    /\ stored_config env (ConfigManager.set_s3_prefix env saved r.2).2 = stored_config env r.2.
Proof.
  cbv zeta. intros Hok.
  destruct (set_s3_prefix_spec env prefix w) as [(_ & Hs & _)|(Hr & _)]; [|congruence].
  eexists. split; [exact Hs|].
  match goal with |- context [ConfigManager.set_s3_prefix env ?q ?w1] =>
    destruct (set_s3_prefix_spec env q w1) as [(_ & Hs' & _)|(_ & Hs' & _)] end;
    [|exact Hs'].
  rewrite Hs', stored_prefix_fixed, Hs. by rewrite insert_insert_eq.
Qed.

(** The theorem above for [set_s3_prefix('mirror//')] on the scenario with a
    configuration file. *)
Lemma set_s3_prefix_is_idempotent_witness :
  let r := ConfigManager.set_s3_prefix Scenario.quiet "mirror//" Scenario.with_config_file in
  exists saved,
    stored_config Scenario.quiet r.2
    = <["prefix" := PyStr saved]> (stored_config Scenario.quiet Scenario.with_config_file)
    /\ stored_config Scenario.quiet (ConfigManager.set_s3_prefix Scenario.quiet saved r.2).2
       = stored_config Scenario.quiet r.2.
Proof.
  apply (set_s3_prefix_is_idempotent Scenario.quiet "mirror//" Scenario.with_config_file).
  vm_compute; reflexivity.
Defined.

(** ** From [config_manager.py] to [s3_sync.py] *)

Section MainConfigFacts.

Variable env : Env.

Lemma stored_lookup w k v :
  stored_config env w !! k = Some v ->
  exists t, fs w !! ConfigManager.get_s3_config_file_path env
            = Some (File t (Json (stored_config env w))).
Proof.
  unfold stored_config.
  destruct (fs w !! _) as [[t [|d]|t]|]; try (by rewrite lookup_empty). by exists t.
Qed.

Lemma s3_sync_loads_settings w k v :
  S3Sync.opt_truthy (environ env !! "S3_BUCKET_NAME") = false ->
  stored_config env w !! k = Some v ->
  S3Sync.load_s3_config env w = (Ok (stored_config env w), w).
Proof.
  intros Hb Hk. destruct (stored_lookup w k v Hk) as [t Hf].
  by eapply s3_sync_loads_stored.
Qed.

Lemma bind_ok {A B} (m : M A) (k : A -> M B) w b w' :
  bind m k w = (Ok b, w') -> exists a w1, m w = (Ok a, w1) /\ k a w1 = (Ok b, w').
Proof.
  unfold bind. destruct (m w) as [[a|e] w1]; [|done]. intros H. by exists a, w1.
Qed.

(** [main] up to the creation of the client. *)
Lemma main_refuses_bucket args w cfg v :
  S3Sync.load_s3_config env w = (Ok cfg, w) ->
  cfg !! "bucket" = Some v ->
  S3Sync.py_truthy v = false ->
  S3Sync.main env args w = (Ok 1, add_log [(ERROR, MsgBucketNotConfigured)] w).
Proof.
  intros Hload Hb Hv. unfold S3Sync.main, bind at 1. rewrite Hload.
  unfold S3Sync.getitem. rewrite Hb. unfold bind at 1, ret at 1. by rewrite Hv.
Qed.

Lemma main_refuses_sync args w cfg v s :
  S3Sync.load_s3_config env w = (Ok cfg, w) ->
  cfg !! "bucket" = Some v ->
  S3Sync.py_truthy v = true ->
  cfg !! "sync_enabled" = Some s ->
  S3Sync.py_truthy s = false ->
  S3Sync.main env args w = (Ok 1, add_log [(ERROR, MsgSyncDisabled)] w).
Proof.
  intros Hload Hb Hv Hs Hsv. unfold S3Sync.main, bind at 1. rewrite Hload.
  unfold S3Sync.getitem. rewrite Hb. unfold bind at 1, ret at 1. rewrite Hv. simpl.
  rewrite Hs. unfold bind at 1, ret at 1. by rewrite Hsv.
Qed.

Lemma main_key_error_bucket args w cfg :
  S3Sync.load_s3_config env w = (Ok cfg, w) ->
  cfg !! "bucket" = None ->
  S3Sync.main env args w = (Raise (KeyError "bucket"), w).
Proof.
  intros Hload Hb. unfold S3Sync.main, bind at 1. rewrite Hload.
  unfold S3Sync.getitem. by rewrite Hb.
Qed.

Lemma main_key_error_sync args w cfg v :
  S3Sync.load_s3_config env w = (Ok cfg, w) ->
  cfg !! "bucket" = Some v ->
  S3Sync.py_truthy v = true ->
  cfg !! "sync_enabled" = None ->
  S3Sync.main env args w = (Raise (KeyError "sync_enabled"), w).
Proof.
  intros Hload Hb Hv Hs. unfold S3Sync.main, bind at 1. rewrite Hload.
  unfold S3Sync.getitem. rewrite Hb. unfold bind at 1, ret at 1. rewrite Hv. simpl.
  by rewrite Hs.
Qed.

Lemma main_no_region args w cfg v s :
  S3Sync.load_s3_config env w = (Ok cfg, w) ->
  cfg !! "bucket" = Some v ->
  S3Sync.py_truthy v = true ->
  cfg !! "sync_enabled" = Some s ->
  S3Sync.py_truthy s = true ->
  cfg !! "region" = None ->
  S3Sync.main env args w = (Ok 1, add_log [(ERROR, MsgClientFailed)] w).
Proof.
  intros Hload Hb Hv Hs Hsv Hr. unfold S3Sync.main, bind at 1. rewrite Hload.
  unfold S3Sync.getitem. rewrite Hb. unfold bind at 1, ret at 1. rewrite Hv. simpl.
  rewrite Hs. unfold bind at 1, ret at 1. rewrite Hsv. simpl.
  rewrite Hr. by rewrite bool_decide_eq_true_2.
Qed.

End MainConfigFacts.

(** X6.  After [set_s3_bucket], [set_s3_region], [set_s3_prefix] and
    [set_s3_sync('enabled')] have run in a row and the last has answered
    [True], [s3_sync.py] (with [S3_BUCKET_NAME] unset or empty and a client
    that can be created) gets past its configuration checks with that
    bucket, and reads the region given, the prefix as [set_s3_prefix]
    normalises it, and [sync_enabled] true. *)
Theorem setters_configure_sync env bucket_name region prefix w :
  let run := (ConfigManager.set_s3_bucket env bucket_name;;
              ConfigManager.set_s3_region env region;;
              ConfigManager.set_s3_prefix env prefix;;
              ConfigManager.set_s3_sync env "enabled") in
  S3Sync.opt_truthy (environ env !! "S3_BUCKET_NAME") = false ->
  client_creation_fails env = false ->
  bucket_name <> EmptyString ->
  (run w).1 = Ok true ->
  exists cfg,
    configured env (run w).2 cfg bucket_name
    /\ cfg !! "region" = Some (PyStr region)
    /\ cfg !! "prefix" = Some (PyStr (if PyString.truthy prefix
                                      then (PyString.rstrip_slash prefix ++ "/")%string
                                      else EmptyString))
    /\ cfg !! "sync_enabled" = Some (PyBool true).
Proof.
  cbv zeta. intros Henv Hclient Hne Hok.
  set (run := bind (ConfigManager.set_s3_bucket env bucket_name) _) in *.
  destruct (run w) as [res w4] eqn:Hrun. simpl in Hok. subst res run. simpl.
  apply bind_ok in Hrun as (b1 & w1 & H1 & Hrun).
  apply bind_ok in Hrun as (b2 & w2 & H2 & Hrun).
  apply bind_ok in Hrun as (b3 & w3 & H3 & H4).
  pose proof (set_s3_bucket_spec env bucket_name w) as S1.
  pose proof (set_s3_region_spec env region w1) as S2.
  pose proof (set_s3_prefix_spec env prefix w2) as S3.
  pose proof (set_s3_sync_spec env "enabled" w3) as [_ S4].
  cbv zeta in S1, S2, S3, S4. rewrite H1 in S1. rewrite H2 in S2. rewrite H3 in S3.
  rewrite H4 in S4. cbn [fst snd] in S1, S2, S3, S4.
  destruct S1 as [(_ & S1 & _)|(? & _)]; [|done].
  destruct S2 as [(_ & S2 & _)|(? & _)]; [|done].
  destruct S3 as [(_ & S3 & _)|(? & _)]; [|done].
  destruct S4 as [(_ & S4)|(? & _)]; [|done].
  rewrite S3, S2, S1 in S4.
  assert (Hon : bool_decide (PyString.lower "enabled" ∈ ConfigManager.sync_words) = true)
    by (vm_compute; reflexivity).
  rewrite Hon in S4.
  exists (stored_config env w4).
  assert (Hs : stored_config env w4 !! "sync_enabled" = Some (PyBool true))
    by (rewrite S4; by simplify_map_eq).
  split; [|rewrite S4; by simplify_map_eq].
  unfold configured. split; [by eapply s3_sync_loads_settings|].
  split; [rewrite S4; by simplify_map_eq|].
  split; [unfold PyString.truthy; by apply negb_true_iff, String.eqb_neq|].
  split; [by exists (PyBool true)|].
  split; [|done]. exists (PyStr region). rewrite S4. by simplify_map_eq.
Qed.

(** The theorem above on a machine where nothing was configured. *)
Lemma setters_configure_sync_witness :
  let run := (ConfigManager.set_s3_bucket Scenario.quiet "mirror";;
              ConfigManager.set_s3_region Scenario.quiet "eu-west-1";;
              ConfigManager.set_s3_prefix Scenario.quiet "backup//";;
              ConfigManager.set_s3_sync Scenario.quiet "enabled") in
  exists cfg,
    configured Scenario.quiet (run Scenario.bare).2 cfg "mirror"
    /\ cfg !! "region" = Some (PyStr "eu-west-1")
    /\ cfg !! "prefix" = Some (PyStr (if PyString.truthy "backup//"
                                      then (PyString.rstrip_slash "backup//" ++ "/")%string
                                      else EmptyString))
    /\ cfg !! "sync_enabled" = Some (PyBool true).
Proof.
  apply (setters_configure_sync Scenario.quiet "mirror" "eu-west-1" "backup//" Scenario.bare).
  - vm_compute; reflexivity.
  - reflexivity.
  - discriminate.
  - vm_compute; reflexivity.
Defined.

(** X7.  [set_s3_bucket] alone does not make a configuration [main] can
    read: when the stored settings have no ['sync_enabled'] (as on a
    machine never configured) and [set_s3_bucket] stores a non-empty name,
    [main] of [s3_sync.py] (with [S3_BUCKET_NAME] unset or empty) ends with
    the uncaught [KeyError('sync_enabled')], whatever its arguments, with
    no log record and exit status 1. *)
Theorem set_bucket_then_sync_crashes env args bucket_name w :
  let r := ConfigManager.set_s3_bucket env bucket_name w in
  S3Sync.opt_truthy (environ env !! "S3_BUCKET_NAME") = false ->
  bucket_name <> EmptyString ->
  stored_config env w !! "sync_enabled" = None ->
  r.1 = Ok true ->
  S3Sync.main env args r.2 = (Raise (KeyError "sync_enabled"), r.2)
  /\ exit_status (S3Sync.main env args r.2).1 = 1.
Proof.
  cbv zeta. intros Henv Hne Hsync Hok.
  destruct (set_s3_bucket_spec env bucket_name w) as [(_ & Hs & _)|(? & _)];
    [|congruence].
  set (w1 := (ConfigManager.set_s3_bucket env bucket_name w).2) in *.
  assert (Hb : stored_config env w1 !! "bucket" = Some (PyStr bucket_name))
    by (rewrite Hs; by simplify_map_eq).
  assert (Hmain : S3Sync.main env args w1 = (Raise (KeyError "sync_enabled"), w1)).
  { eapply main_key_error_sync.
    - by eapply s3_sync_loads_settings.
    - exact Hb.
    - unfold S3Sync.py_truthy, PyString.truthy. by apply negb_true_iff, String.eqb_neq.
    - rewrite Hs. by rewrite lookup_insert_ne. }
  by rewrite Hmain.
Qed.

(** The theorem above for [set_s3_bucket('mirror')] on a machine where
    nothing was configured. *)
Lemma set_bucket_then_sync_crashes_witness :
  let r := ConfigManager.set_s3_bucket Scenario.quiet "mirror" Scenario.bare in
  S3Sync.main Scenario.quiet Scenario.plain_args r.2 = (Raise (KeyError "sync_enabled"), r.2)
  /\ exit_status (S3Sync.main Scenario.quiet Scenario.plain_args r.2).1 = 1.
Proof.
  apply (set_bucket_then_sync_crashes Scenario.quiet Scenario.plain_args "mirror" Scenario.bare).
  - vm_compute; reflexivity.
  - discriminate.
  - vm_compute; reflexivity.
  - vm_compute; reflexivity.
Defined.

(** X8.  The default region ['us-east-1'] is not applied to a
    configuration file without a region: after [set_s3_bucket] with a
    non-empty name and [set_s3_sync] with one of the spellings of "on",
    on settings that hold no ['region'], [main] of [s3_sync.py] (with
    [S3_BUCKET_NAME] unset or empty) logs that the client could not be
    created and exits with status 1 without any call. *)
Theorem region_default_is_not_applied env args bucket_name enabled w :
  let r := (ConfigManager.set_s3_bucket env bucket_name;;
            ConfigManager.set_s3_sync env enabled) w in
  S3Sync.opt_truthy (environ env !! "S3_BUCKET_NAME") = false ->
  bucket_name <> EmptyString ->
  PyString.lower enabled ∈ ConfigManager.sync_words ->
  stored_config env w !! "region" = None ->
  r.1 = Ok true ->
  S3Sync.main env args r.2 = (Ok 1, add_log [(ERROR, MsgClientFailed)] r.2)
  /\ calls (S3Sync.main env args r.2).2 = calls r.2.
Proof.
  cbv zeta. intros Henv Hne Hon Hreg Hok.
  set (run := bind (ConfigManager.set_s3_bucket env bucket_name) _) in *.
  destruct (run w) as [res w2] eqn:Hrun. simpl in Hok. subst res run. simpl.
  apply bind_ok in Hrun as (b1 & w1 & H1 & H2).
  pose proof (set_s3_bucket_spec env bucket_name w) as S1.
  pose proof (set_s3_sync_spec env enabled w1) as [_ S2].
  cbv zeta in S1, S2. rewrite H1 in S1. rewrite H2 in S2. cbn [fst snd] in S1, S2.
  destruct S1 as [(_ & S1 & _)|(? & _)]; [|done].
  destruct S2 as [(_ & S2)|(? & _)]; [|done].
  rewrite bool_decide_eq_true_2 in S2 by done. rewrite S1 in S2.
  assert (Hmain : S3Sync.main env args w2 = (Ok 1, add_log [(ERROR, MsgClientFailed)] w2)).
  { eapply (main_no_region env args w2 _ (PyStr bucket_name) (PyBool true)).
    - eapply (s3_sync_loads_settings env w2 "bucket"); [done|]. rewrite S2. by simplify_map_eq.
    - rewrite S2. by simplify_map_eq.
    - unfold S3Sync.py_truthy, PyString.truthy. by apply negb_true_iff, String.eqb_neq.
    - rewrite S2. by simplify_map_eq.
    - done.
    - rewrite S2. by simplify_map_eq. }
  by rewrite Hmain.
Qed.

(** The theorem above for [set_s3_bucket('mirror')] and [set_s3_sync('Yes')]
    on a machine where nothing was configured. *)
Lemma region_default_is_not_applied_witness :
  let r := (ConfigManager.set_s3_bucket Scenario.quiet "mirror";;
            ConfigManager.set_s3_sync Scenario.quiet "Yes") Scenario.bare in
  S3Sync.main Scenario.quiet Scenario.plain_args r.2
  = (Ok 1, add_log [(ERROR, MsgClientFailed)] r.2)
  /\ calls (S3Sync.main Scenario.quiet Scenario.plain_args r.2).2 = calls r.2.
Proof.
  apply (region_default_is_not_applied Scenario.quiet Scenario.plain_args "mirror" "Yes"
           Scenario.bare).
  - vm_compute; reflexivity.
  - discriminate.
  - compute_done.
  - vm_compute; reflexivity.
  - vm_compute; reflexivity.
Defined.

(** X9.  When the loaded configuration has a ['bucket'] that is [None] or
    empty, or a ['sync_enabled'] that is false, [main] exits with status 1
    after one error record (bucket not configured, or sync disabled),
    whatever its arguments: it makes no call and changes neither the
    bucket nor the file system. *)
Theorem main_refuses_without_bucket_or_sync env args w cfg v :
  let r := S3Sync.main env args w in
  S3Sync.load_s3_config env w = (Ok cfg, w) ->
  cfg !! "bucket" = Some v ->
  (S3Sync.py_truthy v = false
   \/ exists s, cfg !! "sync_enabled" = Some s /\ S3Sync.py_truthy s = false) ->
  r.1 = Ok 1
  /\ calls r.2 = calls w /\ fs r.2 = fs w /\ objects r.2 = objects w
  /\ exists m, log r.2 = log w ++ [(ERROR, m)]
               /\ (m = MsgBucketNotConfigured \/ m = MsgSyncDisabled).
Proof.
  cbv zeta. intros Hload Hb Hcase.
  destruct (S3Sync.py_truthy v) eqn:Hv.
  - destruct Hcase as [?|(s & Hs & Hsv)]; [done|].
    rewrite (main_refuses_sync env args w cfg v s) by done. simpl.
    repeat split. eexists. split; [reflexivity|by right].
  - rewrite (main_refuses_bucket env args w cfg v) by done. simpl.
    repeat split. eexists. split; [reflexivity|by left].
Qed.

(** The theorem above on a machine where nothing was configured:
    [load_s3_config] answers its defaults, whose bucket is [None]. *)
Lemma main_refuses_without_bucket_or_sync_witness :
  let r := S3Sync.main Scenario.quiet Scenario.plain_args Scenario.bare in
  r.1 = Ok 1
  /\ calls r.2 = calls Scenario.bare /\ fs r.2 = fs Scenario.bare
  /\ objects r.2 = objects Scenario.bare
  /\ exists m, log r.2 = log Scenario.bare ++ [(ERROR, m)]
               /\ (m = MsgBucketNotConfigured \/ m = MsgSyncDisabled).
Proof.
  apply (main_refuses_without_bucket_or_sync Scenario.quiet Scenario.plain_args Scenario.bare
           S3Sync.unset_config PyNone).
  - vm_compute; reflexivity.
  - vm_compute; reflexivity.
  - left. reflexivity.
Defined.

(** ** [s3_sync.py]: the runs around the two batches *)

Section SyncFacts.

Variable env : Env.

Lemma get_local_files_missing db_dir w :
  fs w !! db_dir = None ->
  S3Sync.get_local_files db_dir w = (Ok [], add_log [(WARNING, MsgDirMissing db_dir)] w).
Proof.
  intros Hd. unfold S3Sync.get_local_files, bind, get, ret, logger, modify. simpl.
  by rewrite Hd.
Qed.

Lemma get_local_files_world db_dir w :
  exists l, (S3Sync.get_local_files db_dir w).2 = add_log l w.
Proof.
  unfold S3Sync.get_local_files, bind, get, ret, logger, modify. simpl.
  destruct (fs w !! db_dir); by eexists.
Qed.


End SyncFacts.

(** X10.  When [get_local_files] finds no file, [main] in upload mode exits
    with status 0: it makes no call, changes neither the bucket nor the
    file system, and its last record is the warning that there is nothing
    to upload.  A missing database directory is such a case: the run then
    logs the start, the missing directory and that warning. *)
Theorem upload_of_nothing_succeeds env args w cfg bucket prefix db_dir :
  let r := S3Sync.main env args w in
  configured env w cfg bucket ->
  cfg !! "prefix" = Some (PyStr prefix) ->
  S3Sync.test_connection args = false ->
  S3Sync.download args = false ->
  (S3Sync.get_database_directory env w).1 = Ok db_dir ->
  (S3Sync.get_local_files db_dir w).1 = Ok [] ->
  r.1 = Ok 0
  /\ calls r.2 = calls w /\ objects r.2 = objects w /\ fs r.2 = fs w
  /\ last (log r.2) = Some (WARNING, MsgNoLocalFiles)
  /\ (fs w !! db_dir = None ->
      log r.2 = log w ++ [(INFO, MsgStartUpload); (WARNING, MsgDirMissing db_dir);
                          (WARNING, MsgNoLocalFiles)]).
Proof.
  cbv zeta. intros Hconf Hp Htest Hdown Hdb Hfiles.
  rewrite (main_upload env args w cfg bucket prefix Hconf Hp Htest) by (by rewrite Hdown).
  pose proof (get_database_directory_world env w) as Hw.
  destruct (S3Sync.get_database_directory env w) as [r w1]. simpl in *. subst r w1.
  destruct (get_local_files_eq db_dir (add_log [(INFO, MsgStartUpload)] w))
    as (files & l & Hrun & Hsame).
  rewrite (Hsame w) in Hfiles by done. injection Hfiles as ->.
  rewrite Hrun. simpl.
  repeat split.
  - by rewrite last_snoc.
  - intros Hd. rewrite get_local_files_missing in Hrun by done.
    injection Hrun as Hl. apply app_inv_head in Hl. subst l. by rewrite <- !app_assoc.
Qed.

(** The theorem above on a machine without database directory. *)
Lemma upload_of_nothing_succeeds_witness :
  let r := S3Sync.main Scenario.with_bucket Scenario.plain_args Scenario.no_database in
  r.1 = Ok 0
  /\ calls r.2 = calls Scenario.no_database /\ objects r.2 = objects Scenario.no_database
  /\ fs r.2 = fs Scenario.no_database
  /\ last (log r.2) = Some (WARNING, MsgNoLocalFiles)
  /\ (fs Scenario.no_database !! Scenario.db_dir = None ->
      log r.2 = log Scenario.no_database
                ++ [(INFO, MsgStartUpload); (WARNING, MsgDirMissing Scenario.db_dir);
                    (WARNING, MsgNoLocalFiles)]).
Proof.
  apply (upload_of_nothing_succeeds Scenario.with_bucket Scenario.plain_args
           Scenario.no_database Scenario.bucket_config Scenario.bucket Scenario.prefix
           Scenario.db_dir).
  - configured_by_computation.
  - vm_compute; reflexivity.
  - reflexivity.
  - reflexivity.
  - vm_compute; reflexivity.
  - vm_compute; reflexivity.
Defined.


Section TransferFacts.

Variable env : Env.
Variables bucket prefix : string.
Variable db_dir : Path.

Lemma upload_to_s3_fs files force dry_run w :
  fs (S3Sync.upload_to_s3 env bucket prefix files force dry_run w).2 = fs w.
Proof.
  destruct files as [|f rest]; [reflexivity|].
  unfold S3Sync.upload_to_s3. unfold bind at 1.
  pose proof (upload_loop_fs env bucket prefix force dry_run (f :: rest) 0%nat w) as Hfs.
  destruct (S3Sync.upload_loop _ _ _ _ _ _ _ _) as [[c|e] w1]; simpl in *; [|done].
  by destruct dry_run.
Qed.

Lemma mkdir_objects dir w : objects (mkdir env dir w).2 = objects w.
Proof.
  rewrite mkdir_eq. cbv zeta. destruct (mkdir_denied env dir); [reflexivity|].
  by destruct (make_dirs _ _ _).
Qed.

Lemma download_from_s3_objects force dry_run w :
  objects (S3Sync.download_from_s3 env bucket prefix db_dir force dry_run w).2 = objects w.
Proof.
  rewrite download_from_s3_eq. cbv zeta.
  destruct (list_objects_error env (Some prefix)); [reflexivity|].
  destruct (contents_of _ _ _) as [contents|]; [|reflexivity].
  pose proof (mkdir_objects db_dir (add_calls [ListObjectsV2 bucket (Some prefix)] w)) as Hm.
  destruct (mkdir env db_dir _) as [[[]|e] w2]; simpl in Hm; [|done].
  pose proof (download_loop_objects env bucket prefix db_dir force dry_run contents 0%nat w2)
    as Hl.
  destruct (S3Sync.download_loop _ _ _ _ _ _ _ _ _) as [[c|[]] w3]; simpl in *; congruence.
Qed.

Lemma fetch_raises key file w e w' :
  fetch env bucket key file w = (Raise e, w') ->
  e = OSError \/ exists code, e = ClientError code.
Proof.
  unfold fetch, bind. rewrite mkdir_eq. cbv zeta.
  destruct (mkdir_denied env _); [intros ?; simplify_eq; by left|].
  destruct (make_dirs _ _ _); [|intros ?; simplify_eq; by left].
  rewrite download_file_eq. cbv zeta.
  destruct (download_file_error env key); [intros ?; simplify_eq; right; by eexists|].
  destruct (objects _ !! key); [|intros ?; simplify_eq; right; by eexists].
  destruct (_ !! file) as [[]|]; intros ?; simplify_eq. by left.
Qed.

Lemma download_one_raises force dry_run c obj w e w' :
  S3Sync.download_one env bucket prefix db_dir force dry_run c obj w = (Raise e, w') ->
  e = OSError \/ exists code, e = ClientError code.
Proof.
  rewrite download_one_eq. cbv zeta.
  destruct (download_verdict _ _ _ _ _); try done.
  destruct dry_run; [done|].
  destruct (fetch env bucket _ _ _) as [[[]|e'] w1] eqn:Hf; [done|].
  intros ?; simplify_eq. by eapply fetch_raises.
Qed.

Lemma download_one_count force dry_run c obj w c' w' :
  S3Sync.download_one env bucket prefix db_dir force dry_run c obj w = (Ok c', w') ->
  (c' <= S c)%nat.
Proof.
  rewrite download_one_eq. cbv zeta.
  destruct (download_verdict _ _ _ _ _); try (intros ?; simplify_eq; lia).
  destruct dry_run; [intros ?; simplify_eq; lia|].
  destruct (fetch env bucket _ _ _) as [[[]|e'] w1]; intros ?; simplify_eq; lia.
Qed.

Lemma download_loop_outcome force dry_run contents : forall c w,
  match S3Sync.download_loop env bucket prefix db_dir force dry_run contents c w with
  | (Ok c', _) => (c' <= c + length contents)%nat
  | (Raise e, _) => e = OSError \/ exists code, e = ClientError code
  end.
Proof.
  induction contents as [|obj rest IH]; intros c w; [simpl; lia|].
  rewrite download_loop_cons.
  destruct (S3Sync.download_one _ _ _ _ _ _ _ _ _) as [[c1|e] w1] eqn:H1.
  - apply download_one_count in H1. specialize (IH c1 w1).
    destruct (S3Sync.download_loop _ _ _ _ _ _ _ _ _) as [[c'|e] w2]; [simpl; lia|done].
  - by eapply download_one_raises.
Qed.

End TransferFacts.

(** X12.  Whatever the flags and whatever happens, [upload_to_s3] leaves the
    local file system as it is and [download_from_s3] leaves the objects
    of the bucket as they are. *)
Theorem transfers_are_one_way env bucket prefix files db_dir force dry_run w :
  fs (S3Sync.upload_to_s3 env bucket prefix files force dry_run w).2 = fs w
  /\ objects (S3Sync.download_from_s3 env bucket prefix db_dir force dry_run w).2 = objects w.
Proof. split; [apply upload_to_s3_fs|apply download_from_s3_objects]. Qed.

Lemma download_from_s3_outcome env bucket prefix db_dir force dry_run w :
  let r := S3Sync.download_from_s3 env bucket prefix db_dir force dry_run w in
  match r.1 with
  | Ok true =>
      last (log r.2) = Some (WARNING, MsgNoRemoteFiles bucket prefix)
      \/ exists c, (c <= length (listing prefix w))%nat
                   /\ last (log r.2)
                      = Some (download_summary dry_run c (length (listing prefix w)))
  | Ok false => exists code, last (log r.2) = Some (ERROR, MsgDownloadFailed (ClientError code))
  | Raise e => e = OSError
  end.
Proof.
  cbv zeta. rewrite download_from_s3_eq. cbv zeta. unfold listing.
  destruct (list_objects_error env (Some prefix)); simpl;
    [eexists; by rewrite last_snoc|].
  destruct (contents_of _ _ _) as [contents|]; simpl; [|left; by rewrite last_snoc].
  rewrite mkdir_eq. cbv zeta.
  destruct (mkdir_denied env db_dir); [done|].
  destruct (make_dirs _ _ _); [|done].
  match goal with |- context [S3Sync.download_loop ?e ?b ?p ?d ?f ?dr ?cs ?c ?w0] =>
    pose proof (download_loop_outcome e b p d f dr cs c w0) as Hout;
    destruct (S3Sync.download_loop e b p d f dr cs c w0) as [[c'|err] w3] end; simpl.
  - right. exists c'. split; [lia|]. by rewrite last_snoc.
  - destruct Hout as [->|[code ->]]; simpl; [done|]. eexists. by rewrite last_snoc.
Qed.


Section ForcedUpload.

Variable env : Env.
Variables bucket prefix : string.

Lemma forced_upload_loop files : forall c w,
  regular_files files w ->
  (forall f, f ∈ files -> upload_file_error env (S3Sync.s3_key_of prefix f) = None) ->
  exists w',
    S3Sync.upload_loop env bucket prefix true false files c w
    = (Ok (c + length files)%nat, w')
    /\ calls w' = calls w ++ ((fun f => UploadFile f bucket (S3Sync.s3_key_of prefix f)) <$> files)
    /\ log w' = log w ++ ((fun f => (INFO, MsgUploading (PyPath.name f) bucket
                                             (S3Sync.s3_key_of prefix f))) <$> files)
    /\ (forall k, is_Some (objects w !! k) -> is_Some (objects w' !! k))
    /\ (forall f, f ∈ files -> is_Some (objects w' !! S3Sync.s3_key_of prefix f)).
Proof.
  induction files as [|f rest IH]; intros c w Hreg Herr.
  - exists w. simpl. rewrite !app_nil_r, Nat.add_0_r. repeat split; try done.
    intros f Hf. by apply elem_of_nil in Hf.
  - rewrite upload_loop_cons, upload_one_eq. cbv zeta. unfold upload_verdict.
    destruct (Hreg f) as (t & d & Hf); [by left|]. rewrite Hf.
    rewrite Herr by (by left).
    match goal with |- context [S3Sync.upload_loop _ _ _ _ _ _ _ ?w1] =>
      destruct (IH (S c) w1) as (w' & Hrun & Hc & Hl & Hkeep & Hin) end.
    + intros g Hg. apply Hreg. by right.
    + intros g Hg. apply Herr. by right.
    + exists w'. rewrite Hrun, Hc, Hl. simpl. rewrite <- !app_assoc. simpl.
      split; [do 2 f_equal; lia|]. split; [done|]. split; [done|]. split.
      * intros k Hk. apply Hkeep. simpl.
        destruct (decide (k = S3Sync.s3_key_of prefix f)) as [->|Hne];
          [by rewrite lookup_insert_eq|by rewrite lookup_insert_ne].
      * intros g [->|Hg]%elem_of_cons; [|by apply Hin].
        apply Hkeep. simpl. by rewrite lookup_insert_eq.
Qed.

End ForcedUpload.

(** X14.  A forced real upload of regular files, none of whose uploads is
    refused, answers [True]; its calls are exactly one [upload_file] per
    candidate, in order, with the key computed from the prefix (no
    [head_object]); afterwards every candidate's key is in the bucket and
    no key that was there is lost. *)
Theorem forced_upload_copies_everything env bucket prefix files w :
  let r := S3Sync.upload_to_s3 env bucket prefix files true false w in
  regular_files files w ->
  (forall f, f ∈ files -> upload_file_error env (S3Sync.s3_key_of prefix f) = None) ->
  r.1 = Ok true
  /\ run_calls (S3Sync.upload_to_s3 env bucket prefix files true false) w
     = (fun f => UploadFile f bucket (S3Sync.s3_key_of prefix f)) <$> files
  /\ (forall f, f ∈ files -> is_Some (objects r.2 !! S3Sync.s3_key_of prefix f))
  /\ (forall k, is_Some (objects w !! k) -> is_Some (objects r.2 !! k)).
Proof.
  cbv zeta. intros Hreg Herr. unfold run_calls.
  destruct files as [|f rest].
  - simpl. rewrite drop_all. repeat split; try done.
    intros f Hf. by apply elem_of_nil in Hf.
  - destruct (forced_upload_loop env bucket prefix (f :: rest) 0%nat w Hreg Herr)
      as (w' & Hrun & Hc & _ & Hkeep & Hin).
    unfold S3Sync.upload_to_s3. unfold bind at 1 3 5 7. rewrite Hrun. simpl.
    rewrite Hc, drop_own_length, Nat.eqb_refl. by repeat split.
Qed.

(** The theorem above for the three candidates of the mirror scenario. *)
Lemma forced_upload_copies_everything_witness :
  let r := S3Sync.upload_to_s3 Scenario.quiet Scenario.bucket Scenario.prefix
             Scenario.candidates true false Scenario.mirror in
  r.1 = Ok true
  /\ run_calls (S3Sync.upload_to_s3 Scenario.quiet Scenario.bucket Scenario.prefix
                  Scenario.candidates true false) Scenario.mirror
     = (fun f => UploadFile f Scenario.bucket (S3Sync.s3_key_of Scenario.prefix f))
         <$> Scenario.candidates
  /\ (forall f, f ∈ Scenario.candidates ->
        is_Some (objects r.2 !! S3Sync.s3_key_of Scenario.prefix f))
  /\ (forall k, is_Some (objects Scenario.mirror !! k) -> is_Some (objects r.2 !! k)).
Proof.
  apply (forced_upload_copies_everything Scenario.quiet Scenario.bucket Scenario.prefix
           Scenario.candidates Scenario.mirror).
  - regular_by_computation.
  - intros f _. reflexivity.
Defined.

Section DryDownload.

Variable env : Env.

Lemma prefixes_self (p : Path) : p <> [] -> p ∈ PyPath.prefixes p.
Proof.
  induction p as [|c r IH]; [done|]. intros _. rewrite prefixes_cons.
  destruct r as [|c' r']; [by left|]. right.
  apply list_elem_of_In, in_map, list_elem_of_In, IH. done.
Qed.

End DryDownload.

(** X15.  A dry-run download is not without effect on the file system: when
    the listing succeeds and is not empty, a run that answers [True] has
    called [mkdir] on the database directory, which is a directory
    afterwards; its calls are the listing and that [mkdir], so a
    directory that was missing has been made. *)
Theorem dry_run_download_makes_directory env bucket prefix db_dir force w :
  let r := S3Sync.download_from_s3 env bucket prefix db_dir force true w in
  db_dir <> [] ->
  list_objects_error env (Some prefix) = None ->
  listing prefix w <> [] ->
  r.1 = Ok true ->
  (exists t, fs r.2 !! db_dir = Some (Dir t))
  /\ run_calls (S3Sync.download_from_s3 env bucket prefix db_dir force true) w
     = [ListObjectsV2 bucket (Some prefix); Mkdir db_dir]
  /\ (fs w !! db_dir = None -> fs r.2 <> fs w).
Proof.
  cbv zeta. intros Hne Hlist Hsome. unfold run_calls.
  rewrite download_from_s3_eq. cbv zeta. rewrite Hlist.
  unfold listing in Hsome.
  destruct (contents_of _ _ _) as [contents|]; [|done].
  rewrite mkdir_eq. cbv zeta.
  destruct (mkdir_denied env db_dir); [done|].
  destruct (make_dirs _ _ _) as [f'|] eqn:Hm; [|done].
  destruct (make_dirs_made _ _ _ _ db_dir Hm (prefixes_self db_dir Hne)) as [t Ht].
  match goal with |- context [S3Sync.download_loop ?e ?b ?p ?d ?f true ?cs ?c ?w0] =>
    destruct (download_loop_dry e b p d f cs c w0) as (w3 & l & -> & _ & _ & Hfs & Hcs & _) end.
  simpl in *. intros _. rewrite Hfs, Hcs.
  split; [by exists t|]. split.
  - rewrite <- app_assoc. by rewrite drop_own_length.
  - intros Hnone Heq. rewrite Heq in Ht. congruence.
Qed.

(** The theorem above for a bucket with two databases and no local database
    directory. *)
Lemma dry_run_download_makes_directory_witness :
  let r := S3Sync.download_from_s3 Scenario.quiet Scenario.bucket Scenario.prefix
             Scenario.db_dir false true Scenario.remote_only in
  (exists t, fs r.2 !! Scenario.db_dir = Some (Dir t))
  /\ run_calls (S3Sync.download_from_s3 Scenario.quiet Scenario.bucket Scenario.prefix
                  Scenario.db_dir false true) Scenario.remote_only
     = [ListObjectsV2 Scenario.bucket (Some Scenario.prefix); Mkdir Scenario.db_dir]
  /\ (fs Scenario.remote_only !! Scenario.db_dir = None -> fs r.2 <> fs Scenario.remote_only).
Proof.
  apply (dry_run_download_makes_directory Scenario.quiet Scenario.bucket Scenario.prefix
           Scenario.db_dir false Scenario.remote_only).
  - discriminate.
  - reflexivity.
  - assert (Heq : listing Scenario.prefix Scenario.remote_only
                  = [("clamav/databases/daily.cvd", 400); ("clamav/databases/main.cvd", 500)])
      by (vm_compute; reflexivity).
    rewrite Heq. discriminate.
  - vm_compute; reflexivity.
Defined.

Section LocalFiles.

Lemma elem_of_glob f dir suffix p :
  p ∈ S3Sync.glob f dir suffix <->
  is_Some (f !! p) /\ S3Sync.is_child dir p = true
  /\ PyString.endswith suffix (PyPath.name p) = true.
Proof.
  unfold S3Sync.glob. rewrite list_elem_of_In, filter_In, andb_true_iff, in_map_iff. split.
  - intros [([q e] & Heq & Hin) ?]. simpl in Heq. subst q.
    apply list_elem_of_In, elem_of_map_to_list in Hin. split; [by exists e|done].
  - intros ([e He] & ?). split; [|done]. exists (p, e). split; [done|].
    by apply list_elem_of_In, elem_of_map_to_list.
Qed.

End LocalFiles.

(** X16.  [get_local_files] answers the empty list, with a warning, when the
    database directory does not exist.  Otherwise it logs how many files it
    found, and a path is in its answer exactly when it exists and is
    either an entry of the database directory whose name ends with one of
    the nine suffixes, or one of [state.json] and [config.json] beside the
    database directory. *)
Theorem get_local_files_lists_database_files db_dir w :
  (fs w !! db_dir = None ->
   S3Sync.get_local_files db_dir w = (Ok [], add_log [(WARNING, MsgDirMissing db_dir)] w))
  /\ (is_Some (fs w !! db_dir) ->
      exists files,
        S3Sync.get_local_files db_dir w = (Ok files, add_log [(INFO, MsgFound (length files))] w)
        /\ forall p, p ∈ files <->
             is_Some (fs w !! p)
             /\ ((S3Sync.is_child db_dir p = true
                  /\ exists suffix, suffix ∈ S3Sync.patterns
                                    /\ PyString.endswith suffix (PyPath.name p) = true)
                 \/ p = PyPath.join (PyPath.parent db_dir) "state.json"
                 \/ p = PyPath.join (PyPath.parent db_dir) "config.json")).
Proof.
  split; [apply get_local_files_missing|].
  intros [e He]. unfold S3Sync.get_local_files, bind, get, ret, logger, modify.
  cbv beta iota. rewrite He. cbv beta iota zeta.
  eexists. split; [reflexivity|]. intros p.
  rewrite elem_of_app. split.
  - intros [Hin|Hin].
    + apply list_elem_of_In, in_concat in Hin as (l & Hl & Hp).
      apply in_map_iff in Hl as (suffix & <- & Hs).
      apply list_elem_of_In, elem_of_glob in Hp as (Hex & Hc & Hend).
      split; [done|]. left. split; [done|]. exists suffix. split; [|done].
      by apply list_elem_of_In.
    + apply list_elem_of_In, filter_In in Hin as [Hin Hex].
      apply bool_decide_eq_true in Hex. split; [done|]. right.
      apply list_elem_of_In in Hin.
      apply elem_of_cons in Hin as [->|Hin]; [by left|].
      apply elem_of_cons in Hin as [->|Hin]; [by right|]. by apply elem_of_nil in Hin.
  - intros [Hex [(Hc & suffix & Hs & Hend)|Hstate]].
    + left. apply list_elem_of_In, in_concat. exists (S3Sync.glob (fs w) db_dir suffix).
      split; [apply in_map; by apply list_elem_of_In|].
      apply list_elem_of_In, elem_of_glob. done.
    + right. apply list_elem_of_In, filter_In. split.
      * destruct Hstate as [->| ->]; [by left|right; by left].
      * by apply bool_decide_eq_true.
Qed.

(** ** Keys and local files *)

Section KeyFacts.

Ltac str := rewrite ?append_cons, ?append_nil_l in *; simpl in *.

Lemma replace_dslash_cons2 c c' r :
  PyString.replace_dslash (String c (String c' r)) =
  if PyString.is_slash c && PyString.is_slash c'
  then String "/"%char (PyString.replace_dslash r)
  else String c (PyString.replace_dslash (String c' r)).
Proof. reflexivity. Qed.

Lemma no_dslash_cons2 c c' r :
  PyString.no_dslash (String c (String c' r)) =
  negb (PyString.is_slash c && PyString.is_slash c') && PyString.no_dslash (String c' r).
Proof. reflexivity. Qed.

Lemma replace_dslash_fixed s : PyString.no_dslash s = true -> PyString.replace_dslash s = s.
Proof.
  induction s as [|c r IH]; [done|]. destruct r as [|c' r']; [done|].
  rewrite no_dslash_cons2, replace_dslash_cons2. intros [Hc Hr]%andb_true_iff.
  apply negb_true_iff in Hc. rewrite Hc. by rewrite IH.
Qed.

Lemma no_dslash_append p : forall q,
  PyString.no_dslash p = true -> PyString.no_dslash q = true -> starts_clear q ->
  PyString.no_dslash (p ++ q)%string = true.
Proof.
  induction p as [|c r IH]; intros q Hp Hq Hs; [done|].
  destruct r as [|c' r'].
  - rewrite append_cons, append_nil_l. destruct q as [|x q']; [done|].
    rewrite no_dslash_cons2, Hq. simpl in Hs. rewrite Hs. by rewrite andb_false_r.
  - rewrite no_dslash_cons2 in Hp. apply andb_true_iff in Hp as [Hc Hr].
    rewrite !append_cons, no_dslash_cons2, Hc. rewrite <- append_cons. by rewrite IH.
Qed.

Lemma no_slash_no_dslash s : PyString.no_slash s = true -> PyString.no_dslash s = true.
Proof.
  induction s as [|c r IH]; [done|]. simpl. intros [Hc Hr]%andb_true_iff.
  destruct r as [|c' r']; [done|]. apply negb_true_iff in Hc. rewrite Hc. simpl. by apply IH.
Qed.

Lemma no_slash_starts_clear s : PyString.no_slash s = true -> starts_clear s.
Proof. destruct s as [|c r]; [done|]. simpl. by intros [?%negb_true_iff _]%andb_true_iff. Qed.

Lemma lstrip_slash_fixed s : starts_clear s -> PyString.lstrip_slash s = s.
Proof. destruct s as [|c r]; [done|]. simpl. by intros ->. Qed.

Lemma prefix_spec p : forall s, String.prefix p s = true -> exists r, s = (p ++ r)%string.
Proof.
  induction p as [|c p IH]; intros s Hs; [by exists s|].
  destruct s as [|x s]; [done|]. simpl in Hs.
  destruct (ascii_dec c x) as [->|]; [|done].
  destruct (IH s Hs) as [r ->]. by exists r.
Qed.

Lemma no_slash_append p q :
  PyString.no_slash (p ++ q)%string = PyString.no_slash p && PyString.no_slash q.
Proof. induction p as [|c r IH]; [done|]. rewrite append_cons. simpl. by rewrite IH, andb_assoc. Qed.

Lemma no_slash_not_metadata s :
  PyString.no_slash s = true -> PyString.startswith "metadata/" s = false.
Proof.
  intros Hs. apply not_true_is_false. intros [r ->]%prefix_spec.
  rewrite no_slash_append in Hs. apply andb_true_iff in Hs as [Hs _].
  vm_compute in Hs. discriminate.
Qed.

Lemma no_slash_not_absolute s :
  starts_clear s -> PyString.startswith "/" s = false.
Proof.
  intros Hc. apply not_true_is_false. intros [r ->]%prefix_spec.
  rewrite append_cons in Hc. vm_compute in Hc. discriminate.
Qed.

Lemma split_slash_one s : PyString.no_slash s = true -> PyString.split_slash s = [s].
Proof.
  induction s as [|c r IH]; [done|]. simpl. intros [Hc Hr]%andb_true_iff.
  apply negb_true_iff in Hc. rewrite Hc. by rewrite IH.
Qed.

(** A plain file name makes one component. *)
Lemma join_name (dir : Path) name :
  PyString.no_slash name = true -> name <> EmptyString -> name <> "." ->
  PyPath.join dir name = (dir ++ [name])%list.
Proof.
  intros Hs He Hd. unfold PyPath.join.
  rewrite no_slash_not_absolute by by apply no_slash_starts_clear.
  unfold PyPath.components. rewrite split_slash_one by done. simpl.
  apply String.eqb_neq in He, Hd. by rewrite He, Hd.
Qed.

Lemma no_slash_not_root name : PyString.no_slash name = true -> PyPath.is_root name = false.
Proof.
  intros Hs. unfold PyPath.is_root. apply orb_false_iff.
  split; apply String.eqb_neq; intros ->; done.
Qed.

Lemma name_snoc (dir : Path) name :
  PyPath.is_root name = false -> PyPath.name (dir ++ [name]) = name.
Proof.
  intros Hr. unfold PyPath.name. destruct dir as [|c [|c' r]].
  - simpl. by rewrite Hr.
  - reflexivity.
  - change ((c :: c' :: r) ++ [name]) with (c :: c' :: (r ++ [name])). cbv beta iota.
    change (c :: c' :: (r ++ [name])) with ((c :: c' :: r) ++ [name]).
    apply List.last_last.
Qed.

Lemma parent_snoc (dir : Path) name :
  PyPath.is_root name = false -> PyPath.parent (dir ++ [name]) = dir.
Proof.
  intros Hr. unfold PyPath.parent. destruct dir as [|c [|c' r]].
  - simpl. by rewrite Hr.
  - reflexivity.
  - change ((c :: c' :: r) ++ [name]) with (c :: c' :: (r ++ [name])). cbv beta iota.
    change (c :: c' :: (r ++ [name])) with ((c :: c' :: r) ++ [name]).
    apply List.removelast_last.
Qed.

End KeyFacts.

Section KeyFacts2.

Lemma prefix_append p r : String.prefix p (p ++ r)%string = true.
Proof.
  induction p as [|c p IH]; [by destruct r|]. rewrite append_cons. simpl.
  by destruct (ascii_dec c c).
Qed.

Lemma s3_key_plain prefix (dir : Path) name :
  PyString.no_dslash prefix = true ->
  PyString.no_slash name = true ->
  PyPath.name dir <> ".cvdupdate" ->
  S3Sync.s3_key_of prefix (dir ++ [name]) = (prefix ++ name)%string.
Proof.
  intros Hp Hn Hd. unfold S3Sync.s3_key_of.
  rewrite parent_snoc, name_snoc by by apply no_slash_not_root.
  apply String.eqb_neq in Hd. rewrite Hd.
  apply replace_dslash_fixed, no_dslash_append;
    auto using no_slash_no_dslash, no_slash_starts_clear.
Qed.

Lemma s3_key_metadata prefix (dir : Path) name :
  PyString.no_dslash prefix = true ->
  PyString.no_slash name = true ->
  PyPath.name dir = ".cvdupdate" ->
  S3Sync.s3_key_of prefix (dir ++ [name]) = (prefix ++ ("metadata/" ++ name))%string.
Proof.
  intros Hp Hn Hd. unfold S3Sync.s3_key_of.
  rewrite parent_snoc, name_snoc by by apply no_slash_not_root.
  rewrite Hd. change (".cvdupdate" =? ".cvdupdate")%string with true. cbv iota.
  apply replace_dslash_fixed, no_dslash_append; [done| |done].
  apply no_dslash_append; [done|by apply no_slash_no_dslash|by apply no_slash_starts_clear].
Qed.

Lemma local_file_plain prefix (db_dir : Path) name :
  PyString.no_slash name = true -> name <> EmptyString -> name <> "." ->
  S3Sync.local_file_of prefix db_dir (prefix ++ name)%string = (name, (db_dir ++ [name])%list).
Proof.
  intros Hn He Hd. unfold S3Sync.local_file_of.
  rewrite drop_append, lstrip_slash_fixed by by apply no_slash_starts_clear.
  by rewrite no_slash_not_metadata, join_name.
Qed.

Lemma local_file_metadata prefix (db_dir : Path) name :
  PyString.no_slash name = true -> name <> EmptyString -> name <> "." ->
  S3Sync.local_file_of prefix db_dir (prefix ++ ("metadata/" ++ name))%string
  = (("metadata/" ++ name)%string, (PyPath.parent db_dir ++ [name])%list).
Proof.
  intros Hn He Hd. unfold S3Sync.local_file_of.
  rewrite drop_append, lstrip_slash_fixed by done.
  unfold PyString.startswith. rewrite prefix_append.
  change 9%nat with (String.length "metadata/"). by rewrite drop_append, join_name.
Qed.

End KeyFacts2.

(** X17.  In the layout [cvdupdate] makes (a database directory, not itself
    named [.cvdupdate], inside a directory [.cvdupdate]) and for a prefix
    without ['//'], the key of a database file is the prefix followed by
    its name, the key of a file beside the database directory is the
    prefix followed by ['metadata/'] and its name, and the local file
    [download_from_s3] computes for either key is the file the key was
    computed from. *)
Theorem keys_lead_back_to_the_files prefix (db_dir : Path) name :
  let database_file := (db_dir ++ [name])%list in
  let metadata_file := (PyPath.parent db_dir ++ [name])%list in
  PyString.no_dslash prefix = true ->
  PyString.no_slash name = true -> name <> EmptyString -> name <> "." ->
  PyPath.name db_dir <> ".cvdupdate" ->
  PyPath.name (PyPath.parent db_dir) = ".cvdupdate" ->
  S3Sync.s3_key_of prefix database_file = (prefix ++ name)%string
  /\ (S3Sync.local_file_of prefix db_dir (S3Sync.s3_key_of prefix database_file)).2
     = database_file
  /\ S3Sync.s3_key_of prefix metadata_file = (prefix ++ ("metadata/" ++ name))%string
  /\ (S3Sync.local_file_of prefix db_dir (S3Sync.s3_key_of prefix metadata_file)).2
     = metadata_file.
Proof.
  cbv zeta. intros Hp Hn He Hd Hdb Hparent.
  rewrite s3_key_plain, s3_key_metadata by done.
  by rewrite local_file_plain, local_file_metadata.
Qed.

(** The theorem above for [daily.cvd] in the default directory. *)
Lemma keys_lead_back_to_the_files_witness :
  let database_file := (Scenario.db_dir ++ ["daily.cvd"])%list in
  let metadata_file := (PyPath.parent Scenario.db_dir ++ ["daily.cvd"])%list in
  S3Sync.s3_key_of Scenario.prefix database_file = (Scenario.prefix ++ "daily.cvd")%string
  /\ (S3Sync.local_file_of Scenario.prefix Scenario.db_dir
        (S3Sync.s3_key_of Scenario.prefix database_file)).2 = database_file
  /\ S3Sync.s3_key_of Scenario.prefix metadata_file
     = (Scenario.prefix ++ ("metadata/" ++ "daily.cvd"))%string
  /\ (S3Sync.local_file_of Scenario.prefix Scenario.db_dir
        (S3Sync.s3_key_of Scenario.prefix metadata_file)).2 = metadata_file.
Proof.
  apply (keys_lead_back_to_the_files Scenario.prefix Scenario.db_dir "daily.cvd").
  - reflexivity.
  - reflexivity.
  - discriminate.
  - discriminate.
  - vm_compute; discriminate.
  - reflexivity.
Defined.

(** X18.  The ['metadata/'] keys depend on the name of the directory: when the
    database directory lies in a directory not named [.cvdupdate], a file
    beside the database directory gets the key of a database file (prefix
    followed by its name), and [download_from_s3] maps that key to a file
    inside the database directory, not to the file it came from. *)
Theorem state_files_move_in_a_custom_layout prefix (db_dir : Path) name :
  let state_file := (PyPath.parent db_dir ++ [name])%list in
  PyString.no_dslash prefix = true ->
  PyString.no_slash name = true -> name <> EmptyString -> name <> "." ->
  PyPath.name (PyPath.parent db_dir) <> ".cvdupdate" ->
  PyPath.parent db_dir <> db_dir ->
  S3Sync.s3_key_of prefix state_file = (prefix ++ name)%string
  /\ (S3Sync.local_file_of prefix db_dir (S3Sync.s3_key_of prefix state_file)).2
     = (db_dir ++ [name])%list
  /\ (S3Sync.local_file_of prefix db_dir (S3Sync.s3_key_of prefix state_file)).2
     <> state_file.
Proof.
  cbv zeta. intros Hp Hn He Hd Hparent Hne.
  rewrite s3_key_plain by done. rewrite local_file_plain by done. simpl.
  repeat split. intros Heq. apply app_inj_tail in Heq as [Heq _]. by apply Hne.
Qed.

(** The theorem above for [state.json] beside the database directory
    [/var/lib/clamav]. *)
Lemma state_files_move_in_a_custom_layout_witness :
  let db_dir := ["/"; "var"; "lib"; "clamav"] in
  let state_file := (PyPath.parent db_dir ++ ["state.json"])%list in
  S3Sync.s3_key_of Scenario.prefix state_file = (Scenario.prefix ++ "state.json")%string
  /\ (S3Sync.local_file_of Scenario.prefix db_dir
        (S3Sync.s3_key_of Scenario.prefix state_file)).2 = (db_dir ++ ["state.json"])%list
  /\ (S3Sync.local_file_of Scenario.prefix db_dir
        (S3Sync.s3_key_of Scenario.prefix state_file)).2 <> state_file.
Proof.
  apply (state_files_move_in_a_custom_layout Scenario.prefix
           ["/"; "var"; "lib"; "clamav"] "state.json").
  - reflexivity.
  - reflexivity.
  - discriminate.
  - discriminate.
  - vm_compute; discriminate.
  - vm_compute; discriminate.
Defined.

(** ** More on the download *)

Section ListingFacts.

Lemma listing_nil prefix w :
  listing prefix w = [] -> contents_of (objects w) (Some prefix) 1000 = None.
Proof.
  unfold listing, contents_of.
  destruct (take 1000 _) as [|x l]; [done|]. simpl. discriminate.
Qed.

Lemma main_download env args w cfg bucket prefix :
  configured env w cfg bucket ->
  cfg !! "prefix" = Some (PyStr prefix) ->
  S3Sync.test_connection args = false ->
  S3Sync.download args = true ->
  S3Sync.upload args = false ->
  S3Sync.main env args w =
  match S3Sync.get_database_directory env w with
  | (Ok db_dir, w1) =>
      match S3Sync.download_from_s3 env bucket prefix db_dir
              (S3Sync.force args) (S3Sync.dry_run args)
              (add_log [(INFO, MsgStartDownload)] w1) with
      | (Ok success, w3) => (Ok (if success then 0 else 1), w3)
      | (Raise e, w3) => (Raise e, w3)
      end
  | (Raise e, w1) => (Raise e, w1)
  end.
Proof.
  intros (Hload & Hb & Ht & (v & Hs & Hv) & [r Hr] & Hc) Hp Htest Hdown Hup.
  unfold S3Sync.main, bind at 1. rewrite Hload.
  unfold S3Sync.getitem. rewrite Hb. unfold bind at 1, ret at 1. simpl. rewrite Ht. simpl.
  rewrite Hs. unfold bind at 1, ret at 1. rewrite Hv. simpl.
  rewrite Hr, Hc, Htest, Hp, Hup, Hdown. simpl. rewrite ?bool_decide_eq_false_2 by done. simpl.
  unfold bind at 1.
  destruct (S3Sync.get_database_directory env w) as [[db|e] w1]; [|reflexivity].
  unfold bind at 1. unfold logger at 1, modify. unfold bind, ret. simpl.
  by destruct (S3Sync.download_from_s3 _ _ _ _ _ _ _) as [[[]|e] w3].
Qed.

End ListingFacts.

(** X19.  When [list_objects_v2] fails or lists nothing under the prefix,
    [download_from_s3] makes that one call and leaves the file system as
    it is (the database directory is not made); it answers [False] in the
    first case and [True], after a warning, in the second. *)
Theorem download_without_listing_touches_nothing
    env bucket prefix db_dir force dry_run w :
  let r := S3Sync.download_from_s3 env bucket prefix db_dir force dry_run w in
  list_objects_error env (Some prefix) <> None \/ listing prefix w = [] ->
  fs r.2 = fs w
  /\ run_calls (S3Sync.download_from_s3 env bucket prefix db_dir force dry_run) w
     = [ListObjectsV2 bucket (Some prefix)]
  /\ (list_objects_error env (Some prefix) <> None -> r.1 = Ok false)
  /\ (list_objects_error env (Some prefix) = None ->
      r.1 = Ok true /\ log r.2 = log w ++ [(WARNING, MsgNoRemoteFiles bucket prefix)]).
Proof.
  cbv zeta. intros Hcase. unfold run_calls. rewrite download_from_s3_eq. cbv zeta.
  destruct (list_objects_error env (Some prefix)) as [code|] eqn:Hl; simpl.
  - rewrite drop_own_length. by repeat split.
  - destruct Hcase as [?|Hnil]; [done|]. rewrite (listing_nil _ _ Hnil). simpl.
    rewrite drop_own_length. by repeat split.
Qed.

(** The theorem above for a client whose listing is refused. *)
Lemma download_without_listing_touches_nothing_witness :
  let r := S3Sync.download_from_s3 Scenario.refused Scenario.bucket Scenario.prefix
             Scenario.db_dir false false Scenario.remote_only in
  fs r.2 = fs Scenario.remote_only
  /\ run_calls (S3Sync.download_from_s3 Scenario.refused Scenario.bucket Scenario.prefix
                  Scenario.db_dir false false) Scenario.remote_only
     = [ListObjectsV2 Scenario.bucket (Some Scenario.prefix)]
  /\ (list_objects_error Scenario.refused (Some Scenario.prefix) <> None -> r.1 = Ok false)
  /\ (list_objects_error Scenario.refused (Some Scenario.prefix) = None ->
      r.1 = Ok true
      /\ log r.2 = log Scenario.remote_only
                   ++ [(WARNING, MsgNoRemoteFiles Scenario.bucket Scenario.prefix)]).
Proof.
  apply (download_without_listing_touches_nothing Scenario.refused Scenario.bucket
           Scenario.prefix Scenario.db_dir false false Scenario.remote_only).
  left. discriminate.
Defined.

(** X20.  [main --download], once past its configuration checks, exits with
    status 0 exactly when [download_from_s3] answers [True] and with 1
    exactly when it answers [False]; in that case the last record is the
    client error.  The world it leaves is the one [download_from_s3]
    leaves, and the objects of the bucket are unchanged. *)
Theorem download_mode_exit_status env args w cfg bucket prefix db_dir :
  let r := S3Sync.main env args w in
  let d := S3Sync.download_from_s3 env bucket prefix db_dir
             (S3Sync.force args) (S3Sync.dry_run args)
             (add_log [(INFO, MsgStartDownload)] w) in
  configured env w cfg bucket ->
  cfg !! "prefix" = Some (PyStr prefix) ->
  S3Sync.test_connection args = false ->
  S3Sync.download args = true ->
  S3Sync.upload args = false ->
  (S3Sync.get_database_directory env w).1 = Ok db_dir ->
  (r.1 = Ok 0 <-> d.1 = Ok true)
  /\ (r.1 = Ok 1 <-> d.1 = Ok false)
  /\ (r.1 = Ok 1 ->
      exists code, last (log r.2) = Some (ERROR, MsgDownloadFailed (ClientError code)))
  /\ r.2 = d.2
  /\ objects r.2 = objects w.
Proof.
  cbv zeta. intros Hconf Hp Htest Hdown Hup Hdb.
  rewrite (main_download env args w cfg bucket prefix) by done.
  pose proof (get_database_directory_world env w) as Hw.
  destruct (S3Sync.get_database_directory env w) as [res w1]. simpl in *. subst res w1.
  pose proof (download_from_s3_outcome env bucket prefix db_dir
                (S3Sync.force args) (S3Sync.dry_run args)
                (add_log [(INFO, MsgStartDownload)] w)) as Hlog.
  pose proof (download_from_s3_objects env bucket prefix db_dir
                (S3Sync.force args) (S3Sync.dry_run args)
                (add_log [(INFO, MsgStartDownload)] w)) as Hobj.
  cbv zeta in Hlog.
  destruct (S3Sync.download_from_s3 _ _ _ _ _ _ _) as [[[]|e] w3]; simpl in *.
  - repeat split; try done.
  - repeat split; try done.
  - repeat split; try done.
Qed.

(** The theorem above for [s3_sync.py --download] with [S3_BUCKET_NAME=mirror]
    and an empty mirror. *)
Lemma download_mode_exit_status_witness :
  let args := S3Sync.mkArgs false false true false false false in
  let r := S3Sync.main Scenario.with_bucket args Scenario.fresh in
  let d := S3Sync.download_from_s3 Scenario.with_bucket Scenario.bucket Scenario.prefix
             Scenario.db_dir (S3Sync.force args) (S3Sync.dry_run args)
             (add_log [(INFO, MsgStartDownload)] Scenario.fresh) in
  (r.1 = Ok 0 <-> d.1 = Ok true)
  /\ (r.1 = Ok 1 <-> d.1 = Ok false)
  /\ (r.1 = Ok 1 ->
      exists code, last (log r.2) = Some (ERROR, MsgDownloadFailed (ClientError code)))
  /\ r.2 = d.2
  /\ objects r.2 = objects Scenario.fresh.
Proof.
  apply (download_mode_exit_status Scenario.with_bucket
           (S3Sync.mkArgs false false true false false false) Scenario.fresh
           Scenario.bucket_config Scenario.bucket Scenario.prefix Scenario.db_dir).
  - configured_by_computation.
  - vm_compute; reflexivity.
  - reflexivity.
  - reflexivity.
  - reflexivity.
  - vm_compute; reflexivity.
Defined.

Section DownloadKeeps.

Variable env : Env.
Variables bucket prefix : string.
Variable db_dir : Path.

Lemma mkdir_keeps dir w p e :
  fs w !! p = Some e -> fs (mkdir env dir w).2 !! p = Some e.
Proof.
  intros Hp. rewrite mkdir_eq. cbv zeta.
  destruct (mkdir_denied env dir); [done|].
  destruct (make_dirs _ _ _) as [f'|] eqn:Hm; [|done]. simpl. by eapply make_dirs_keeps.
Qed.

Lemma fetch_keeps key file w p e :
  fs w !! p = Some e -> p <> file -> fs (fetch env bucket key file w).2 !! p = Some e.
Proof.
  intros Hp Hne. unfold fetch, bind.
  pose proof (mkdir_keeps (PyPath.parent file) w p e Hp) as Hk.
  destruct (mkdir env _ w) as [[[]|err] w1]; simpl in Hk; [|done].
  rewrite download_file_eq. cbv zeta.
  destruct (download_file_error env key); [done|].
  destruct (objects w1 !! key); [|done].
  destruct (fs w1 !! file) as [[]|]; simpl; try done; by rewrite lookup_insert_ne.
Qed.

Lemma fetch_file_stays key file w p t c :
  fs w !! p = Some (File t c) ->
  exists t' c', fs (fetch env bucket key file w).2 !! p = Some (File t' c').
Proof.
  intros Hp. destruct (decide (p = file)) as [->|Hne];
    [|exists t, c; by apply fetch_keeps].
  unfold fetch, bind.
  pose proof (mkdir_keeps (PyPath.parent file) w file _ Hp) as Hk.
  destruct (mkdir env _ w) as [[[]|err] w1]; simpl in Hk; [|by eexists _, _].
  rewrite download_file_eq. cbv zeta.
  destruct (download_file_error env key); [by eexists _, _|].
  destruct (objects w1 !! key); [|by eexists _, _].
  rewrite Hk. simpl. rewrite lookup_insert_eq. by eexists _, _.
Qed.

Lemma fetch_fetched key file w w' :
  fetch env bucket key file w = (Ok tt, w') ->
  exists t c, fs w' !! file = Some (File t c).
Proof.
  unfold fetch, bind.
  destruct (mkdir env _ w) as [[[]|err] w1]; [|done].
  rewrite download_file_eq. cbv zeta.
  destruct (download_file_error env key); [done|].
  destruct (objects w1 !! key); [|done].
  destruct (fs w1 !! file) as [[]|]; intros ?; simplify_eq; simpl;
    rewrite lookup_insert_eq; by eexists _, _.
Qed.



(** A forced real turn that ends well has put the object's file in place,
    and files stay files. *)
Lemma download_one_file_stays force dry_run c obj w p t c0 :
  fs w !! p = Some (File t c0) ->
  exists t' c', fs (S3Sync.download_one env bucket prefix db_dir force dry_run c obj w).2 !! p
                = Some (File t' c').
Proof.
  intros Hp. rewrite download_one_eq. cbv zeta.
  destruct (download_verdict prefix db_dir force obj w); try by eexists _, _.
  destruct dry_run; [by eexists _, _|].
  match goal with |- context [fetch env bucket ?k ?f ?w0] =>
    destruct (fetch_file_stays k f w0 p t c0 Hp) as (t' & c' & Hk);
    destruct (fetch env bucket k f w0) as [[[]|err] w1] end; by eexists _, _.
Qed.

Lemma download_loop_file_stays force dry_run contents p : forall c w t c0,
  fs w !! p = Some (File t c0) ->
  exists t' c', fs (S3Sync.download_loop env bucket prefix db_dir force dry_run contents c w).2
                !! p = Some (File t' c').
Proof.
  induction contents as [|obj rest IH]; intros c w t c0 Hp; [by eexists _, _|].
  rewrite download_loop_cons.
  destruct (download_one_file_stays force dry_run c obj w p t c0 Hp) as (t' & c' & Hk).
  destruct (S3Sync.download_one _ _ _ _ _ _ _ _ _) as [[c1|err] w1]; simpl in Hk;
    [|by eexists _, _].
  by eapply IH.
Qed.

Lemma forced_download_loop contents : forall c w c' w',
  S3Sync.download_loop env bucket prefix db_dir true false contents c w = (Ok c', w') ->
  c' = (c + length contents)%nat
  /\ forall obj, obj ∈ contents ->
       exists t c0, fs w' !! local_path prefix db_dir obj = Some (File t c0).
Proof.
  induction contents as [|obj rest IH]; intros c w c' w' Hrun.
  - simpl in Hrun. injection Hrun as <- <-. split; [simpl; lia|].
    intros obj Hin. by apply elem_of_nil in Hin.
  - rewrite download_loop_cons, download_one_eq in Hrun. cbv zeta in Hrun.
    unfold download_verdict in Hrun. simpl in Hrun.
    destruct (fetch env bucket _ _ _) as [[[]|err] w1] eqn:Hf; [|done].
    apply fetch_fetched in Hf as (t & c0 & Hfile).
    pose proof (download_loop_file_stays true false rest (local_path prefix db_dir obj)
                  (S c) w1 t c0 Hfile) as Hstay.
    rewrite Hrun in Hstay. simpl in Hstay.
    apply IH in Hrun as [-> Hall]. split; [simpl; lia|].
    intros obj' [->|Hin]%elem_of_cons; [done|by apply Hall].
Qed.

End DownloadKeeps.



(** X22.  A forced real download that answers [True] has put a regular file
    at the local path of every listed object, and its summary counts all
    of them. *)
Theorem forced_download_fetches_everything env bucket prefix db_dir w :
  let r := S3Sync.download_from_s3 env bucket prefix db_dir true false w in
  r.1 = Ok true ->
  (forall obj, obj ∈ listing prefix w ->
     exists t c, fs r.2 !! local_path prefix db_dir obj = Some (File t c))
  /\ (listing prefix w <> [] ->
      last (log r.2) = Some (download_summary false (length (listing prefix w))
                               (length (listing prefix w)))).
Proof.
  cbv zeta. rewrite download_from_s3_eq. cbv zeta.
  destruct (list_objects_error env (Some prefix)); [done|].
  unfold listing.
  destruct (contents_of _ _ _) as [contents|]; simpl.
  2:{ intros _. split; [|done]. intros obj Hin. by apply elem_of_nil in Hin. }
  destruct (mkdir env db_dir _) as [[[]|err] w2]; [|done].
  destruct (S3Sync.download_loop _ _ _ _ _ _ _ _ _) as [[c|[]] w3] eqn:Hloop; try done.
  apply forced_download_loop in Hloop as [-> Hall]. simpl. intros _.
  split; [done|]. intros _. by rewrite last_snoc.
Qed.

(** The theorem above for a bucket ahead of an empty mirror. *)
Lemma forced_download_fetches_everything_witness :
  let r := S3Sync.download_from_s3 Scenario.quiet Scenario.bucket Scenario.prefix
             Scenario.db_dir true false Scenario.fresh in
  (forall obj, obj ∈ listing Scenario.prefix Scenario.fresh ->
     exists t c, fs r.2 !! local_path Scenario.prefix Scenario.db_dir obj = Some (File t c))
  /\ (listing Scenario.prefix Scenario.fresh <> [] ->
      last (log r.2) = Some (download_summary false (length (listing Scenario.prefix Scenario.fresh))
                               (length (listing Scenario.prefix Scenario.fresh)))).
Proof.
  apply (forced_download_fetches_everything Scenario.quiet Scenario.bucket Scenario.prefix
           Scenario.db_dir Scenario.fresh).
  vm_compute; reflexivity.
Defined.

(** ** More on the upload *)

Section UploadKeeps.

Variable env : Env.
Variables bucket prefix : string.

Lemma upload_one_keeps dry_run c f w k ts :
  objects w !! k = Some ts ->
  head_object_error env k = None ->
  (forall e, S3Sync.s3_key_of prefix f = k -> fs w !! f = Some e -> st_mtime e <= ts) ->
  objects (S3Sync.upload_one env bucket prefix false dry_run c f w).2 !! k = Some ts.
Proof.
  intros Ho Hh Hnew.
  destruct (decide (k = S3Sync.s3_key_of prefix f)) as [->|Hne];
    [|by rewrite upload_one_objects_other].
  rewrite upload_one_objects_unselected; [done|].
  unfold upload_verdict. rewrite Hh, Ho.
  destruct (fs w !! f) as [e|] eqn:Hf; [|done].
  rewrite bool_decide_eq_false_2; [done|]. specialize (Hnew e eq_refl eq_refl). lia.
Qed.

Lemma upload_loop_keeps dry_run files k ts : forall c w,
  objects w !! k = Some ts ->
  head_object_error env k = None ->
  (forall f e, f ∈ files -> S3Sync.s3_key_of prefix f = k -> fs w !! f = Some e ->
     st_mtime e <= ts) ->
  objects (S3Sync.upload_loop env bucket prefix false dry_run files c w).2 !! k = Some ts.
Proof.
  induction files as [|f rest IH]; intros c w Ho Hh Hnew; [done|].
  rewrite upload_loop_cons.
  pose proof (upload_one_keeps dry_run c f w k ts Ho Hh
                (fun e => Hnew f e ltac:(by left))) as Hk.
  pose proof (upload_one_fs env bucket prefix false dry_run c f w) as Hfs.
  destruct (S3Sync.upload_one _ _ _ _ _ _ _ _) as [[c1|err] w1]; simpl in *; [|done].
  apply IH; [done..|]. intros g e Hin. rewrite Hfs. apply Hnew. by right.
Qed.

End UploadKeeps.

(** X23.  An unforced upload never overwrites what is at least as new: an
    object of the bucket (for whose key [head_object] answers) is
    unchanged after [upload_to_s3] (whether the run ends well or not) when
    every candidate with that key which exists locally has a modification
    time not after the object's. *)
Theorem unforced_upload_keeps_newer_objects env bucket prefix files dry_run w k ts :
  let r := S3Sync.upload_to_s3 env bucket prefix files false dry_run w in
  objects w !! k = Some ts ->
  head_object_error env k = None ->
  (forall f e, f ∈ files -> S3Sync.s3_key_of prefix f = k -> fs w !! f = Some e ->
     st_mtime e <= ts) ->
  objects r.2 !! k = Some ts.
Proof.
  cbv zeta. intros Ho Hh Hnew. destruct files as [|f rest]; [done|].
  unfold S3Sync.upload_to_s3. unfold bind at 1.
  pose proof (upload_loop_keeps env bucket prefix dry_run (f :: rest) k ts 0%nat w Ho Hh Hnew)
    as Hk.
  destruct (S3Sync.upload_loop _ _ _ _ _ _ _ _) as [[c|err] w1]; simpl in *; [|done].
  by destruct dry_run.
Qed.

(** The theorem above for [main.cvd] of the mirror scenario, newer in the
    bucket. *)
Lemma unforced_upload_keeps_newer_objects_witness :
  let r := S3Sync.upload_to_s3 Scenario.quiet Scenario.bucket Scenario.prefix
             Scenario.candidates false false Scenario.mirror in
  objects r.2 !! "clamav/databases/main.cvd" = Some 500.
Proof.
  apply (unforced_upload_keeps_newer_objects Scenario.quiet Scenario.bucket Scenario.prefix
           Scenario.candidates false Scenario.mirror "clamav/databases/main.cvd" 500).
  - vm_compute; reflexivity.
  - reflexivity.
  - intros f e Hin Hkey Hf.
    apply elem_of_cons in Hin as [->|Hin]; [exfalso|].
    { assert (Hk : S3Sync.s3_key_of Scenario.prefix (Scenario.db_file "daily.cvd")
                   = "clamav/databases/daily.cvd") by (vm_compute; reflexivity).
      rewrite Hk in Hkey. discriminate Hkey. }
    apply elem_of_cons in Hin as [->|Hin].
    { assert (He : fs Scenario.mirror !! Scenario.db_file "main.cvd" = Some (File 200 Blob))
        by (vm_compute; reflexivity).
      rewrite He in Hf. injection Hf as <-. simpl. lia. }
    apply elem_of_cons in Hin as [->|Hin]; [exfalso|exfalso; apply elem_of_nil in Hin; exact Hin].
    assert (Hk : S3Sync.s3_key_of Scenario.prefix (Scenario.db_file "bytecode.cvd")
                 = "clamav/databases/bytecode.cvd") by (vm_compute; reflexivity).
    rewrite Hk in Hkey. discriminate Hkey.
Defined.

(** ** [update_databases.py]: handing the sync over to [s3_sync.py] *)

Section HandOver.

Variable env : Env.

(** The child reads its bucket and region from the two variables and
    nothing from [s3_config.json]. *)
Lemma child_config b r w :
  b <> EmptyString ->
  S3Sync.load_s3_config (UpdateDatabases.child_env env b r) w =
  (Ok (list_to_map [("bucket", PyStr b);
                    ("region", PyStr (if PyString.truthy r then r else "us-east-1"));
                    ("prefix", PyStr "clamav/databases/");
                    ("sync_enabled", PyBool true)]), w).
Proof.
  intros Hne. unfold S3Sync.load_s3_config, UpdateDatabases.child_env. cbn [environ].
  rewrite lookup_insert_ne by done. rewrite !lookup_insert_eq. cbn [S3Sync.opt_truthy].
  assert (PyString.truthy b = true) as ->
    by (unfold PyString.truthy; by apply negb_true_iff, String.eqb_neq).
  reflexivity.
Qed.

Lemma child_configured b r w :
  b <> EmptyString ->
  client_creation_fails env = false ->
  configured (UpdateDatabases.child_env env b r) w
    (list_to_map [("bucket", PyStr b);
                  ("region", PyStr (if PyString.truthy r then r else "us-east-1"));
                  ("prefix", PyStr "clamav/databases/");
                  ("sync_enabled", PyBool true)]) b.
Proof.
  intros Hne Hc. unfold configured. split; [by apply child_config|].
  split; [by simplify_map_eq|].
  split; [unfold PyString.truthy; by apply negb_true_iff, String.eqb_neq|].
  split; [exists (PyBool true); by simplify_map_eq|].
  split; [eexists; by simplify_map_eq|done].
Qed.

(** From the point where bucket and region are known (lines 88-129). *)
Lemma s3_sync_databases_cli script_dir verbose b s3_region dry_run w :
  b <> EmptyString ->
  UpdateDatabases.s3_sync_databases env script_dir verbose (Some b) s3_region dry_run w =
  let r := S3Sync.or_default s3_region "us-east-1" in
  let script := PyPath.join script_dir "s3_sync.py" in
  let w1 := add_log [(INFO, MsgUsingBucket b); (INFO, MsgStartingSync (PyStr b) (PyStr r))] w in
  if bool_decide (is_Some (fs w !! script)) then
    let out := UpdateDatabases.run_s3_sync (UpdateDatabases.child_env env b r)
                 (S3Sync.mkArgs verbose true false false false dry_run)
                 (add_log [(INFO, MsgRunningSync verbose dry_run)] w1) in
    match out with
    | (Ok (code, stderr), w2) =>
        if bool_decide (code = 0) then (Ok true, add_log [(INFO, MsgSyncCompleted)] w2)
        else (Ok false,
              add_log ((ERROR, MsgSyncFailed code)
                       :: if stderr then [(ERROR, MsgSyncStderr)] else []) w2)
    | (Raise e, w2) => (Raise e, w2)
    end
  else (Ok false, add_log [(ERROR, MsgScriptNotFound script)] w1).
Proof.
  intros Hne. unfold UpdateDatabases.s3_sync_databases.
  assert (Ht : S3Sync.opt_truthy (Some b) = true)
    by (unfold S3Sync.opt_truthy, PyString.truthy; by apply negb_true_iff, String.eqb_neq).
  rewrite Ht. cbv zeta.
  destruct w as [o f cs lg]. unfold exists_, UpdateDatabases.run_s3_sync.
  unfold logger, bind, ret, raise, get, modify, add_log, set_log.
  cbn [fst snd log fs objects calls default from_option id].
  destruct (bool_decide (is_Some (f !! _))); cbn [negb fst snd log fs objects calls];
    [|by rewrite <- !app_assoc].
  rewrite <- !app_assoc. cbn [app].
  destruct (S3Sync.main _ _ _) as [res w2]. cbn [fst snd log fs objects calls].
  destruct (bool_decide (exit_status res = 0)); cbn [fst snd log fs objects calls];
    [by rewrite <- !app_assoc|].
  destruct res as [n|e]; simpl; [|by rewrite <- !app_assoc].
  destruct (negb _); simpl; by rewrite <- !app_assoc.
Qed.

End HandOver.

Section HandOver2.

Variable env : Env.


Lemma exit_status_zero (res : result Z) : exit_status res = 0 <-> res = Ok 0.
Proof. destruct res as [n|e]; simpl; split; intros H; simplify_eq; done. Qed.

End HandOver2.





Section HandOver3.

Lemma get_database_directory_view env env' w w' :
  home env' = home env -> fs w' = fs w ->
  (S3Sync.get_database_directory env' w').1 = (S3Sync.get_database_directory env w).1.
Proof.
  intros Hh Hf. unfold S3Sync.get_database_directory, bind, get, ret, raise. simpl.
  rewrite Hh, Hf. destruct (fs w !! _) as [[t [|d]|t]|]; try reflexivity.
  by destruct (d !! "database_directory") as [[]|].
Qed.

(** The child's run, when it gets to upload. *)
Lemma child_upload env verbose dry_run b r w db_dir files :
  b <> EmptyString ->
  client_creation_fails env = false ->
  (S3Sync.get_database_directory env w).1 = Ok db_dir ->
  (S3Sync.get_local_files db_dir w).1 = Ok files ->
  S3Sync.main (UpdateDatabases.child_env env b r)
    (S3Sync.mkArgs verbose true false false false dry_run) (set_log [] w) =
  match S3Sync.upload_to_s3 (UpdateDatabases.child_env env b r) b "clamav/databases/" files
          false dry_run
          (S3Sync.get_local_files db_dir (set_log [(INFO, MsgStartUpload)] w)).2 with
  | (Ok success, w3) => (Ok (if success then 0 else 1), w3)
  | (Raise e, w3) => (Raise e, w3)
  end.
Proof.
  intros Hne Hc Hdb Hfiles.
  rewrite (main_upload _ _ _ _ b "clamav/databases/" (child_configured env b r _ Hne Hc))
    by (try reflexivity; by simplify_map_eq).
  pose proof (get_database_directory_world (UpdateDatabases.child_env env b r)
                (set_log [] w)) as Hw.
  pose proof (get_database_directory_view env (UpdateDatabases.child_env env b r) w
                (set_log [] w) eq_refl eq_refl) as Hv.
  rewrite Hdb in Hv.
  destruct (S3Sync.get_database_directory _ (set_log [] w)) as [res w1].
  simpl in Hw, Hv. subst res w1.
  change (add_log [(INFO, MsgStartUpload)] (set_log [] w))
    with (set_log [(INFO, MsgStartUpload)] w).
  destruct (get_local_files_eq db_dir (set_log [(INFO, MsgStartUpload)] w))
    as (files' & l & Hrun & Hsame).
  rewrite (Hsame w) in Hfiles by done. injection Hfiles as ->.
  rewrite Hrun. reflexivity.
Qed.

End HandOver3.



(** X27.  [s3_sync_databases] reports a failure whenever a candidate is up to
    date: with a bucket on the command line and candidates (distinct
    keys, regular files) one of which has a copy in the bucket at least
    as new, the child's [upload_to_s3] answers [False], the child exits
    with status 1, and [s3_sync_databases] logs the return code 1 and the
    child's error output and answers [False], although no transfer
    failed. *)
Theorem sync_reports_failure_when_a_file_is_up_to_date
    env script_dir verbose bucket_name s3_region dry_run w db_dir files f t d ts :
  let key := S3Sync.s3_key_of "clamav/databases/" f in
  let r := UpdateDatabases.s3_sync_databases env script_dir verbose (Some bucket_name)
             s3_region dry_run w in
  bucket_name <> EmptyString ->
  is_Some (fs w !! PyPath.join script_dir "s3_sync.py") ->
  client_creation_fails env = false ->
  (S3Sync.get_database_directory env w).1 = Ok db_dir ->
  (S3Sync.get_local_files db_dir w).1 = Ok files ->
  NoDup (S3Sync.s3_key_of "clamav/databases/" <$> files) ->
  regular_files files w ->
  f ∈ files ->
  fs w !! f = Some (File t d) ->
  head_object_error env key = None ->
  objects w !! key = Some ts ->
  t <= ts ->
  r.1 = Ok false
  /\ exists l, log r.2 = log w ++ l ++ [(ERROR, MsgSyncFailed 1); (ERROR, MsgSyncStderr)].
Proof.
  cbv zeta. intros Hne Hscript Hc Hdb Hfiles Hnd Hreg Hin Hf Hhead Ho Hle.
  rewrite s3_sync_databases_cli by done. cbv zeta.
  rewrite bool_decide_eq_true_2 by done.
  unfold UpdateDatabases.run_s3_sync.
  change (set_log [] (add_log _ (add_log _ w))) with (set_log [] w).
  rewrite (child_upload env verbose dry_run bucket_name _ w db_dir files) by done.
  destruct (get_local_files_world db_dir (set_log [(INFO, MsgStartUpload)] w)) as [l0 Hw0].
  rewrite Hw0.
  set (w0 := add_log l0 (set_log [(INFO, MsgStartUpload)] w)).
  pose proof (upload_stale_false
                (UpdateDatabases.child_env env bucket_name
                   (S3Sync.or_default s3_region "us-east-1"))
                bucket_name "clamav/databases/" files dry_run w0 f t d ts Hnd
                (regular_files_fs files w w0 eq_refl Hreg) Hin Hf Hhead Ho Hle) as Hup.
  assert (Hlog : exists l1, log (S3Sync.upload_to_s3
                   (UpdateDatabases.child_env env bucket_name
                      (S3Sync.or_default s3_region "us-east-1"))
                   bucket_name "clamav/databases/" files false dry_run w0).2 = log w0 ++ l1
                 /\ l1 <> []).
  { destruct files as [|g rest]; [by apply elem_of_nil in Hin|].
    unfold S3Sync.upload_to_s3 in *. unfold bind at 1 in Hup. unfold bind at 1.
    destruct (upload_loop_exact
                (UpdateDatabases.child_env env bucket_name
                   (S3Sync.or_default s3_region "us-east-1"))
                bucket_name "clamav/databases/" false dry_run w0 (g :: rest) 0%nat w0 Hnd
                (regular_files_fs _ w w0 eq_refl Hreg) eq_refl)
      as (c' & w' & l & Hrun & Hl & _); [done|].
    rewrite Hrun. destruct dry_run; simpl; rewrite Hl, <- app_assoc;
      (eexists; split; [reflexivity|]); by destruct l. }
  destruct Hlog as (l1 & Hl1 & Hne1).
  destruct (S3Sync.upload_to_s3 _ _ _ _ _ _ _) as [res w3]. simpl in Hup, Hl1. subst res.
  cbn [fst snd exit_status]. rewrite bool_decide_eq_false_2 by done.
  split; [done|].
  assert (Hprinted : negb (length (UpdateDatabases.printed verbose (log w3)) =? 0)%nat = true).
  { rewrite Hl1. subst w0. simpl. destruct verbose; reflexivity. }
  cbn [S3Sync.verbose]. rewrite Hprinted. unfold add_log, set_log. cbn [fst snd log fs objects calls].
  exists [(INFO, MsgUsingBucket bucket_name);
          (INFO, MsgStartingSync (PyStr bucket_name)
                   (PyStr (S3Sync.or_default s3_region "us-east-1")));
          (INFO, MsgRunningSync verbose dry_run)].
  by rewrite <- !app_assoc.
Qed.

(** The theorem above on the installed scenario, where [main.cvd] is newer
    in the bucket. *)
Lemma sync_reports_failure_when_a_file_is_up_to_date_witness :
  let r := UpdateDatabases.s3_sync_databases Scenario.quiet Scenario.script_dir false
             (Some "mirror") None false Scenario.installed in
  r.1 = Ok false
  /\ exists l, log r.2 = log Scenario.installed
                         ++ l ++ [(ERROR, MsgSyncFailed 1); (ERROR, MsgSyncStderr)].
Proof.
  apply (sync_reports_failure_when_a_file_is_up_to_date Scenario.quiet Scenario.script_dir
           false "mirror" None false Scenario.installed Scenario.db_dir
           [Scenario.db_file "daily.cvd"; Scenario.db_file "main.cvd"]
           (Scenario.db_file "main.cvd") 200 Blob 500).
  - discriminate.
  - vm_compute. by eexists.
  - reflexivity.
  - vm_compute; reflexivity.
  - vm_compute; reflexivity.
  - compute_done.
  - regular_by_computation.
  - compute_done.
  - vm_compute; reflexivity.
  - reflexivity.
  - vm_compute; reflexivity.
  - lia.
Defined.
